(** * Sentinel pre-signing firewall: a shallow embedding of the analysis
    pipeline and the properties of its specification.

    The development follows the TypeScript sources class by class:

    - [Js]                     string and byte helpers of the JavaScript runtime
    - [Sha256]                 the digest behind [crypto.createHash('sha256')]
    - [EvmApi], [Provider]     the @ethereumjs EVM and the JSON-RPC provider
    - [ProxyDetector]          analyzers/ProxyDetector.ts
    - [SecurityAnalyzer]       analyzers/SecurityAnalyzer.ts
    - [ScanHistory]            services/ScanHistory.ts
    - [SimulationEngine]       analyzers/simulators/SimulationEngine.ts
    - [TimeTravelAnalyzer]     analyzers/simulators/TimeTravelAnalyzer.ts
    - [CounterfactualAnalyzer] analyzers/simulators/CounterfactualAnalyzer.ts
    - [AdvancedSimulator]      analyzers/AdvancedSimulator.ts
    - [MLService]              services/MLService.ts
    - [EvmExecutor]            evm/utils/evmexecutor.ts
    - [OpcodeTracer]           analyzers/OpcodeTracer.ts
    - [ExplanationEngine]      analyzers/ExplanationEngine.ts
    - [BaselineCall]           the baseline call and step listener of evmexecutor.ts
    - [TrainingDataCollector]  services/ScanHistory.ts, the training samples
    - [EntropySpec]            the entropy the specification describes
    - [Fixtures]               concrete chains, engines and stores

    The properties come after the definitions, grouped by component.

    Conventions.  JavaScript integers that the code only adds, subtracts and
    compares (risk scores, gas, offsets) are [Z].  JavaScript doubles that
    hold fractions (probabilities, feature values) are exact rationals [Q].
    Strings are [string]: every flag, selector and address the pipeline
    builds is ASCII, so a character is one UTF-16 code unit and one byte.
    A call that may throw returns [option], [None] standing for the
    exception. *)

From Stdlib Require Import ZArith List String Ascii Bool Lia QArith Reals Lra.
From Stdlib Require Import Permutation Sorted.
From Stdlib Require Lqa.
From Stdlib.Strings Require Import Byte.
From stdpp Require Import base gmap strings list sorting.

Open Scope string_scope.
Open Scope Z_scope.

(** ** JavaScript runtime helpers *)
Module Js.

(** [s.startsWith(p)] *)
Definition startsWith (s p : string) : bool := String.prefix p s.

(** [s.includes(p)]: [p] occurs in [s] at some character offset. *)
Fixpoint includes (s p : string) : bool :=
  String.prefix p s ||
  match s with
  | EmptyString => false
  | String _ s' => includes s' p
  end.

(** [s.endsWith(p)] *)
Definition endsWith (s p : string) : bool :=
  let n := String.length s in
  let k := String.length p in
  (k <=? n)%nat && String.eqb (String.substring (n - k) k s) p.

(** [s.slice(a, b)] for [0 <= a <= b]. *)
Definition slice (a b : nat) (s : string) : string :=
  String.substring a (b - a) s.

(** [s.toLowerCase()] on ASCII text. *)
Definition lower_ascii (c : ascii) : ascii :=
  let n := nat_of_ascii c in
  if ((65 <=? n) && (n <=? 90))%nat then ascii_of_nat (n + 32) else c.

Fixpoint toLowerCase (s : string) : string :=
  match s with
  | EmptyString => EmptyString
  | String c s' => String (lower_ascii c) (toLowerCase s')
  end.

(** [xs.join(sep)] *)
Fixpoint join (sep : string) (xs : list string) : string :=
  match xs with
  | [] => ""
  | [x] => x
  | x :: rest => x ++ sep ++ join sep rest
  end.

(** A string is truthy unless it is empty. *)
Definition truthy (s : string) : bool := negb (String.eqb s "").

(** [a || b] on optional strings: the first one that is present and
    non-empty. *)
Definition or_else (a : option string) (b : option string) : option string :=
  match a with
  | Some s => if truthy s then Some s else b
  | None => b
  end.

Definition hex_digit (n : N) : ascii :=
  match n with
  | 0%N => "0" | 1%N => "1" | 2%N => "2" | 3%N => "3"
  | 4%N => "4" | 5%N => "5" | 6%N => "6" | 7%N => "7"
  | 8%N => "8" | 9%N => "9" | 10%N => "a" | 11%N => "b"
  | 12%N => "c" | 13%N => "d" | 14%N => "e" | _ => "f"
  end%char.

(** Two lowercase hex digits of one byte. *)
Definition hex_of_byte (b : byte) : string :=
  let n := Byte.to_N b in
  String (hex_digit (n / 16)) (String (hex_digit (n mod 16)) "").

(** [Buffer.from(bytes).toString('hex')]: lowercase, no prefix. *)
Fixpoint toHex (bs : list byte) : string :=
  match bs with
  | [] => ""
  | b :: rest => hex_of_byte b ++ toHex rest
  end.

(** [bytesToHex(bytes)] of @ethereumjs/util: lowercase with the 0x prefix. *)
Definition bytesToHex (bs : list byte) : string := "0x" ++ toHex bs.

Definition hex_value (c : ascii) : option N :=
  let n := N_of_ascii c in
  if ((48 <=? n) && (n <=? 57))%N then Some (n - 48)%N
  else if ((97 <=? n) && (n <=? 102))%N then Some (n - 87)%N
  else if ((65 <=? n) && (n <=? 70))%N then Some (n - 55)%N
  else None.

(** Decode an even-length run of hex digits. *)
Fixpoint fromHex (s : string) : option (list byte) :=
  match s with
  | EmptyString => Some []
  | String c1 (String c2 rest) =>
      match hex_value c1, hex_value c2, fromHex rest with
      | Some h, Some l, Some bs =>
          match Byte.of_N (h * 16 + l) with
          | Some b => Some (b :: bs)
          | None => None
          end
      | _, _, _ => None
      end
  | String _ EmptyString => None
  end.

(** [bs.every(b => b === 0)] *)
Definition all_zero (bs : list byte) : bool :=
  forallb (fun b => N.eqb (Byte.to_N b) 0) bs.

(** [bs.slice(-k)]: the last [k] elements. *)
Definition last_n {A} (k : nat) (xs : list A) : list A :=
  skipn (length xs - k) xs.

(** Decimal text of an integer, as template literals print it. *)
Definition digit_char (n : Z) : ascii := ascii_of_N (Z.to_N (48 + n)).

Fixpoint decimal_pos (fuel : nat) (n : Z) (acc : string) : string :=
  match fuel with
  | O => acc
  | S fuel' =>
      let acc' := String (digit_char (n mod 10)) acc in
      if n / 10 =? 0 then acc' else decimal_pos fuel' (n / 10) acc'
  end.

Definition toString (n : Z) : string :=
  if n <? 0 then "-" ++ decimal_pos (Z.to_nat (Z.log2 (- n)) + 1) (- n) ""
  else decimal_pos (Z.to_nat (Z.log2 n) + 1) n "".

End Js.

(** ** SHA-256 (FIPS 180-4), the digest computed by
    [crypto.createHash('sha256').update(s).digest('hex')].
    Words are 32-bit integers held in [Z] with the wrap-around written out. *)
Module Sha256.

Definition w32 (x : Z) : Z := x mod 2 ^ 32.

Definition add32 (x y : Z) : Z := w32 (x + y).

Definition rotr (n x : Z) : Z :=
  Z.lor (Z.shiftr x n) (w32 (Z.shiftl x (32 - n))).

Definition not32 (x : Z) : Z := 2 ^ 32 - 1 - x.

Definition Ch (x y z : Z) : Z :=
  Z.lxor (Z.land x y) (Z.land (not32 x) z).

Definition Maj (x y z : Z) : Z :=
  Z.lxor (Z.lxor (Z.land x y) (Z.land x z)) (Z.land y z).

Definition Sigma0 (x : Z) : Z :=
  Z.lxor (Z.lxor (rotr 2 x) (rotr 13 x)) (rotr 22 x).

Definition Sigma1 (x : Z) : Z :=
  Z.lxor (Z.lxor (rotr 6 x) (rotr 11 x)) (rotr 25 x).

Definition sigma0 (x : Z) : Z :=
  Z.lxor (Z.lxor (rotr 7 x) (rotr 18 x)) (Z.shiftr x 3).

Definition sigma1 (x : Z) : Z :=
  Z.lxor (Z.lxor (rotr 17 x) (rotr 19 x)) (Z.shiftr x 10).

(** The first sixty-four primes. *)
Definition primes : list Z :=
  [ 2; 3; 5; 7; 11; 13; 17; 19; 23; 29; 31; 37; 41; 43; 47; 53;
    59; 61; 67; 71; 73; 79; 83; 89; 97; 101; 103; 107; 109; 113; 127; 131;
    137; 139; 149; 151; 157; 163; 167; 173; 179; 181; 191; 193; 197; 199;
    211; 223; 227; 229; 233; 239; 241; 251; 257; 263; 269; 271; 277; 281;
    283; 293; 307; 311 ].

(** Integer cube root, found bit by bit from the top. *)
Fixpoint cbrt_bits (bits : nat) (n r : Z) : Z :=
  match bits with
  | O => r
  | S b =>
      let r' := r + 2 ^ Z.of_nat b in
      cbrt_bits b n (if r' * r' * r' <=? n then r' else r)
  end.

Definition cbrt (n : Z) : Z := cbrt_bits 40 n 0.

(** Round constants: the first 32 bits of the fractional parts of the cube
    roots of the primes. *)
Definition K : list Z := map (fun p => w32 (cbrt (p * 2 ^ 96))) primes.

(** Initial hash value: the first 32 bits of the fractional parts of the
    square roots of the first eight primes. *)
Definition H0 : list Z := map (fun p => w32 (Z.sqrt (p * 2 ^ 64))) (firstn 8 primes).

(** Message bytes of a string, as [update(s)] encodes it (UTF-8): one
    byte for an ASCII character, two for a code unit from 128 to 255. *)
Definition utf8 (c : Z) : list Z :=
  if c <? 128 then [c] else [192 + c / 64; 128 + c mod 64].

Fixpoint bytes_of_string (s : string) : list Z :=
  match s with
  | EmptyString => []
  | String c s' => utf8 (Z.of_N (N_of_ascii c)) ++ bytes_of_string s'
  end.

(** Big-endian bytes of [x], [n] of them. *)
Fixpoint be_bytes (n : nat) (x : Z) : list Z :=
  match n with
  | O => []
  | S n' => be_bytes n' (x / 256) ++ [x mod 256]
  end.

(** Padding: the bit 1, zeros up to 56 modulo 64, the 64-bit bit length. *)
Definition pad (msg : list Z) : list Z :=
  let len := Z.of_nat (length msg) in
  let zeros := Z.to_nat ((55 - len) mod 64) in
  msg ++ [0x80] ++ repeat 0 zeros ++ be_bytes 8 (8 * len).

Fixpoint words_of_bytes (bs : list Z) : list Z :=
  match bs with
  | b0 :: b1 :: b2 :: b3 :: rest =>
      (((b0 * 256 + b1) * 256 + b2) * 256 + b3) :: words_of_bytes rest
  | _ => []
  end.

(** Split into blocks of sixteen words. *)
Fixpoint blocks (fuel : nat) (ws : list Z) : list (list Z) :=
  match fuel, ws with
  | S fuel', _ :: _ => firstn 16 ws :: blocks fuel' (skipn 16 ws)
  | _, _ => []
  end.

(** The message schedule: sixteen block words extended to sixty-four. *)
Fixpoint schedule (n : nat) (w : list Z) : list Z :=
  match n with
  | O => w
  | S n' =>
      let t := length w in
      let g (k : nat) := nth (t - k) w 0 in
      schedule n'
        (w ++ [add32 (add32 (sigma1 (g 2%nat)) (g 7%nat))
                     (add32 (sigma0 (g 15%nat)) (g 16%nat))])
  end.

Record regs := Regs { ra : Z; rb : Z; rc : Z; rd : Z;
                      re : Z; rf : Z; rg : Z; rh : Z }.

Definition round (s : regs) (kw : Z * Z) : regs :=
  let '(k, w) := kw in
  let t1 := add32 (add32 (add32 (rh s) (Sigma1 (re s)))
                         (add32 (Ch (re s) (rf s) (rg s)) k)) w in
  let t2 := add32 (Sigma0 (ra s)) (Maj (ra s) (rb s) (rc s)) in
  Regs (add32 t1 t2) (ra s) (rb s) (rc s) (add32 (rd s) t1) (re s) (rf s) (rg s).

Definition regs_of (h : list Z) : regs :=
  Regs (nth 0 h 0) (nth 1 h 0) (nth 2 h 0) (nth 3 h 0)
       (nth 4 h 0) (nth 5 h 0) (nth 6 h 0) (nth 7 h 0).

Definition list_of (s : regs) : list Z :=
  [ra s; rb s; rc s; rd s; re s; rf s; rg s; rh s].

Definition compress (h : list Z) (block : list Z) : list Z :=
  let w := schedule 48 block in
  let s := fold_left round (combine K w) (regs_of h) in
  map (fun p => add32 (fst p) (snd p)) (combine h (list_of s)).

Definition digest (msg : list Z) : list Z :=
  let ws := words_of_bytes (pad msg) in
  fold_left compress (blocks (length ws) ws) H0.

Fixpoint hex_of_nibbles (n : nat) (x : Z) (acc : string) : string :=
  match n with
  | O => acc
  | S n' => hex_of_nibbles n' (x / 16) (String (Js.hex_digit (Z.to_N (x mod 16))) acc)
  end.

Definition hex_of_word (x : Z) : string := hex_of_nibbles 8 x "".

(** The sixty-four lowercase hex characters of the digest of [s]. *)
Definition hexdigest (s : string) : string :=
  fold_right (fun w acc => hex_of_word w ++ acc) "" (digest (bytes_of_string s)).

End Sha256.

(** ** The forked EVM and the chain provider, as the analyzers use them *)

(** An account address: twenty bytes. *)
Definition Address := list byte.

Module Addr.

(** [address.toString()]: 0x and forty lowercase hex digits. *)
Definition toString (a : Address) : string := Js.bytesToHex a.

(** [Address.fromString(s)] / [createAddressFromString(s)]: throws unless
    [s] is 0x followed by forty hex digits. *)
Definition fromString (s : string) : option Address :=
  if Js.startsWith s "0x" then
    match Js.fromHex (String.substring 2 (String.length s - 2) s) with
    | Some bs => if (length bs =? 20)%nat then Some bs else None
    | None => None
    end
  else None.

(** [new Address(bytes)]: throws unless there are exactly twenty bytes. *)
Definition ofBytes (bs : list byte) : option Address :=
  if (length bs =? 20)%nat then Some bs else None.

Definition ZERO : string := "0x0000000000000000000000000000000000000000".

End Addr.

(** Options of [evm.runCall] that the analyzers set. *)
Record RunCallOpts := {
  call_to : Address;
  call_data : list byte;
  call_gasLimit : Z
}.

(** [result.execResult] *)
Record ExecResult := {
  exceptionError : option string;
  returnValue : list byte;
  executionGasUsed : Z
}.

(** The operations of the @ethereumjs EVM and its state manager.  [S] is the
    state of one EVM instance; an operation that can throw returns [None];
    operations that write return the next state. *)
Class EvmApi (S : Type) := {
  Account : Type;
  newAccount : Account;
  getAccount : S -> Address -> option (option Account);
  putAccount : S -> Address -> Account -> option S;
  getContractCode : S -> Address -> option (list byte);
  getCode : S -> Address -> option (list byte);
  getContractStorage : S -> Address -> Z -> option (list byte);
  runCall : S -> RunCallOpts -> option ExecResult * S;
  putCode : S -> Address -> list byte -> option S
}.

(** The two generations of the state manager.  The class lists every
    operation the sources call, but no release of @ethereumjs offers all
    of them: [getContractCode] and [getContractStorage] belong to the
    releases before 10, [getCode] and [putCode] to release 10, which named
    them anew.  A call of an operation the installed release does not have
    throws a TypeError, which is [None] here.

    The program builds its EVM with [createEVM], which only release 10
    has, so its state manager is a current one. *)
Definition currentStateManager (S : Type) `{EvmApi S} : Prop :=
  (forall evm a, getContractCode evm a = None)
  /\ (forall evm a slot, getContractStorage evm a slot = None).

Definition legacyStateManager (S : Type) `{EvmApi S} : Prop :=
  (forall evm a, getCode evm a = None)
  /\ (forall evm a code, putCode evm a code = None).

(** The JSON-RPC provider.  Results are already decoded from hex; [None]
    stands for a failed request or a reply that does not decode. *)
Record Provider := {
  p_getStorage : string -> Z -> option (list byte);
  p_getCode : string -> option (list byte);
  p_call : string -> list byte -> option (list byte)
}.

(** ** analyzers/ProxyDetector.ts *)
Module ProxyDetector.

Inductive ProxyType := EIP1967 | EIP1822 | EIP897 | Minimal.

Record ProxyInfo := {
  isProxy : bool;
  proxyType : option ProxyType;
  implementationAddress : option string;
  beaconAddress : option string;
  adminAddress : option string
}.

Definition notProxy : ProxyInfo :=
  {| isProxy := false; proxyType := None; implementationAddress := None;
     beaconAddress := None; adminAddress := None |}.

(** [STORAGE_SLOTS] *)
Definition EIP1967_IMPLEMENTATION : Z :=
  0x360894a13ba1a3210667c828492db98dca3e2076cc3735a920a3ca505d382bbc.
Definition EIP1967_BEACON : Z :=
  0xa3f0ad74e5423aebfd80d3ef4346578335a9a72aeaee59ff6cb3582b35133d50.
Definition EIP1967_ADMIN : Z :=
  0xb53127684a568b3173ae13b9f8a6016e243e63b6e8ee1178d6a717850b5d6103.
Definition EIP1822_IMPLEMENTATION : Z :=
  0xc5f16f0fcc639fa48a6947836d9850f504798523bf8c9a3a87d5876cf622bcf7.

Definition MINIMAL_PROXY_PREFIX : string := "363d3d373d3d3d363d73".
Definition MINIMAL_PROXY_SUFFIX : string := "5af43d82803e903d91602b57fd5bf3".

(** [checkMinimalProxy(codeHex)]: [Some impl] when the pattern matches. *)
Definition checkMinimalProxy (codeHex : string) : option string :=
  if Js.startsWith codeHex MINIMAL_PROXY_PREFIX
     && Js.endsWith codeHex MINIMAL_PROXY_SUFFIX
  then
    let prefixLen := String.length MINIMAL_PROXY_PREFIX in
    let addressHex := Js.slice prefixLen (prefixLen + 40) codeHex in
    Some ("0x" ++ addressHex)
  else None.

(** [containsDelegateCall(codeHex)] *)
Definition containsDelegateCall (codeHex : string) : bool :=
  Js.includes codeHex "f4".

(** [extractAddress(value)] *)
Definition extractAddress (value : list byte) : option string :=
  if (length value <? 20)%nat then None
  else
    let addressBytes := Js.last_n 20 value in
    let addressHex := Js.bytesToHex addressBytes in
    if Js.all_zero addressBytes then None else Some addressHex.

(** [a && a !== ZERO] for an address string that may be null. *)
Definition isSet (a : option string) : bool :=
  match a with
  | Some s => Js.truthy s && negb (String.eqb s Addr.ZERO)
  | None => false
  end.

Section WithEvm.
Context {S : Type} `{EvmApi S}.

(** Read a slot from the EVM state, falling back to the provider when
    the state manager throws; [None] when neither yields a value. *)
Definition readSlot (evm : S) (address : Address)
           (provider : option Provider) (slot : Z) : option (list byte) :=
  match getContractStorage evm address slot with
  | Some v => Some v
  | None =>
      match provider with
      | Some p => p_getStorage p (Addr.toString address) slot
      | None => None
      end
  end.

(** A secondary slot (beacon, admin) is read from the EVM state only. *)
Definition readOptionalSlot (evm : S) (address : Address) (slot : Z)
  : option string :=
  match getContractStorage evm address slot with
  | Some v =>
      let a := extractAddress v in
      if isSet a then a else None
  | None => None
  end.

Definition checkEIP1967Slots (evm : S) (address : Address)
           (provider : option Provider) : ProxyInfo :=
  match readSlot evm address provider EIP1967_IMPLEMENTATION with
  | None => notProxy
  | Some implValue =>
      let implAddress := extractAddress implValue in
      if isSet implAddress then
        {| isProxy := true;
           proxyType := Some EIP1967;
           implementationAddress := implAddress;
           beaconAddress := readOptionalSlot evm address EIP1967_BEACON;
           adminAddress := readOptionalSlot evm address EIP1967_ADMIN |}
      else notProxy
  end.

Definition checkEIP1822 (evm : S) (address : Address)
           (provider : option Provider) : ProxyInfo :=
  match readSlot evm address provider EIP1822_IMPLEMENTATION with
  | None => notProxy
  | Some value =>
      let implAddress := extractAddress value in
      if isSet implAddress then
        {| isProxy := true;
           proxyType := Some EIP1822;
           implementationAddress := implAddress;
           beaconAddress := None;
           adminAddress := None |}
      else notProxy
  end.

(** Selector of [implementation()]: 0x5c60da1b. *)
Definition IMPLEMENTATION_SELECTOR : list byte := [x5c; x60; xda; x1b].

Definition checkEIP897 (evm : S) (address : Address) : ProxyInfo * S :=
  let '(r, evm') :=
    runCall evm {| call_to := address;
                   call_data := IMPLEMENTATION_SELECTOR;
                   call_gasLimit := 50000 |} in
  match r with
  | Some res =>
      match exceptionError res with
      | None =>
          if (length (returnValue res) =? 32)%nat then
            let implAddress := extractAddress (returnValue res) in
            if isSet implAddress then
              ({| isProxy := true;
                  proxyType := Some EIP897;
                  implementationAddress := implAddress;
                  beaconAddress := None;
                  adminAddress := None |}, evm')
            else (notProxy, evm')
          else (notProxy, evm')
      | Some _ => (notProxy, evm')
      end
  | None => (notProxy, evm')
  end.

(** [detectProxy(evm, address, provider)] *)
Definition detectProxy (evm : S) (address : Address)
           (provider : option Provider) : ProxyInfo * S :=
  match getContractCode evm address with
  | None => (notProxy, evm)
  | Some code =>
      let codeHex := Js.toHex code in
      match checkMinimalProxy codeHex with
      | Some implementation =>
          ({| isProxy := true;
              proxyType := Some Minimal;
              implementationAddress := Some implementation;
              beaconAddress := None;
              adminAddress := None |}, evm)
      | None =>
          let hasDelegateCall := containsDelegateCall codeHex in
          let isMinimalCode := (length code <? 200)%nat in
          let eip1967Result := checkEIP1967Slots evm address provider in
          if isProxy eip1967Result then (eip1967Result, evm)
          else
            let eip1822Result := checkEIP1822 evm address provider in
            if isProxy eip1822Result then (eip1822Result, evm)
            else
              let '(eip897Result, evm') := checkEIP897 evm address in
              if isProxy eip897Result then (eip897Result, evm')
              else if isMinimalCode && hasDelegateCall then
                ({| isProxy := true;
                    proxyType := Some Minimal;
                    implementationAddress := None;
                    beaconAddress := None;
                    adminAddress := None |}, evm')
              else (notProxy, evm')
      end
  end.

(** [!proxyInfo.isProxy || !proxyInfo.implementationAddress] negated:
    the implementation to follow, if any. *)
Definition nextImplementation (info : ProxyInfo) : option string :=
  if isProxy info then
    match implementationAddress info with
    | Some a => if Js.truthy a then Some a else None
    | None => None
    end
  else None.

(** Load the implementation code into the EVM; [None] on any of the
    paths that leave the loop: no provider, empty or failed [getCode],
    an address that does not parse, a state manager error. *)
Definition loadImplementation (evm : S) (provider : option Provider)
           (impl : string) : option (Address * S) :=
  match provider with
  | None => None
  | Some p =>
      match p_getCode p impl with
      | None => None
      | Some [] => None
      | Some implCode =>
          match Addr.fromString impl with
          | None => None
          | Some implAddress =>
              match putAccount evm implAddress newAccount with
              | None => None
              | Some evm1 =>
                  match putCode evm1 implAddress implCode with
                  | None => None
                  | Some evm2 => Some (implAddress, evm2)
                  end
              end
          end
      end
  end.

(** The [while (depth < maxDepth)] loop; [remaining] is
    [maxDepth - depth], which every completed iteration decreases. *)
Fixpoint walk (remaining : nat) (evm : S) (provider : option Provider)
         (currentAddress : Address) (chain : list string) : list string :=
  match remaining with
  | O => chain
  | Datatypes.S remaining' =>
      let '(proxyInfo, evm1) := detectProxy evm currentAddress provider in
      match nextImplementation proxyInfo with
      | None => chain
      | Some impl =>
          let chain' := (chain ++ [impl])%list in
          match loadImplementation evm1 provider impl with
          | None => chain'
          | Some (implAddress, evm2) =>
              walk remaining' evm2 provider implAddress chain'
          end
      end
  end.

Record Resolution := {
  chain : list string;
  finalImplementation : option string
}.

(** [resolveImplementationChain(evm, address, provider, maxDepth = 5)] *)
Definition resolveImplementationChain (evm : S) (address : Address)
           (provider : option Provider) (maxDepth : nat) : Resolution :=
  let c := walk maxDepth evm provider address [Addr.toString address] in
  {| chain := c;
     finalImplementation :=
       if (1 <? length c)%nat then last c else None |}.

Definition DEFAULT_MAX_DEPTH : nat := 5.

End WithEvm.

End ProxyDetector.

(** ** analyzers/ExplanationEngine.ts: the shape of a mechanism story *)
Record Explanation := {
  title : string;
  story : string;
  severity : string
}.

(** ** analyzers/SecurityAnalyzer.ts *)
Module SecurityAnalyzer.

Inductive OwnershipStatus := Unknown | Renounced | Centralized.

Definition ownershipName (o : OwnershipStatus) : string :=
  match o with
  | Unknown => "Unknown"
  | Renounced => "Renounced"
  | Centralized => "Centralized"
  end.

Record SecurityReport := {
  isHoneypot : bool;
  ownershipStatus : OwnershipStatus;
  riskScore : Z;
  flags : list string;
  proxyInfo : option ProxyDetector.ProxyInfo;
  analyzedAddress : option string;
  ownerAddress : option string;
  friendlyExplanation : option string;
  mechanismStory : option Explanation;
  tracingEvents : option (list string)
}.

Definition set_isHoneypot (v : bool) (r : SecurityReport) : SecurityReport :=
  {| isHoneypot := v; ownershipStatus := ownershipStatus r;
     riskScore := riskScore r; flags := flags r; proxyInfo := proxyInfo r;
     analyzedAddress := analyzedAddress r; ownerAddress := ownerAddress r;
     friendlyExplanation := friendlyExplanation r;
     mechanismStory := mechanismStory r; tracingEvents := tracingEvents r |}.

Definition set_ownership (o : OwnershipStatus) (a : option string)
           (r : SecurityReport) : SecurityReport :=
  {| isHoneypot := isHoneypot r; ownershipStatus := o;
     riskScore := riskScore r; flags := flags r; proxyInfo := proxyInfo r;
     analyzedAddress := analyzedAddress r; ownerAddress := a;
     friendlyExplanation := friendlyExplanation r;
     mechanismStory := mechanismStory r; tracingEvents := tracingEvents r |}.

Definition set_riskScore (v : Z) (r : SecurityReport) : SecurityReport :=
  {| isHoneypot := isHoneypot r; ownershipStatus := ownershipStatus r;
     riskScore := v; flags := flags r; proxyInfo := proxyInfo r;
     analyzedAddress := analyzedAddress r; ownerAddress := ownerAddress r;
     friendlyExplanation := friendlyExplanation r;
     mechanismStory := mechanismStory r; tracingEvents := tracingEvents r |}.

Definition set_flags (v : list string) (r : SecurityReport) : SecurityReport :=
  {| isHoneypot := isHoneypot r; ownershipStatus := ownershipStatus r;
     riskScore := riskScore r; flags := v; proxyInfo := proxyInfo r;
     analyzedAddress := analyzedAddress r; ownerAddress := ownerAddress r;
     friendlyExplanation := friendlyExplanation r;
     mechanismStory := mechanismStory r; tracingEvents := tracingEvents r |}.

Definition set_proxy (p : option ProxyDetector.ProxyInfo) (a : option string)
           (r : SecurityReport) : SecurityReport :=
  {| isHoneypot := isHoneypot r; ownershipStatus := ownershipStatus r;
     riskScore := riskScore r; flags := flags r; proxyInfo := p;
     analyzedAddress := a; ownerAddress := ownerAddress r;
     friendlyExplanation := friendlyExplanation r;
     mechanismStory := mechanismStory r; tracingEvents := tracingEvents r |}.

Definition set_friendlyExplanation (v : option string) (r : SecurityReport)
  : SecurityReport :=
  {| isHoneypot := isHoneypot r; ownershipStatus := ownershipStatus r;
     riskScore := riskScore r; flags := flags r; proxyInfo := proxyInfo r;
     analyzedAddress := analyzedAddress r; ownerAddress := ownerAddress r;
     friendlyExplanation := v;
     mechanismStory := mechanismStory r; tracingEvents := tracingEvents r |}.

Definition set_story (m : option Explanation) (t : option (list string))
           (r : SecurityReport) : SecurityReport :=
  {| isHoneypot := isHoneypot r; ownershipStatus := ownershipStatus r;
     riskScore := riskScore r; flags := flags r; proxyInfo := proxyInfo r;
     analyzedAddress := analyzedAddress r; ownerAddress := ownerAddress r;
     friendlyExplanation := friendlyExplanation r;
     mechanismStory := m; tracingEvents := t |}.

(** [report.flags.push(f)] *)
Definition push_flag (f : string) (r : SecurityReport) : SecurityReport :=
  set_flags (flags r ++ [f])%list r.

(** [report.riskScore += n] *)
Definition add_risk (n : Z) (r : SecurityReport) : SecurityReport :=
  set_riskScore (riskScore r + n) r.

(** Selector of [owner()]: 0x8da5cb5b. *)
Definition OWNER_SELECTOR : list byte := [x8d; xa5; xcb; x5b].

Record Pattern := { name : string; selector : string; risk : Z }.

Definition suspiciousPatterns : list Pattern :=
  [ {| name := "blacklist(address)"; selector := "f9f92be4"; risk := 50 |};
    {| name := "pause()"; selector := "8456cb59"; risk := 30 |};
    {| name := "_pause()"; selector := "2f2b3887"; risk := 30 |};
    {| name := "enableTrading()"; selector := "8a8c523c"; risk := 20 |};
    {| name := "openTrading()"; selector := "c9044b7d"; risk := 20 |};
    {| name := "setFee(uint256)"; selector := "69fe0e2d"; risk := 25 |};
    {| name := "setTaxFeePercent(uint256)"; selector := "061c82d0"; risk := 25 |};
    {| name := "setMarketingFee(uint256)"; selector := "2323cc66"; risk := 20 |};
    {| name := "updateFees(uint256,uint256)"; selector := "37b8d80f"; risk := 20 |};
    {| name := "mint(address,uint256)"; selector := "40c10f19"; risk := 60 |};
    {| name := "_mint(address,uint256)"; selector := "9c0f929c"; risk := 60 |};
    {| name := "removeLiquidity"; selector := "78265506"; risk := 90 |};
    {| name := "removeLiquidityETH"; selector := "af2979eb"; risk := 90 |};
    {| name := "drain()"; selector := "d040220a"; risk := 100 |};
    {| name := "withdrawETH()"; selector := "474cf53d"; risk := 50 |};
    {| name := "_transfer"; selector := "30e0789e"; risk := 40 |};
    {| name := "_beforeTokenTransfer"; selector := "38d52e0f"; risk := 30 |};
    {| name := "setMaxTxAmount"; selector := "83151877"; risk := 20 |} ].

Definition initialReport : SecurityReport :=
  {| isHoneypot := false; ownershipStatus := Unknown; riskScore := 0;
     flags := []; proxyInfo := None; analyzedAddress := None;
     ownerAddress := None; friendlyExplanation := None;
     mechanismStory := None; tracingEvents := None |}.

(** Step 1 of [analyze]: the simulation result. *)
Definition analyzeSimulation (status : string) (report : SecurityReport)
  : SecurityReport :=
  if Js.truthy status && Js.startsWith status "Reverted" then
    add_risk 20 (push_flag "Simulation Reverted" report)
  else report.

(** Step 2, after the owner() return value is known.  [new Address(..)]
    throws on a value that is not twenty bytes long, which leaves the
    report as it was. *)
Definition interpretOwner (returnValue : list byte) (report : SecurityReport)
  : SecurityReport :=
  if (20 <=? length returnValue)%nat then
    let ownerBytes :=
      if (length returnValue =? 32)%nat then skipn 12 returnValue
      else returnValue in
    let isZero := Js.all_zero ownerBytes in
    match Addr.ofBytes ownerBytes with
    | None => report
    | Some a =>
        let ownerAddress := Addr.toString a in
        if isZero then
          push_flag "Ownership Renounced (Safe)" (set_ownership Renounced (SecurityAnalyzer.ownerAddress report) report)
        else
          add_risk 10
            (push_flag ("Contract has an Owner: " ++ ownerAddress)
               (set_ownership Centralized (Some ownerAddress) report))
    end
  else report.

(** Step 3: one pass of the loop over [suspiciousPatterns]. *)
Definition scanPattern (codeHex : string) (report : SecurityReport)
           (pattern : Pattern) : SecurityReport :=
  if Js.includes codeHex (selector pattern) then
    set_isHoneypot true
      (add_risk (risk pattern)
         (push_flag ("Suspicious Function: " ++ name pattern ++ "()") report))
  else report.

Definition scanBytecode (code : list byte) (report : SecurityReport)
  : SecurityReport :=
  let codeHex := Js.toLowerCase (Js.toHex code) in
  fold_left (scanPattern codeHex) suspiciousPatterns report.

Section WithEvm.
Context {S : Type} `{EvmApi S}.

(** Step 2: ownership.  The EVM is asked first; an empty or all-zero
    answer is retried through the provider. *)
Definition checkOwnership (evm : S) (targetAddress : Address)
           (provider : option Provider) (report : SecurityReport)
  : SecurityReport * S :=
  let '(r, evm') :=
    runCall evm {| call_to := targetAddress;
                   call_data := OWNER_SELECTOR;
                   call_gasLimit := 50000 |} in
  match r with
  | None => (report, evm')
  | Some ownerResult =>
      let returnValue := returnValue ownerResult in
      let isEvmZero :=
        (length returnValue =? 0)%nat || Js.all_zero returnValue in
      let returnValue' :=
        match provider with
        | Some p =>
            if isEvmZero then
              match p_call p (Addr.toString targetAddress) OWNER_SELECTOR with
              | Some (b :: bs) => b :: bs
              | _ => returnValue
              end
            else returnValue
        | None => returnValue
        end in
      (interpretOwner returnValue' report, evm')
  end.

(** [SecurityAnalyzer.analyze(evm, targetAddress, simulationResult, provider)] *)
Definition analyze (evm : S) (targetAddress : Address) (status : string)
           (provider : option Provider) : SecurityReport * S :=
  let report1 := analyzeSimulation status initialReport in
  let '(report2, evm') := checkOwnership evm targetAddress provider report1 in
  match getCode evm' targetAddress with
  | Some code => (scanBytecode code report2, evm')
  | None => (report2, evm')
  end.

End WithEvm.

End SecurityAnalyzer.

(** ** services/ScanHistory.ts *)
Module ScanHistory.

Record ScanRecord := {
  timestamp : Z;
  chainId : option Z;
  contractAddress : string;
  riskScore : Z;
  flags : list string;
  capabilityHash : string;
  isHoneypot : bool;
  ownershipStatus : string;
  isProxy : option bool;
  implementationAddress : option string
}.

Record DriftAnalysis := {
  hasDrift : bool;
  riskDelta : Z;
  newFlags : list string;
  removedFlags : list string;
  previousScan : option ScanRecord
}.

(** The Redis database: the lists under [history:<address>] and the
    string values under [scan:<address>:<timestamp>].  A record is stored
    as its JSON text and parsed back on reading, which is the identity on
    the fields kept here.  Expiry of the [scan:] keys is not modelled. *)
Record Store := {
  history : gmap string (list ScanRecord);
  scans : gmap string ScanRecord
}.

Definition emptyStore : Store := {| history := ∅; scans := ∅ |}.

Definition KEY_PREFIX : string := "scan".
Definition HISTORY_PREFIX : string := "history".

(** [[...flags].sort()]: the default sort orders strings by their code
    units. *)
Definition sortFlags (flags : list string) : list string :=
  merge_sort String.le flags.

(** [generateCapabilityHash(flags)] *)
Definition generateCapabilityHash (flags : list string) : string :=
  let sorted := Js.join "|" (sortFlags flags) in
  String.substring 0 16 (Sha256.hexdigest sorted).

(** [client.lRange(key, 0, stop)] for [0 <= stop]; a missing key is an
    empty list. *)
Definition lRange (db : Store) (key : string) (stop : nat) : list ScanRecord :=
  take (Datatypes.S stop) (default [] (history db !! key)).

(** [client.lPush(key, v)] *)
Definition lPush (db : Store) (key : string) (v : ScanRecord) : Store :=
  {| history := <[key := v :: default [] (history db !! key)]> (history db);
     scans := scans db |}.

(** [client.lTrim(key, 0, stop)] for [0 <= stop]; a missing key stays
    missing. *)
Definition lTrim (db : Store) (key : string) (stop : nat) : Store :=
  {| history := alter (take (Datatypes.S stop)) key (history db);
     scans := scans db |}.

(** [client.setEx(key, ttl, v)] *)
Definition setEx (db : Store) (key : string) (v : ScanRecord) : Store :=
  {| history := history db; scans := <[key := v]> (scans db) |}.

Definition historyKey (contractAddress : string) : string :=
  HISTORY_PREFIX ++ ":" ++ Js.toLowerCase contractAddress.

(** [storeScan(contractAddress, chainId, report, proxyInfo)];
    [now] is [Date.now()]. *)
Definition storeScan (db : Store) (now : Z) (contractAddress : string)
           (chainId : option Z) (report : SecurityAnalyzer.SecurityReport)
           (proxyInfo : option (bool * option string)) : ScanRecord * Store :=
  let normalizedAddress := Js.toLowerCase contractAddress in
  let record :=
    {| timestamp := now;
       chainId := chainId;
       contractAddress := normalizedAddress;
       riskScore := SecurityAnalyzer.riskScore report;
       flags := SecurityAnalyzer.flags report;
       capabilityHash := generateCapabilityHash (SecurityAnalyzer.flags report);
       isHoneypot := SecurityAnalyzer.isHoneypot report;
       ownershipStatus :=
         SecurityAnalyzer.ownershipName (SecurityAnalyzer.ownershipStatus report);
       isProxy := fst <$> proxyInfo;
       implementationAddress := proxyInfo ≫= snd |} in
  let scanKey := KEY_PREFIX ++ ":" ++ normalizedAddress ++ ":" ++ Js.toString now in
  let db1 := setEx db scanKey record in
  let db2 := lPush db1 (historyKey contractAddress) record in
  let db3 := lTrim db2 (historyKey contractAddress) 99 in
  (record, db3).

(** The write command of [storeScan] that throws, when one does.  The
    connection is taken before the first write, so a throw of [connect()]
    counts as [AtSetEx]. *)
Inductive WriteStep := AtSetEx | AtLPush | AtLTrim.

(** The database that a call of [storeScan] leaves behind when its
    command [step] throws: the writes before it have been carried out. *)
Definition storeScanUntil (step : WriteStep) (db : Store) (now : Z)
           (contractAddress : string) (chainId : option Z)
           (report : SecurityAnalyzer.SecurityReport)
           (proxyInfo : option (bool * option string)) : Store :=
  let record := fst (storeScan db now contractAddress chainId report proxyInfo) in
  let scanKey :=
    KEY_PREFIX ++ ":" ++ Js.toLowerCase contractAddress ++ ":" ++ Js.toString now in
  match step with
  | AtSetEx => db
  | AtLPush => setEx db scanKey record
  | AtLTrim => lPush (setEx db scanKey record) (historyKey contractAddress) record
  end.

(** [getHistory(contractAddress, limit)] for [1 <= limit]. *)
Definition getHistory (db : Store) (contractAddress : string) (limit : nat)
  : list ScanRecord :=
  lRange db (historyKey contractAddress) (limit - 1).

(** [getLatestScan(contractAddress)] *)
Definition getLatestScan (db : Store) (contractAddress : string)
  : option ScanRecord :=
  let h := getHistory db contractAddress 1 in
  if (0 <? length h)%nat then head h else None.

(** [analyzeDrift(contractAddress, currentReport)] *)
Definition analyzeDrift (db : Store) (contractAddress : string)
           (currentReport : SecurityAnalyzer.SecurityReport) : DriftAnalysis :=
  match getLatestScan db contractAddress with
  | None =>
      {| hasDrift := false; riskDelta := 0; newFlags := [];
         removedFlags := []; previousScan := None |}
  | Some previousScan =>
      let currentCapabilityHash :=
        generateCapabilityHash (SecurityAnalyzer.flags currentReport) in
      let hasDrift :=
        negb (String.eqb currentCapabilityHash (capabilityHash previousScan)) in
      let currentFlagsSet : gset string :=
        list_to_set (SecurityAnalyzer.flags currentReport) in
      let previousFlagsSet : gset string := list_to_set (flags previousScan) in
      let newFlags :=
        filter (fun f => f ∉ previousFlagsSet) (SecurityAnalyzer.flags currentReport) in
      let removedFlags :=
        filter (fun f => f ∉ currentFlagsSet) (flags previousScan) in
      {| hasDrift := hasDrift;
         riskDelta := SecurityAnalyzer.riskScore currentReport - riskScore previousScan;
         newFlags := newFlags;
         removedFlags := removedFlags;
         previousScan := Some previousScan |}
  end.

(** [client.keys(pattern)] for the pattern [history:*]: the keys of the
    history lists, in the order the server lists them. *)
Definition historyKeys (db : Store) : list string :=
  List.filter (fun k => Js.startsWith k (HISTORY_PREFIX ++ ":"))
              (map fst (map_to_list (history db))).

(** One pass of the loop of [getContractsWithDrift] over the keys. *)
Definition driftOf (db : Store) (minRiskDelta : Z) (key : string) : list string :=
  match lRange db key 1 with
  | current :: previous :: _ =>
      if minRiskDelta <=? riskScore current - riskScore previous
      then [contractAddress current] else []
  | _ => []
  end.

(** [getContractsWithDrift(minRiskDelta = 20)] *)
Definition getContractsWithDrift (db : Store) (minRiskDelta : Z) : list string :=
  concat (map (driftOf db minRiskDelta) (historyKeys db)).

End ScanHistory.

(** ** analyzers/simulators/SimulationEngine.ts *)

(** [SimulationOutcome]: [status] is "Success" or "Reverted". *)
Record SimulationOutcome := {
  status : string;
  gasUsed : Z;
  outReturnValue : string;
  revertReason : option string
}.

(** Transaction parameters, [{ from, to, data, value }]. *)
Record TxParams := {
  tx_from : string;
  tx_to : string;
  tx_data : option string;
  tx_value : option string
}.

(** One simulation run is [createForkedEVM] on a fresh EVM followed by
    [executeWithTimestamp].  The chain behind the provider decides its
    result, so the engine is given by the result of each run: [None] when
    [createForkedEVM] reports [success = false], otherwise the outcome.
    [runAt tx offset] is a run for the sender of [tx] at the current time
    plus [offset] seconds; [runAs tx actor isOwner] is a run at the current
    time sent by [actor], with the owner slots injected when [isOwner]. *)
Record SimulationEngine := {
  runAt : TxParams -> Z -> option SimulationOutcome;
  runAs : TxParams -> string -> bool -> option SimulationOutcome;
  generateRandomAddress : string
}.

(** ** analyzers/simulators/TimeTravelAnalyzer.ts *)
Module TimeTravelAnalyzer.

Record FutureResult := {
  offsetDescription : string;
  offsetSeconds : Z;
  outcome : SimulationOutcome;
  divergesFromCurrent : bool
}.

Record CurrentBlockResult := { cur_status : string; cur_gasUsed : Z }.

Record TimeTravelResult := {
  isTimeSensitive : bool;
  currentBlockResult : CurrentBlockResult;
  futureResults : list FutureResult;
  summary : string;
  riskFlags : list string
}.

Definition timeOffsets : list (Z * string) :=
  [ (0, "Current Block");
    (3600, "+1 Hour");
    (86400, "+1 Day");
    (604800, "+7 Days");
    (2592000, "+30 Days");
    (-86400, "-1 Day (Past)") ].

(** The flags one diverging future result adds. *)
Definition flagsOf (currentSuccess : bool) (future : FutureResult) : list string :=
  if negb (divergesFromCurrent future) then []
  else
    let futureSuccess := String.eqb (status (outcome future)) "Success" in
    if currentSuccess && negb futureSuccess then
      if 0 <? offsetSeconds future then
        ("TIME-BOMB: Transaction fails at " ++ offsetDescription future) ::
        (if offsetSeconds future <=? 604800
         then ["CRITICAL: Fails within 7 days - possible honeypot activation"]
         else [])
      else []
    else if negb currentSuccess && futureSuccess then
      if 0 <? offsetSeconds future then
        ("DELAYED TRADING: Trading opens at " ++ offsetDescription future) ::
        (if 86400 <? offsetSeconds future
         then ["WARNING: Extended trading delay - verify legitimacy"]
         else [])
      else ["TRADING CLOSED: Transaction worked before but fails now"]
    else [].

(** [analyzeTimeTravelResults(result)] *)
Definition analyzeTimeTravelResults (result : TimeTravelResult) : TimeTravelResult :=
  let cur := cur_status (currentBlockResult result) in
  let currentSuccess := String.eqb cur "Success" in
  let riskFlags' :=
    (riskFlags result ++ concat (map (flagsOf currentSuccess) (futureResults result)))%list in
  let summary' :=
    if isTimeSensitive result then
      let failsFuture :=
        existsb (fun f => divergesFromCurrent f && String.eqb cur "Success"
                          && String.eqb (status (outcome f)) "Reverted"
                          && (0 <? offsetSeconds f))
                (futureResults result) in
      let opensLater :=
        existsb (fun f => divergesFromCurrent f && String.eqb cur "Reverted"
                          && String.eqb (status (outcome f)) "Success"
                          && (0 <? offsetSeconds f))
                (futureResults result) in
      if failsFuture then
        "TIME-SENSITIVE: This contract has time-based restrictions that will BLOCK transactions in the future. Possible delayed honeypot."
      else if opensLater then
        "DELAYED TRADING: Trading is not open yet but will be in the future. Verify this is legitimate."
      else
        "TIME-SENSITIVE: Transaction outcomes vary based on block timestamp."
    else
      "No time-based restrictions detected. Transaction behaves consistently across time." in
  {| isTimeSensitive := isTimeSensitive result;
     currentBlockResult := currentBlockResult result;
     futureResults := futureResults result;
     summary := summary';
     riskFlags := riskFlags' |}.

(** One pass of the loop over [timeOffsets]. *)
Definition step (engine : SimulationEngine) (txParams : TxParams)
           (result : TimeTravelResult) (offset : Z * string) : TimeTravelResult :=
  let '(seconds, description) := offset in
  if seconds =? 0 then result
  else
    match runAt engine txParams seconds with
    | None => result
    | Some outcome =>
        let diverges :=
          negb (String.eqb (status outcome) (cur_status (currentBlockResult result))) in
        {| isTimeSensitive := if diverges then true else isTimeSensitive result;
           currentBlockResult := currentBlockResult result;
           futureResults :=
             (futureResults result ++
              [ {| offsetDescription := description;
                   offsetSeconds := seconds;
                   outcome := outcome;
                   divergesFromCurrent := diverges |} ])%list;
           summary := summary result;
           riskFlags := riskFlags result |}
    end.

Definition initialResult : TimeTravelResult :=
  {| isTimeSensitive := false;
     currentBlockResult := {| cur_status := "Reverted"; cur_gasUsed := 0 |};
     futureResults := [];
     summary := "";
     riskFlags := [] |}.

(** [runTimeTravelSimulation(txParams, prefetchedBytecode)] *)
Definition runTimeTravelSimulation (engine : SimulationEngine)
           (txParams : TxParams) : TimeTravelResult :=
  match runAt engine txParams 0 with
  | None =>
      {| isTimeSensitive := false;
         currentBlockResult := currentBlockResult initialResult;
         futureResults := [];
         summary := "Failed to create forked EVM for current block";
         riskFlags := [] |}
  | Some current =>
      let result0 :=
        {| isTimeSensitive := false;
           currentBlockResult :=
             {| cur_status := status current; cur_gasUsed := gasUsed current |};
           futureResults := [];
           summary := "";
           riskFlags := [] |} in
      analyzeTimeTravelResults (fold_left (step engine txParams) timeOffsets result0)
  end.

End TimeTravelAnalyzer.

(** ** analyzers/simulators/CounterfactualAnalyzer.ts *)
Module CounterfactualAnalyzer.

Inductive ActorType := RandomUser | Owner | WhitelistedAddress | Deployer.

Definition isType (a b : ActorType) : bool :=
  match a, b with
  | RandomUser, RandomUser | Owner, Owner
  | WhitelistedAddress, WhitelistedAddress | Deployer, Deployer => true
  | _, _ => false
  end.

Record ActorSimulationResult := {
  actorType : ActorType;
  address : string;
  outcome : SimulationOutcome
}.

Inductive Severity := Low | Medium | High | Critical.

Record PrivilegeDiff := {
  description : string;
  userOutcome : string;
  ownerOutcome : string;
  diffSeverity : Severity
}.

Record CounterfactualResult := {
  isHoneypot : bool;
  hasOwnerPrivileges : bool;
  hasWhitelistMechanism : bool;
  actorResults : list ActorSimulationResult;
  privilegeDiff : list PrivilegeDiff;
  summary : string;
  riskFlags : list string;
  riskScore : Z
}.

Definition succeeded (r : ActorSimulationResult) : bool :=
  String.eqb (status (outcome r)) "Success".

Definition reverted (r : ActorSimulationResult) : bool :=
  String.eqb (status (outcome r)) "Reverted".

Definition HONEYPOT_FLAG : string :=
  "CRITICAL HONEYPOT: Owner can execute, but users CANNOT".

Definition honeypotDiff : PrivilegeDiff :=
  {| description := "Transaction Execution";
     userOutcome := "BLOCKED (Reverted)";
     ownerOutcome := "ALLOWED (Success)";
     diffSeverity := Critical |}.

Definition unusualDiff : PrivilegeDiff :=
  {| description := "Transaction Execution";
     userOutcome := "ALLOWED";
     ownerOutcome := "BLOCKED";
     diffSeverity := Medium |}.

(** The gas comparison: [gasDiff / avgGas > 0.5] on the gas of the first
    user and the first owner, both positive. *)
Definition gasAnomaly (userGas ownerGas : Z) : bool :=
  if (0 <? userGas) && (0 <? ownerGas) then
    let gasDiff := if ownerGas <? userGas then userGas - ownerGas
                   else ownerGas - userGas in
    let avgGas := (userGas + ownerGas) / 2 in
    (0 <? avgGas) && negb (Qle_bool (inject_Z gasDiff / inject_Z avgGas) (1 # 2))
  else false.

Definition gasAnomalyFlag (userGas ownerGas : Z) : string :=
  "GAS ANOMALY: Significant gas difference between user ("
  ++ Js.toString userGas ++ ") and owner (" ++ Js.toString ownerGas ++ ")".

(** [result.riskFlags.push(f)] *)
Definition pushFlag (f : string) (r : CounterfactualResult) : CounterfactualResult :=
  {| isHoneypot := isHoneypot r;
     hasOwnerPrivileges := hasOwnerPrivileges r;
     hasWhitelistMechanism := hasWhitelistMechanism r;
     actorResults := actorResults r;
     privilegeDiff := privilegeDiff r;
     summary := summary r;
     riskFlags := (riskFlags r ++ [f])%list;
     riskScore := riskScore r |}.

(** [result.privilegeDiff.push(d)] *)
Definition pushDiff (d : PrivilegeDiff) (r : CounterfactualResult) : CounterfactualResult :=
  {| isHoneypot := isHoneypot r;
     hasOwnerPrivileges := hasOwnerPrivileges r;
     hasWhitelistMechanism := hasWhitelistMechanism r;
     actorResults := actorResults r;
     privilegeDiff := (privilegeDiff r ++ [d])%list;
     summary := summary r;
     riskFlags := riskFlags r;
     riskScore := riskScore r |}.

(** [result.riskScore = v] *)
Definition setScore (v : Z) (r : CounterfactualResult) : CounterfactualResult :=
  {| isHoneypot := isHoneypot r;
     hasOwnerPrivileges := hasOwnerPrivileges r;
     hasWhitelistMechanism := hasWhitelistMechanism r;
     actorResults := actorResults r;
     privilegeDiff := privilegeDiff r;
     summary := summary r;
     riskFlags := riskFlags r;
     riskScore := v |}.

(** [result.isHoneypot = true; result.hasOwnerPrivileges = true] *)
Definition markHoneypot (r : CounterfactualResult) : CounterfactualResult :=
  {| isHoneypot := true;
     hasOwnerPrivileges := true;
     hasWhitelistMechanism := hasWhitelistMechanism r;
     actorResults := actorResults r;
     privilegeDiff := privilegeDiff r;
     summary := summary r;
     riskFlags := riskFlags r;
     riskScore := riskScore r |}.

(** [result.hasWhitelistMechanism = true] *)
Definition markWhitelist (r : CounterfactualResult) : CounterfactualResult :=
  {| isHoneypot := isHoneypot r;
     hasOwnerPrivileges := hasOwnerPrivileges r;
     hasWhitelistMechanism := true;
     actorResults := actorResults r;
     privilegeDiff := privilegeDiff r;
     summary := summary r;
     riskFlags := riskFlags r;
     riskScore := riskScore r |}.

(** [result.summary = s] *)
Definition setSummary (s : string) (r : CounterfactualResult) : CounterfactualResult :=
  {| isHoneypot := isHoneypot r;
     hasOwnerPrivileges := hasOwnerPrivileges r;
     hasWhitelistMechanism := hasWhitelistMechanism r;
     actorResults := actorResults r;
     privilegeDiff := privilegeDiff r;
     summary := s;
     riskFlags := riskFlags r;
     riskScore := riskScore r |}.

(** [if (allUsersFail && ownerSucceeds) { .. }] *)
Definition honeypotRule (allUsersFail ownerSucceeds : bool) (r : CounterfactualResult)
  : CounterfactualResult :=
  if allUsersFail && ownerSucceeds then
    pushDiff honeypotDiff (pushFlag HONEYPOT_FLAG (setScore 100 (markHoneypot r)))
  else r.

(** [if (anyUserSucceeds && ownerFails) { .. }] *)
Definition unusualRule (anyUserSucceeds ownerFails : bool) (r : CounterfactualResult)
  : CounterfactualResult :=
  if anyUserSucceeds && ownerFails then
    pushDiff unusualDiff
      (pushFlag "UNUSUAL: Users can execute but owner cannot - verify logic" r)
  else r.

(** [if (whitelistResults.length > 0) { .. }] *)
Definition whitelistRule (whitelistResults : list ActorSimulationResult)
           (allUsersFail : bool) (r : CounterfactualResult) : CounterfactualResult :=
  if (0 <? length whitelistResults)%nat then
    let whitelistSucceeds := existsb succeeded whitelistResults in
    if whitelistSucceeds && allUsersFail then
      setScore (Z.max (riskScore r) 80)
        (pushFlag "WHITELIST DETECTED: Only whitelisted addresses can trade"
           (markWhitelist r))
    else r
  else r.

(** [if (userResults.length > 0 && ownerResults.length > 0) { .. }] *)
Definition gasRule (userResults ownerResults : list ActorSimulationResult)
           (r : CounterfactualResult) : CounterfactualResult :=
  match userResults, ownerResults with
  | u :: _, o :: _ =>
      let userGas := gasUsed (outcome u) in
      let ownerGas := gasUsed (outcome o) in
      if gasAnomaly userGas ownerGas then
        setScore (riskScore r + 15) (pushFlag (gasAnomalyFlag userGas ownerGas) r)
      else r
  | _, _ => r
  end.

(** The closing [if (result.isHoneypot) .. else ..] that writes the summary. *)
Definition summarize (allUsersFail anyUserSucceeds : bool) (r : CounterfactualResult)
  : CounterfactualResult :=
  setSummary
    (if isHoneypot r then
       "HONEYPOT CONFIRMED: This contract allows the owner to trade but blocks regular users. DO NOT INVEST."
     else if hasWhitelistMechanism r then
       "WHITELIST SCAM: Only certain addresses can trade. Regular users are blocked."
     else if hasOwnerPrivileges r then
       "OWNER PRIVILEGES: The owner has special trading privileges not available to users."
     else if allUsersFail then
       "TRADING BLOCKED: All users cannot execute this transaction."
     else if anyUserSucceeds then
       "No privilege differences detected. Transaction executes equally for all actors."
     else
       "Unable to determine privilege status - insufficient data.")
    r.

Definition ofType (t : ActorType) (rs : list ActorSimulationResult)
  : list ActorSimulationResult :=
  List.filter (fun r => isType (actorType r) t) rs.

(** [analyzeCounterfactualResults(result)]: the five blocks in order. *)
Definition analyzeCounterfactualResults (result : CounterfactualResult)
  : CounterfactualResult :=
  let userResults := ofType RandomUser (actorResults result) in
  let ownerResults := ofType Owner (actorResults result) in
  let whitelistResults := ofType WhitelistedAddress (actorResults result) in
  let anyUserSucceeds := existsb succeeded userResults in
  let allUsersFail := forallb reverted userResults in
  let ownerSucceeds := existsb succeeded ownerResults in
  let ownerFails := forallb reverted ownerResults in
  summarize allUsersFail anyUserSucceeds
    (gasRule userResults ownerResults
       (whitelistRule whitelistResults allUsersFail
          (unusualRule anyUserSucceeds ownerFails
             (honeypotRule allUsersFail ownerSucceeds result)))).

Definition initialResult (actors : list ActorSimulationResult) : CounterfactualResult :=
  {| isHoneypot := false;
     hasOwnerPrivileges := false;
     hasWhitelistMechanism := false;
     actorResults := actors;
     privilegeDiff := [];
     summary := "";
     riskFlags := [];
     riskScore := 0 |}.

(** [detectWhitelistedAddresses(contractAddress)] *)
Definition detectWhitelistedAddresses (_contractAddress : string) : list string := [].

(** The actors of one simulation, in the order they are run. *)
Definition actorsOf (engine : SimulationEngine) (txParams : TxParams)
           (ownerAddress deployerAddress : option string)
  : list (ActorType * string) :=
  ([ (RandomUser, tx_from txParams);
     (RandomUser, generateRandomAddress engine) ]
   ++ match ownerAddress with
      | Some o => if Js.truthy o && negb (String.eqb o Addr.ZERO)
                  then [(Owner, o)] else []
      | None => []
      end
   ++ match deployerAddress with
      | Some d =>
          if Js.truthy d
             && negb (match ownerAddress with
                      | Some o => String.eqb d o
                      | None => false
                      end)
          then [(Deployer, d)] else []
      | None => []
      end
   ++ map (fun a => (WhitelistedAddress, a))
          (detectWhitelistedAddresses (tx_to txParams)))%list.

(** One pass of the loop over the actors. *)
Definition runActor (engine : SimulationEngine) (txParams : TxParams)
           (ownerAddress : option string) (actor : ActorType * string)
  : list ActorSimulationResult :=
  let '(type, address) := actor in
  let injectOwner :=
    isType type Owner
    && match ownerAddress with Some o => Js.truthy o | None => false end in
  match runAs engine txParams address injectOwner with
  | None => []
  | Some outcome =>
      [ {| actorType := type; address := address; outcome := outcome |} ]
  end.

(** [runCounterfactualSimulation(txParams, ownerAddress, deployerAddress, ..)] *)
Definition runCounterfactualSimulation (engine : SimulationEngine)
           (txParams : TxParams) (ownerAddress deployerAddress : option string)
  : CounterfactualResult :=
  let actors := actorsOf engine txParams ownerAddress deployerAddress in
  analyzeCounterfactualResults
    (initialResult (concat (map (runActor engine txParams ownerAddress) actors))).

End CounterfactualAnalyzer.

(** ** analyzers/AdvancedSimulator.ts *)
Module AdvancedSimulator.

Record AdvancedAnalysis := {
  timeTravel : TimeTravelAnalyzer.TimeTravelResult;
  counterfactual : CounterfactualAnalyzer.CounterfactualResult;
  overallRiskScore : Z;
  overallSummary : string;
  isScam : bool
}.

(** The tail of [runComprehensiveAnalysis], once both simulations are in. *)
Definition combine (timeTravel : TimeTravelAnalyzer.TimeTravelResult)
           (counterfactual : CounterfactualAnalyzer.CounterfactualResult)
  : AdvancedAnalysis :=
  let score0 := CounterfactualAnalyzer.riskScore counterfactual in
  let score1 :=
    if TimeTravelAnalyzer.isTimeSensitive timeTravel then
      if existsb (fun f => Js.includes f "TIME-BOMB")
                 (TimeTravelAnalyzer.riskFlags timeTravel)
      then score0 + 25 + 25 else score0 + 25
    else score0 in
  let overallRiskScore := Z.min 100 score1 in
  let isScam :=
    CounterfactualAnalyzer.isHoneypot counterfactual
    || CounterfactualAnalyzer.hasWhitelistMechanism counterfactual
    || existsb (fun f => Js.includes f "TIME-BOMB" || Js.includes f "CRITICAL")
               (TimeTravelAnalyzer.riskFlags timeTravel) in
  let overallSummary :=
    if isScam then "SCAM DETECTED: DO NOT INTERACT."
    else if 50 <? overallRiskScore then
      "HIGH RISK (Score: " ++ Js.toString overallRiskScore
      ++ "/100): Proceed with extreme caution."
    else if 25 <? overallRiskScore then
      "MODERATE RISK (Score: " ++ Js.toString overallRiskScore
      ++ "/100): Exercise caution."
    else
      "LOW RISK (Score: " ++ Js.toString overallRiskScore
      ++ "/100): No major issues detected." in
  {| timeTravel := timeTravel;
     counterfactual := counterfactual;
     overallRiskScore := overallRiskScore;
     overallSummary := overallSummary;
     isScam := isScam |}.

(** [runComprehensiveAnalysis(txParams, ownerAddress, deployerAddress)] *)
Definition runComprehensiveAnalysis (engine : SimulationEngine)
           (txParams : TxParams) (ownerAddress deployerAddress : option string)
  : AdvancedAnalysis :=
  combine (TimeTravelAnalyzer.runTimeTravelSimulation engine txParams)
          (CounterfactualAnalyzer.runCounterfactualSimulation
             engine txParams ownerAddress deployerAddress).

End AdvancedSimulator.

(** ** services/MLService.ts *)
Module MLService.

Inductive Verdict := BLOCK | WARN | SAFE.

(** [CalibratedResponse], the reply of the classifier. *)
Record CalibratedResponse := {
  verdict : Verdict;
  scam_probability : Q;
  calibrated : bool;
  confidence_interval : Q * Q;
  uncertainty : Q;
  risk_band : string;
  reason : string;
  model_version : string
}.

(** [ContinuousFeatures], in the order the classifier expects. *)
Record ContinuousFeatures := {
  sim_success_rate : Q;
  owner_privilege_ratio : Q;
  time_variance_score : Q;
  gated_branch_ratio : Q;
  mint_transfer_ratio : Q;
  suspicious_opcode_density : Q;
  proxy_depth_normalized : Q;
  sload_density : Q;
  bytecode_entropy : Q;
  counterfactual_risk : Q;
  time_bomb_risk : Q;
  gas_anomaly_score : Q;
  security_report_risk : Q;
  flag_density : Q;
  revert_rate : Q
}.

Local Open Scope Q_scope.

Definition ofNat (n : nat) : Q := inject_Z (Z.of_nat n).

Definition qmin (a b : Q) : Q := if Qle_bool a b then a else b.
Definition qmax (a b : Q) : Q := if Qle_bool a b then b else a.

(** [xs.filter(p).length] *)
Definition countIf {A} (p : A -> bool) (xs : list A) : nat :=
  length (List.filter p xs).

(** [flagsLower.some(f => f.includes(w))] as 0 or 1. *)
Definition present (flagsLower : list string) (w : string) : nat :=
  if existsb (fun f => Js.includes f w) flagsLower then 1 else 0.

Definition b2q (b : bool) (q : Q) : Q := if b then q else 0.

(** [Math.max(...gs)] and [Math.min(...gs)] of a non-empty list. *)
Definition maxOf (gs : list Z) : Z := fold_right Z.max (hd 0%Z gs) gs.
Definition minOf (gs : list Z) : Z := fold_right Z.min (hd 0%Z gs) gs.

(** [buildFeatureVector(simulationResult, advancedAnalysis, securityReport,
    traceResult, proxyInfo)]; [traceEvents] is [traceResult?.events]. *)
Definition buildFeatureVector
           (simulationStatus : string)
           (advancedAnalysis : option AdvancedSimulator.AdvancedAnalysis)
           (securityReport : option SecurityAnalyzer.SecurityReport)
           (traceEvents : option (list string))
           (proxyInfo : option ProxyDetector.ProxyInfo) : ContinuousFeatures :=
  let cf := AdvancedSimulator.counterfactual <$> advancedAnalysis in
  let tt := AdvancedSimulator.timeTravel <$> advancedAnalysis in
  let actors := default [] (CounterfactualAnalyzer.actorResults <$> cf) in
  (* 1 *)
  let totalActors := length actors in
  let successCount := countIf CounterfactualAnalyzer.succeeded actors in
  let sim_success_rate :=
    if (0 <? totalActors)%nat then ofNat successCount / ofNat totalActors
    else if Js.startsWith simulationStatus "Revert" then 2 # 10 else 8 # 10 in
  (* 2 *)
  let owner_privilege_ratio :=
    match cf with
    | Some c =>
        let r1 := b2q (CounterfactualAnalyzer.hasOwnerPrivileges c) (4 # 10) in
        let r2 := r1 + b2q (CounterfactualAnalyzer.isHoneypot c) (3 # 10) in
        let n := length (CounterfactualAnalyzer.privilegeDiff c) in
        if (0 <? n)%nat then r2 + qmin (3 # 10) (ofNat n * (1 # 10)) else r2
    | None => 0
    end in
  let owner_privilege_ratio := qmin 1 owner_privilege_ratio in
  (* 3 *)
  let time_variance_score :=
    match tt with
    | Some t =>
        let s1 := b2q (TimeTravelAnalyzer.isTimeSensitive t) (5 # 10) in
        let divergingCount :=
          countIf TimeTravelAnalyzer.divergesFromCurrent
                  (TimeTravelAnalyzer.futureResults t) in
        let s2 := s1 + qmin (5 # 10) (ofNat divergingCount * (1 # 10)) in
        let n := length (TimeTravelAnalyzer.riskFlags t) in
        if (0 <? n)%nat then s2 + qmin (3 # 10) (ofNat n * (1 # 10)) else s2
    | None => 0
    end in
  let time_variance_score := qmin 1 time_variance_score in
  (* 4 *)
  let flagsList := default [] (SecurityAnalyzer.flags <$> securityReport) in
  let flagsLower := map Js.toLowerCase flagsList in
  let gatedPatterns :=
    (present flagsLower "blacklist" + present flagsLower "whitelist"
     + present flagsLower "owner" + present flagsLower "blocked")%nat in
  let gated_branch_ratio := qmin 1 (ofNat gatedPatterns * (25 # 100)) in
  (* 5 *)
  let dangerousPatterns :=
    (present flagsLower "mint" + present flagsLower "drain"
     + present flagsLower "pause" + present flagsLower "selfdestruct")%nat in
  let mint_transfer_ratio := qmin 1 (ofNat dangerousPatterns * (25 # 100)) in
  (* 6 *)
  let suspicious_opcode_density :=
    match traceEvents with
    | Some events =>
        let suspiciousCount :=
          fold_left
            (fun acc e =>
               acc + (if Js.includes e "SELFDESTRUCT" then 2 else 0)
                   + (if Js.includes e "DELEGATECALL" then 1 else 0)
                   + (if Js.includes e "CALLCODE" then 1 else 0))%nat
            events 0%nat in
        let totalOpcodes := length events in
        if (0 <? totalOpcodes)%nat then
          qmin 1 (ofNat suspiciousCount / qmax 10 (ofNat totalOpcodes / 10))
        else 0
    | None => 0
    end in
  (* 7 *)
  let proxyDepth : Q :=
    match proxyInfo with
    | Some p => if ProxyDetector.isProxy p then 1 else 0
    | None => 0
    end in
  let proxy_depth_normalized := qmin 1 (proxyDepth / 3) in
  (* 8 *)
  let sload_density :=
    match traceEvents with
    | Some events =>
        let instructionCount := Nat.max 1 (length events) in
        let sloadCount := countIf (fun e => Js.includes e "SLOAD") events in
        qmin 1 ((ofNat sloadCount / ofNat instructionCount) * 10)
    | None => qmin 1 ((0 / 100) * 10)
    end in
  (* 9 *)
  let bytecode_entropy := 5 # 10 in
  (* 10 *)
  let counterfactual_risk :=
    match cf with
    | Some c =>
        b2q (CounterfactualAnalyzer.isHoneypot c) (5 # 10)
        + b2q (CounterfactualAnalyzer.hasOwnerPrivileges c) (3 # 10)
        + b2q (CounterfactualAnalyzer.hasWhitelistMechanism c) (2 # 10)
    | None => 0
    end in
  let counterfactual_risk := qmin 1 counterfactual_risk in
  (* 11 *)
  let time_bomb_risk :=
    match tt with
    | Some t => qmin 1 (ofNat (length (TimeTravelAnalyzer.riskFlags t)) * (2 # 10))
    | None => 0
    end in
  (* 12 *)
  let gasValues :=
    List.filter (fun g => (0 <? g)%Z)
                (map (fun a => gasUsed (CounterfactualAnalyzer.outcome a)) actors) in
  let gas_anomaly_score :=
    if (2 <=? length gasValues)%nat then
      let maxGas := maxOf gasValues in
      let minGas := minOf gasValues in
      if (0 <? maxGas)%Z then qmin 1 (inject_Z (maxGas - minGas) / inject_Z maxGas)
      else 0
    else 0 in
  let gas_anomaly_score :=
    if existsb (fun f => Js.includes f "gas anomaly") flagsLower
    then qmax gas_anomaly_score (7 # 10) else gas_anomaly_score in
  (* 13 *)
  let security_report_risk :=
    qmin 1 (inject_Z (default 0%Z (SecurityAnalyzer.riskScore <$> securityReport)) / 100) in
  (* 14 *)
  let flagCount := length flagsList in
  let flag_density := qmin 1 (ofNat flagCount / 10) in
  (* 15 *)
  let revertCount := countIf CounterfactualAnalyzer.reverted actors in
  let revert_rate :=
    if (0 <? totalActors)%nat then ofNat revertCount / ofNat totalActors
    else if Js.startsWith simulationStatus "Revert" then 8 # 10 else 2 # 10 in
  {| sim_success_rate := sim_success_rate;
     owner_privilege_ratio := owner_privilege_ratio;
     time_variance_score := time_variance_score;
     gated_branch_ratio := gated_branch_ratio;
     mint_transfer_ratio := mint_transfer_ratio;
     suspicious_opcode_density := suspicious_opcode_density;
     proxy_depth_normalized := proxy_depth_normalized;
     sload_density := sload_density;
     bytecode_entropy := bytecode_entropy;
     counterfactual_risk := counterfactual_risk;
     time_bomb_risk := time_bomb_risk;
     gas_anomaly_score := gas_anomaly_score;
     security_report_risk := security_report_risk;
     flag_density := flag_density;
     revert_rate := revert_rate |}.

End MLService.

(** ** The specification's reading of field 9: Shannon entropy of the byte histogram
    of the deployed code, normalized against log2(256).  This definition
    follows the specification's words; the source has no counterpart. *)
Module EntropySpec.

Open Scope R_scope.

(** Occurrences of the byte value [v] in [code]. *)
Definition occurrences (code : list byte) (v : N) : nat :=
  length (List.filter (fun b => N.eqb (Byte.to_N b) v) code).

Definition log2R (x : R) : R := ln x / ln 2.

(** One term [- p * log2 p] of the entropy, zero for an absent value. *)
Definition term (n total : nat) : R :=
  if (n =? 0)%nat then 0
  else let p := INR n / INR total in - (p * log2R p).

Definition byteValues : list N := map N.of_nat (seq 0 256).

Definition shannon_entropy (code : list byte) : R :=
  fold_right Rplus 0 (map (fun v => term (occurrences code v) (length code)) byteValues).

Definition normalized_entropy (code : list byte) : R :=
  shannon_entropy code / log2R 256.

Close Scope R_scope.

End EntropySpec.

(** ** evm/utils/evmexecutor.ts *)
Module EvmExecutor.

Import SecurityAnalyzer.

Record FinalVerdict := {
  verdict : MLService.Verdict;
  reason : string;
  confidence : Q;
  source : string;
  uncertainty : option Q;
  confidence_interval : option (Q * Q)
}.

(** The [driftAnalysis] object of the response. *)
Record DriftSummary := {
  hasDrift : bool;
  riskDelta : Z;
  newFlags : list string;
  removedFlags : list string;
  previousScanTimestamp : option Z
}.

Record Response := {
  res_status : string;
  securityReport : option SecurityReport;
  res_proxyInfo : option ProxyDetector.ProxyInfo;
  driftAnalysis : option DriftSummary;
  advancedAnalysis : option AdvancedSimulator.AdvancedAnalysis;
  mlAnalysis : option MLService.CalibratedResponse;
  mlError : option string;
  finalVerdict : FinalVerdict;
  (* not in the JSON reply: the vector handed to the classifier and to
     TrainingDataCollector.collect *)
  featureVector : option MLService.ContinuousFeatures
}.

(** [if (!flags.includes(f)) flags.push(f)] *)
Definition pushUnique (report : SecurityReport) (f : string) : SecurityReport :=
  if existsb (String.eqb f) (flags report) then report else push_flag f report.

(** [diff.severity.toUpperCase()] *)
Definition severityUpper (s : CounterfactualAnalyzer.Severity) : string :=
  match s with
  | CounterfactualAnalyzer.Low => "LOW"
  | CounterfactualAnalyzer.Medium => "MEDIUM"
  | CounterfactualAnalyzer.High => "HIGH"
  | CounterfactualAnalyzer.Critical => "CRITICAL"
  end.

Definition diffFlag (diff : CounterfactualAnalyzer.PrivilegeDiff) : string :=
  severityUpper (CounterfactualAnalyzer.diffSeverity diff) ++ ": "
  ++ CounterfactualAnalyzer.description diff ++ " - User: "
  ++ CounterfactualAnalyzer.userOutcome diff ++ ", Owner: "
  ++ CounterfactualAnalyzer.ownerOutcome diff.

(** Phase 2: merge the advanced analysis into the security report. *)
Definition mergeAdvanced (adv : AdvancedSimulator.AdvancedAnalysis)
           (report : SecurityReport) : SecurityReport :=
  let r1 :=
    if AdvancedSimulator.isScam adv then
      set_friendlyExplanation (Some (AdvancedSimulator.overallSummary adv))
        (set_riskScore (Z.max (riskScore report) (AdvancedSimulator.overallRiskScore adv))
           (set_isHoneypot true report))
    else report in
  let r2 :=
    fold_left pushUnique
              (TimeTravelAnalyzer.riskFlags (AdvancedSimulator.timeTravel adv)) r1 in
  let r3 :=
    fold_left pushUnique
              (CounterfactualAnalyzer.riskFlags (AdvancedSimulator.counterfactual adv)) r2 in
  let r4 :=
    fold_left pushUnique
              (map diffFlag
                   (CounterfactualAnalyzer.privilegeDiff (AdvancedSimulator.counterfactual adv)))
              r3 in
  set_riskScore (Z.max (riskScore r4) (AdvancedSimulator.overallRiskScore adv)) r4.

(** Phase 3 refinement: replace a Safe story when phase 2 found a scam. *)
Definition reconcile (advanced : option AdvancedSimulator.AdvancedAnalysis)
           (report : SecurityReport) : SecurityReport :=
  match advanced, mechanismStory report with
  | Some adv, Some m =>
      if AdvancedSimulator.isScam adv && String.eqb (severity m) "Safe" then
        let m' :=
          if CounterfactualAnalyzer.hasOwnerPrivileges (AdvancedSimulator.counterfactual adv)
          then {| title := "Privilege Abuse Detected";
                  story := "🕵️ The Detective noticed a discrepancy: Expected safe execution, but real-world simulation confirms only the OWNER can trade. This is a clear Honeypot.";
                  severity := "High" |}
          else if TimeTravelAnalyzer.isTimeSensitive (AdvancedSimulator.timeTravel adv)
          then {| title := "Hidden Time-Lock";
                  story := "🕵️ The Detective found that while code looks clean, it relies on time checks (likely uninitialized in scan) that strictly block trading.";
                  severity := "High" |}
          else {| title := "Hidden Revert Mechanism";
                  story := "🕵️ The execution path is misleading. Deep simulation confirms this transaction WILL fail for you, likely due to hidden storage dependencies.";
                  severity := "High" |} in
        set_story (Some m') (tracingEvents report) report
      else report
  | _, _ => report
  end.

Definition riskIncreasedFlag (riskDelta : Z) : string :=
  "Risk Increased (+" ++ Js.toString riskDelta ++ " since last scan)".

(** The flag push that follows [analyzeDrift]. *)
Definition applyDrift (drift : ScanHistory.DriftAnalysis) (report : SecurityReport)
  : SecurityReport :=
  if ScanHistory.hasDrift drift then
    if 0 <? ScanHistory.riskDelta drift then
      push_flag (riskIncreasedFlag (ScanHistory.riskDelta drift)) report
    else report
  else report.

(** How the Redis block of one scan ends:
    [try { analyzeDrift; push the flag; storeScan } catch { warn }].
    - [Returns db]: both calls return, on the database [db];
    - [AnalyzeThrows]: [analyzeDrift] throws ([connect()] or the read
      command throws, or a stored record does not parse), so no drift
      analysis exists and [storeScan] is not reached;
    - [StoreThrows db step]: [analyzeDrift] returns on [db], the flag is
      pushed, and [storeScan] throws at its command [step].
    The catch logs the error and the scan goes on.  A connection attempt
    that never settles is none of these: with a server that cannot be
    reached the client keeps reconnecting, [connect()] stays pending and
    the call of [simulateTransaction] has no result. *)
Inductive RedisRun :=
| Returns (db : ScanHistory.Store)
| AnalyzeThrows
| StoreThrows (db : ScanHistory.Store) (step : ScanHistory.WriteStep).

(** The database a run starts from, where the run shows it. *)
Definition databaseOf (run : RedisRun) : option ScanHistory.Store :=
  match run with
  | Returns db | StoreThrows db _ => Some db
  | AnalyzeThrows => None
  end.

(** The Redis block: the drift analysis when there is one, the report
    after the flag push, and the database the block leaves behind. *)
Definition driftPhase (run : RedisRun) (now : Z) (to : string)
           (chainIdNum : option Z) (proxyInfo : option ProxyDetector.ProxyInfo)
           (report : SecurityReport)
  : option ScanHistory.DriftAnalysis * SecurityReport * option ScanHistory.Store :=
  let proxy :=
    (fun p => (ProxyDetector.isProxy p, ProxyDetector.implementationAddress p))
      <$> proxyInfo in
  match run with
  | AnalyzeThrows => (None, report, None)
  | Returns store =>
      let drift := ScanHistory.analyzeDrift store to report in
      let report' := applyDrift drift report in
      let '(_, store') :=
        ScanHistory.storeScan store now to chainIdNum report' proxy in
      (Some drift, report', Some store')
  | StoreThrows store step =>
      let drift := ScanHistory.analyzeDrift store to report in
      let report' := applyDrift drift report in
      (Some drift, report',
       Some (ScanHistory.storeScanUntil step store now to chainIdNum report' proxy))
  end.

(** Phase 5: the combined verdict. *)
Definition assembleVerdict (securityReport : option SecurityReport)
           (advancedAnalysis : option AdvancedSimulator.AdvancedAnalysis)
           (mlAnalysisResult : option MLService.CalibratedResponse) : FinalVerdict :=
  let ruleBasedIsScam :=
    default false (isHoneypot <$> securityReport)
    || default false (AdvancedSimulator.isScam <$> advancedAnalysis)
    || default false
         ((fun a => CounterfactualAnalyzer.isHoneypot (AdvancedSimulator.counterfactual a))
            <$> advancedAnalysis)
    || default false
         ((fun a => CounterfactualAnalyzer.hasOwnerPrivileges (AdvancedSimulator.counterfactual a))
            <$> advancedAnalysis) in
  let riskScore := default 0 (riskScore <$> securityReport) in
  let unc := MLService.uncertainty <$> mlAnalysisResult in
  let ci := MLService.confidence_interval <$> mlAnalysisResult in
  if ruleBasedIsScam then
    {| verdict := MLService.BLOCK;
       reason :=
         default "Honeypot or scam patterns detected"
           (Js.or_else (securityReport ≫= friendlyExplanation)
              (Js.or_else (AdvancedSimulator.overallSummary <$> advancedAnalysis) None));
       confidence := 100;
       source := "RULE_BASED";
       uncertainty := unc; confidence_interval := ci |}
  else if 50 <=? riskScore then
    {| verdict := MLService.WARN;
       reason := "Risk score " ++ Js.toString riskScore ++ "/100 - Proceed with caution";
       confidence := 80;
       source := "RISK_SCORE";
       uncertainty := unc; confidence_interval := ci |}
  else
    match mlAnalysisResult with
    | Some ml =>
        let scamProb := MLService.scam_probability ml in
        if negb (Qle_bool scamProb (7 # 10)) then
          {| verdict := MLService.BLOCK;
             reason := "AI detected high risk: " ++ MLService.reason ml;
             confidence := (scamProb * 100)%Q;
             source := "ML_CALIBRATED";
             uncertainty := unc; confidence_interval := ci |}
        else if negb (Qle_bool scamProb (4 # 10)) then
          {| verdict := MLService.WARN;
             reason := MLService.reason ml;
             confidence := (scamProb * 100)%Q;
             source := "ML_CALIBRATED";
             uncertainty := unc; confidence_interval := ci |}
        else
          {| verdict := MLService.SAFE;
             reason := if Js.truthy (MLService.reason ml) then MLService.reason ml
                       else "No significant risks detected";
             confidence := ((1 - scamProb) * 100)%Q;
             source := "ML_CALIBRATED";
             uncertainty := unc; confidence_interval := ci |}
    | None =>
        {| verdict := MLService.SAFE;
           reason := "No significant risks detected";
           confidence := 50;
           source := "DEFAULT";
           uncertainty := unc; confidence_interval := ci |}
    end.

Definition proxyTypeName (t : option ProxyDetector.ProxyType) : string :=
  match t with
  | Some ProxyDetector.EIP1967 => "EIP-1967"
  | Some ProxyDetector.EIP1822 => "EIP-1822"
  | Some ProxyDetector.EIP897 => "EIP-897"
  | Some ProxyDetector.Minimal => "Minimal"
  | None => "undefined"
  end.

(** What one call of [simulateTransaction] finds outside the analyzers:
    the baseline execution and its trace, the provider it connected to,
    the simulation engine behind [AdvancedSimulator] ([None] when
    [runComprehensiveAnalysis] throws), how the Redis block ends, the
    clock and the classifier.  An environment stands for a call in which
    every awaited request settles. *)
Record Environment (S : Type) := {
  env_evm : S;
  env_status : string;
  env_mechanismStory : Explanation;
  env_traceEvents : list string;
  env_provider : option Provider;
  env_engine : option SimulationEngine;
  env_redis : RedisRun;
  env_now : Z;
  env_classifier : MLService.ContinuousFeatures -> option MLService.CalibratedResponse
}.
Arguments env_evm {S}.
Arguments env_status {S}.
Arguments env_mechanismStory {S}.
Arguments env_traceEvents {S}.
Arguments env_provider {S}.
Arguments env_engine {S}.
Arguments env_redis {S}.
Arguments env_now {S}.
Arguments env_classifier {S}.

Section WithEvm.
Context {S : Type} `{EvmApi S}.

(** Re-homing: inject the implementation code.  The address is
    returned when every step succeeded; the state is the one reached
    when the steps stopped. *)
Definition injectImplementation (evm : S) (provider : option Provider)
           (impl : string) : option Address * S :=
  match provider with
  | None => (None, evm)
  | Some p =>
      match p_getCode p impl with
      | None => (None, evm)
      | Some [] => (None, evm)
      | Some implCode =>
          match Addr.fromString impl with
          | None => (None, evm)
          | Some implAddress =>
              match getAccount evm implAddress with
              | None => (None, evm)
              | Some account =>
                  match putAccount evm implAddress (default newAccount account) with
                  | None => (None, evm)
                  | Some evm1 =>
                      match putCode evm1 implAddress implCode with
                      | None => (None, evm1)
                      | Some evm2 => (Some implAddress, evm2)
                      end
                  end
              end
          end
      end
  end.

(** The proxy check under [if (to && chainId)]. *)
Definition proxyPhase (evm : S) (to : Address) (provider : option Provider)
  : ProxyDetector.ProxyInfo * Address * S :=
  let '(proxyInfo, evm1) := ProxyDetector.detectProxy evm to provider in
  match ProxyDetector.nextImplementation proxyInfo with
  | Some impl =>
      match injectImplementation evm1 provider impl with
      | (Some implAddress, evm2) => (proxyInfo, implAddress, evm2)
      | (None, evm2) => (proxyInfo, to, evm2)
      end
  | None => (proxyInfo, to, evm1)
  end.

(** The security report as it stands before the advanced simulation. *)
Definition baseReport (env : Environment S) (evm : S) (addressToAnalyze : Address)
           (provider : option Provider) (proxyInfo : option ProxyDetector.ProxyInfo)
  : SecurityReport :=
  let '(report, _) := analyze evm addressToAnalyze (env_status env) provider in
  let report1 :=
    set_story (Some (env_mechanismStory env)) (Some (env_traceEvents env)) report in
  match proxyInfo with
  | Some p =>
      if ProxyDetector.isProxy p then
        push_flag ("Proxy Contract (" ++ proxyTypeName (ProxyDetector.proxyType p) ++ ")")
          (set_proxy (Some p) (Some (Addr.toString addressToAnalyze)) report1)
      else set_proxy (Some p) (analyzedAddress report1) report1
  | None => report1
  end.

(** [simulateTransaction(txParams, chainId)] from the security analysis
    on.  [to] is the parsed [txParams.to]; [chainId] is the chain id when
    one was passed. *)
Definition simulateTransaction (env : Environment S) (txParams : TxParams)
           (to : option Address) (chainId : option Z)
  : Response * option ScanHistory.Store :=
  match to with
  | None =>
      ({| res_status := env_status env;
          securityReport := None;
          res_proxyInfo := None;
          driftAnalysis := None;
          advancedAnalysis := None;
          mlAnalysis := None;
          mlError := Some "Advanced analysis missing";
          finalVerdict := assembleVerdict None None None;
          featureVector := None |},
       databaseOf (env_redis env))
  | Some toAddr =>
      let '(proxyInfo, addressToAnalyze, evm1, provider) :=
        match chainId with
        | Some _ =>
            let '(p, a, e) := proxyPhase (env_evm env) toAddr (env_provider env) in
            (Some p, a, e, env_provider env)
        | None => (None, toAddr, env_evm env, None)
        end in
      let report0 := baseReport env evm1 addressToAnalyze provider proxyInfo in
      let advanced :=
        (fun engine =>
           AdvancedSimulator.runComprehensiveAnalysis
             engine txParams (ownerAddress report0) None)
          <$> env_engine env in
      let report1 :=
        match advanced with
        | Some adv => mergeAdvanced adv report0
        | None => report0
        end in
      let report2 := reconcile advanced report1 in
      let '(drift, report3, store') :=
        driftPhase (env_redis env) (env_now env) (Addr.toString toAddr)
                   chainId proxyInfo report2 in
      let features :=
        (fun adv =>
           MLService.buildFeatureVector (env_status env) (Some adv)
             (Some report3) (Some (env_traceEvents env)) proxyInfo)
          <$> advanced in
      let ml := features ≫= env_classifier env in
      ({| res_status := env_status env;
          securityReport := Some report3;
          res_proxyInfo := proxyInfo;
          driftAnalysis :=
            (fun d =>
               {| hasDrift := ScanHistory.hasDrift d;
                  riskDelta := ScanHistory.riskDelta d;
                  newFlags := ScanHistory.newFlags d;
                  removedFlags := ScanHistory.removedFlags d;
                  previousScanTimestamp :=
                    ScanHistory.timestamp <$> ScanHistory.previousScan d |})
              <$> drift;
          advancedAnalysis := advanced;
          mlAnalysis := ml;
          mlError :=
            match advanced with
            | Some _ => None
            | None => Some "Advanced analysis missing"
            end;
          finalVerdict := assembleVerdict (Some report3) advanced ml;
          featureVector := features |},
       store')
  end.

End WithEvm.

End EvmExecutor.

(** ** analyzers/OpcodeTracer.ts *)
Module OpcodeTracer.

(** The step event of the EVM, as far as the tracer reads it. *)
Record StepData := {
  opcodeName : string;
  stepPc : Z;
  stepDepth : Z;
  stepStack : option (list Z)
}.

Record ExecutionStep := {
  opcode : string;
  pc : Z;
  stack : list string;
  depth : Z
}.

Record TraceResult := {
  steps : list ExecutionStep;
  events : list string;
  touchedStorage : gset (option string);
  usesMsgSender : bool;
  usesTxOrigin : bool;
  usesTimestamp : bool;
  suspiciousJumps : Z
}.

(** The private fields of a tracer. *)
Record Tracer := {
  t_steps : list ExecutionStep;
  t_events : list string;
  t_touchedStorage : gset (option string);
  t_usesMsgSender : bool;
  t_usesTxOrigin : bool;
  t_usesTimestamp : bool;
  t_suspiciousJumps : Z;
  t_lastOpcode : option string;
  t_pushedSender : bool
}.

(** [new OpcodeTracer()] *)
Definition create : Tracer :=
  {| t_steps := []; t_events := []; t_touchedStorage := ∅;
     t_usesMsgSender := false; t_usesTxOrigin := false; t_usesTimestamp := false;
     t_suspiciousJumps := 0; t_lastOpcode := None; t_pushedSender := false |}.

Fixpoint hex_pos (fuel : nat) (n : Z) (acc : string) : string :=
  match fuel with
  | O => acc
  | S fuel' =>
      let acc' := String (Js.hex_digit (Z.to_N (n mod 16))) acc in
      if n / 16 =? 0 then acc' else hex_pos fuel' (n / 16) acc'
  end.

(** [x.toString(16)] of a stack word, which is never negative. *)
Definition toString16 (n : Z) : string := hex_pos (Z.to_nat (Z.log2 n) + 1) n "".

(** [xs.includes(s)] on an array of strings. *)
Definition oneOf (s : string) (xs : list string) : bool := existsb (String.eqb s) xs.

Definition pushEvent (e : string) (t : Tracer) : Tracer :=
  {| t_steps := t_steps t; t_events := (t_events t ++ [e])%list;
     t_touchedStorage := t_touchedStorage t;
     t_usesMsgSender := t_usesMsgSender t; t_usesTxOrigin := t_usesTxOrigin t;
     t_usesTimestamp := t_usesTimestamp t; t_suspiciousJumps := t_suspiciousJumps t;
     t_lastOpcode := t_lastOpcode t; t_pushedSender := t_pushedSender t |}.

Definition senderLoaded (pc : Z) : string :=
  "TAINT: msg.sender loaded at PC " ++ Js.toString pc.
Definition originLoaded (pc : Z) : string :=
  "TAINT: tx.origin loaded at PC " ++ Js.toString pc.
Definition timestampLoaded (pc : Z) : string :=
  "TAINT: block.timestamp loaded at PC " ++ Js.toString pc.
Definition STORAGE_CHECK : string :=
  "CHECK: Storage read after Sender load - Potential Whitelist/Balance check".
Definition SENDER_COMPARE : string := "CHECK: Comparing Sender address".
Definition TIME_COMPARE : string := "CHECK: Comparing Timestamp".

(** [this.steps.push({ opcode, pc, stack, depth })] *)
Definition recordStep (data : StepData) (stack : list string) (t : Tracer) : Tracer :=
  {| t_steps :=
       (t_steps t ++ [ {| opcode := opcodeName data; pc := stepPc data;
                          stack := stack; depth := stepDepth data |} ])%list;
     t_events := t_events t; t_touchedStorage := t_touchedStorage t;
     t_usesMsgSender := t_usesMsgSender t; t_usesTxOrigin := t_usesTxOrigin t;
     t_usesTimestamp := t_usesTimestamp t; t_suspiciousJumps := t_suspiciousJumps t;
     t_lastOpcode := t_lastOpcode t; t_pushedSender := t_pushedSender t |}.

(** 1. Sender tracking *)
Definition trackSender (opcode : string) (pc : Z) (t : Tracer) : Tracer :=
  if String.eqb opcode "CALLER" then
    pushEvent (senderLoaded pc)
      {| t_steps := t_steps t; t_events := t_events t;
         t_touchedStorage := t_touchedStorage t;
         t_usesMsgSender := true; t_usesTxOrigin := t_usesTxOrigin t;
         t_usesTimestamp := t_usesTimestamp t; t_suspiciousJumps := t_suspiciousJumps t;
         t_lastOpcode := t_lastOpcode t; t_pushedSender := true |}
  else if String.eqb opcode "ORIGIN" then
    pushEvent (originLoaded pc)
      {| t_steps := t_steps t; t_events := t_events t;
         t_touchedStorage := t_touchedStorage t;
         t_usesMsgSender := t_usesMsgSender t; t_usesTxOrigin := true;
         t_usesTimestamp := t_usesTimestamp t; t_suspiciousJumps := t_suspiciousJumps t;
         t_lastOpcode := t_lastOpcode t; t_pushedSender := t_pushedSender t |}
  else t.

(** 2. Storage usage; the slot is the top of the recorded stack, undefined
    when that is empty. *)
Definition trackStorage (opcode : string) (stack : list string) (t : Tracer) : Tracer :=
  if String.eqb opcode "SLOAD" then
    let t1 :=
      {| t_steps := t_steps t; t_events := t_events t;
         t_touchedStorage := {[ last stack ]} ∪ t_touchedStorage t;
         t_usesMsgSender := t_usesMsgSender t; t_usesTxOrigin := t_usesTxOrigin t;
         t_usesTimestamp := t_usesTimestamp t; t_suspiciousJumps := t_suspiciousJumps t;
         t_lastOpcode := t_lastOpcode t; t_pushedSender := t_pushedSender t |} in
    if t_pushedSender t1 then pushEvent STORAGE_CHECK t1 else t1
  else t.

(** 3. Time usage *)
Definition trackTime (opcode : string) (pc : Z) (t : Tracer) : Tracer :=
  if String.eqb opcode "TIMESTAMP" then
    pushEvent (timestampLoaded pc)
      {| t_steps := t_steps t; t_events := t_events t;
         t_touchedStorage := t_touchedStorage t;
         t_usesMsgSender := t_usesMsgSender t; t_usesTxOrigin := t_usesTxOrigin t;
         t_usesTimestamp := true; t_suspiciousJumps := t_suspiciousJumps t;
         t_lastOpcode := t_lastOpcode t; t_pushedSender := t_pushedSender t |}
  else t.

Definition lastIs (t : Tracer) (op : string) : bool :=
  match t_lastOpcode t with
  | Some l => String.eqb l op
  | None => false
  end.

(** 4. Comparison logic *)
Definition trackComparison (opcode : string) (t : Tracer) : Tracer :=
  if oneOf opcode ["EQ"; "LT"; "GT"; "SGT"; "SLT"] then
    let t1 :=
      if lastIs t "CALLER" || lastIs t "ORIGIN" then pushEvent SENDER_COMPARE t else t in
    if lastIs t1 "TIMESTAMP" then pushEvent TIME_COMPARE t1 else t1
  else t.

(** Reset of the transient flags, and [this.lastOpcode = opcode]. *)
Definition finishStep (opcode : string) (t : Tracer) : Tracer :=
  {| t_steps := t_steps t; t_events := t_events t;
     t_touchedStorage := t_touchedStorage t;
     t_usesMsgSender := t_usesMsgSender t; t_usesTxOrigin := t_usesTxOrigin t;
     t_usesTimestamp := t_usesTimestamp t; t_suspiciousJumps := t_suspiciousJumps t;
     t_lastOpcode := Some opcode;
     t_pushedSender :=
       if oneOf opcode ["PUSH1"; "PUSH2"; "PUSH20"; "PUSH32"; "DUP1"; "DUP2"]
       then t_pushedSender t else false |}.

(** [handleStep(data)] *)
Definition handleStep (t : Tracer) (data : StepData) : Tracer :=
  let opcode := opcodeName data in
  let pc := stepPc data in
  let stack :=
    match stepStack data with
    | Some st => map toString16 (Js.last_n 5 st)
    | None => []
    end in
  finishStep opcode
    (trackComparison opcode
       (trackTime opcode pc
          (trackStorage opcode stack
             (trackSender opcode pc (recordStep data stack t))))).

(** [getTrace()] *)
Definition getTrace (t : Tracer) : TraceResult :=
  {| steps := t_steps t; events := t_events t;
     touchedStorage := t_touchedStorage t;
     usesMsgSender := t_usesMsgSender t; usesTxOrigin := t_usesTxOrigin t;
     usesTimestamp := t_usesTimestamp t; suspiciousJumps := t_suspiciousJumps t |}.

(** The trace of one execution: every step event goes through [handleStep]
    in order. *)
Definition traceOf (run : list StepData) : TraceResult :=
  getTrace (fold_left handleStep run create).

End OpcodeTracer.

(** ** analyzers/ExplanationEngine.ts *)
Module ExplanationEngine.

(** [explainRevert(trace)] *)
Definition explainRevert (trace : OpcodeTracer.TraceResult) : Explanation :=
  if OpcodeTracer.usesMsgSender trace || OpcodeTracer.usesTxOrigin trace then
    let lastEvents := Js.last_n 5 (OpcodeTracer.events trace) in
    let hasStorageCheck :=
      existsb (fun e => Js.includes e "CHECK: Storage read") lastEvents in
    if hasStorageCheck then
      {| title := "Access Denied (Whitelist/Owner)";
         story := "❌ The contract checked who you are and blocked the transaction. It likely requires you to be on a private 'Whitelist' or be the Owner.";
         severity := "High" |}
    else
      {| title := "Sender Restriction";
         story := "❌ The contract blocked your address. Specific reason unclear, but it discriminates based on who sends the transaction.";
         severity := "Medium" |}
  else if OpcodeTracer.usesTimestamp trace then
    {| title := "Time-Lock Active";
       story := "❌ The contract checked the time and decided it's too early (or too late) to trade.";
       severity := "High" |}
  else
    {| title := "Transaction Failed";
       story := "❌ The transaction reverted. This might be a standard error, or a hidden blocking mechanism.";
       severity := "Low" |}.

(** [generateExplanation(trace, simulationStatus)] *)
Definition generateExplanation (trace : OpcodeTracer.TraceResult)
           (simulationStatus : string) : Explanation :=
  if Js.startsWith simulationStatus "Reverted" then explainRevert trace
  else if OpcodeTracer.usesTimestamp trace then
    {| title := "Time-Sensitive Logic Detected";
       story := "The contract checks the current time. It might be locked until a specific date.";
       severity := "Medium" |}
  else
    {| title := "Security Check Passed";
       story := "No suspicious mechanisms detected during execution.";
       severity := "Safe" |}.

End ExplanationEngine.

(** ** The baseline call of evm/utils/evmexecutor.ts *)
Module BaselineCall.

(** The status string that [executeCall] derives from the result of
    [evm.runCall]. *)
Definition statusOf (result : ExecResult) : string :=
  match exceptionError result with
  | Some error => "Reverted: " ++ error
  | None => "Success"
  end.

(** The counters of the step listener in [simulateTransaction]. *)
Record Counters := { instructionCount : Z; sstoreCount : Z; callCount : Z }.

Definition countStep (c : Counters) (data : OpcodeTracer.StepData) : Counters :=
  let name := OpcodeTracer.opcodeName data in
  {| instructionCount := instructionCount c + 1;
     sstoreCount := if String.eqb name "SSTORE" then sstoreCount c + 1 else sstoreCount c;
     callCount :=
       if OpcodeTracer.oneOf name ["CALL"; "DELEGATECALL"; "STATICCALL"; "CALLCODE"]
       then callCount c + 1 else callCount c |}.

Definition countersOf (run : list OpcodeTracer.StepData) : Counters :=
  fold_left countStep run {| instructionCount := 0; sstoreCount := 0; callCount := 0 |}.

End BaselineCall.

(** ** services/TrainingDataCollector.ts *)
Module TrainingDataCollector.

Record RuleBasedVerdict := {
  rb_isHoneypot : bool;
  rb_isScam : bool;
  rb_riskScore : Z;
  rb_hasOwnerPrivileges : bool
}.

Record TrainingSample := {
  timestamp : Z;
  contractAddress : string;
  chainId : option Z;
  features : MLService.ContinuousFeatures;
  label : Q;
  ruleBasedVerdict : RuleBasedVerdict
}.

(** The soft label: the sum of the signal weights, clipped to [0,1]. *)
Definition softLabel (securityReport : option SecurityAnalyzer.SecurityReport)
           (advancedAnalysis : option AdvancedSimulator.AdvancedAnalysis) : Q :=
  let isHoneypot := default false (SecurityAnalyzer.isHoneypot <$> securityReport) in
  let isScam := default false (AdvancedSimulator.isScam <$> advancedAnalysis) in
  let cfHoneypot :=
    default false
      ((fun a => CounterfactualAnalyzer.isHoneypot (AdvancedSimulator.counterfactual a))
         <$> advancedAnalysis) in
  let cfOwner :=
    default false
      ((fun a => CounterfactualAnalyzer.hasOwnerPrivileges (AdvancedSimulator.counterfactual a))
         <$> advancedAnalysis) in
  let riskScore := default 0 (SecurityAnalyzer.riskScore <$> securityReport) in
  let p := (MLService.b2q isHoneypot (35 # 100) + MLService.b2q isScam (25 # 100)
            + MLService.b2q cfHoneypot (2 # 10) + MLService.b2q cfOwner (15 # 100)
            + (inject_Z riskScore / 100) * (2 # 10))%Q in
  MLService.qmin 1 (MLService.qmax 0 p).

(** [samples.findIndex(s => s.contractAddress === a && s.timestamp > t)] *)
Fixpoint findIndex (a : string) (t : Z) (samples : list TrainingSample) : option nat :=
  match samples with
  | [] => None
  | s :: rest =>
      if String.eqb (contractAddress s) a && (t <? timestamp s) then Some O
      else Datatypes.S <$> findIndex a t rest
  end.

(** [collect(contractAddress, chainId, features, securityReport,
    advancedAnalysis)] on the loaded samples; [now] is [Date.now()]. *)
Definition collect (samples : list TrainingSample) (now : Z)
           (contractAddress : string) (chainId : option Z)
           (features : MLService.ContinuousFeatures)
           (securityReport : option SecurityAnalyzer.SecurityReport)
           (advancedAnalysis : option AdvancedSimulator.AdvancedAnalysis)
  : list TrainingSample :=
  let sample :=
    {| timestamp := now;
       contractAddress := Js.toLowerCase contractAddress;
       chainId := chainId;
       features := features;
       label := softLabel securityReport advancedAnalysis;
       ruleBasedVerdict :=
         {| rb_isHoneypot := default false (SecurityAnalyzer.isHoneypot <$> securityReport);
            rb_isScam := default false (AdvancedSimulator.isScam <$> advancedAnalysis);
            rb_riskScore := default 0 (SecurityAnalyzer.riskScore <$> securityReport);
            rb_hasOwnerPrivileges :=
              default false
                ((fun a => CounterfactualAnalyzer.hasOwnerPrivileges
                             (AdvancedSimulator.counterfactual a))
                   <$> advancedAnalysis) |} |} in
  match findIndex (Js.toLowerCase contractAddress) (now - 3600000) samples with
  | Some existingIdx => <[existingIdx := sample]> samples
  | None => (samples ++ [sample])%list
  end.

End TrainingDataCollector.

(** ** Vocabulary of the properties *)

Definition noDrift : ScanHistory.DriftAnalysis :=
  {| ScanHistory.hasDrift := false;
     ScanHistory.riskDelta := 0;
     ScanHistory.newFlags := [];
     ScanHistory.removedFlags := [];
     ScanHistory.previousScan := None |}.

(** The history list of an address, empty when the key is missing. *)
Definition historyOf (db : ScanHistory.Store) (addr : string) : list ScanHistory.ScanRecord :=
  default [] (ScanHistory.history db !! ScanHistory.historyKey addr).

(** The entry that one offset adds to [futureResults]: none for the
    baseline offset and for a run whose fork failed. *)
Definition futureOf (engine : SimulationEngine) (txParams : TxParams) (cur : string)
           (offset : Z * string) : list TimeTravelAnalyzer.FutureResult :=
  if fst offset =? 0 then []
  else
    match runAt engine txParams (fst offset) with
    | None => []
    | Some out =>
        [ {| TimeTravelAnalyzer.offsetDescription := snd offset;
             TimeTravelAnalyzer.offsetSeconds := fst offset;
             TimeTravelAnalyzer.outcome := out;
             TimeTravelAnalyzer.divergesFromCurrent := negb (String.eqb (status out) cur) |} ]
    end.

(** The actor matrix of the honeypot rule: every actor that is not an owner
    reverted, and some owner succeeded. *)
Definition ownerOnlyMatrix (actors : list CounterfactualAnalyzer.ActorSimulationResult) : Prop :=
  (forall a, In a actors ->
             CounterfactualAnalyzer.actorType a <> CounterfactualAnalyzer.Owner ->
             status (CounterfactualAnalyzer.outcome a) = "Reverted")
  /\ (exists a, In a actors
                /\ CounterfactualAnalyzer.actorType a = CounterfactualAnalyzer.Owner
                /\ status (CounterfactualAnalyzer.outcome a) = "Success").

(** The gas of the first user and of the first owner differ by more than
    half their mean. *)
Definition gasAnomalyIn (actors : list CounterfactualAnalyzer.ActorSimulationResult) : bool :=
  match CounterfactualAnalyzer.ofType CounterfactualAnalyzer.RandomUser actors,
        CounterfactualAnalyzer.ofType CounterfactualAnalyzer.Owner actors with
  | u :: _, o :: _ =>
      CounterfactualAnalyzer.gasAnomaly (gasUsed (CounterfactualAnalyzer.outcome u))
                                        (gasUsed (CounterfactualAnalyzer.outcome o))
  | _, _ => false
  end.

(** The bytes of [MINIMAL_PROXY_PREFIX] and [MINIMAL_PROXY_SUFFIX]. *)
Definition minimalPrefixBytes : list byte :=
  [x36; x3d; x3d; x37; x3d; x3d; x3d; x36; x3d; x73].
Definition minimalSuffixBytes : list byte :=
  [x5a; xf4; x3d; x82; x80; x3e; x90; x3d; x91; x60; x2b; x57; xfd; x5b; xf3].

(** The deployed code of an EIP-1167 clone of [impl]. *)
Definition cloneCode (impl : Address) : list byte :=
  (minimalPrefixBytes ++ impl ++ minimalSuffixBytes)%list.

(** Shape of a proxy report: a negative report carries nothing; a positive
    one names its kind; a kind found through a slot or through
    implementation() comes with a parseable implementation address that is
    not the zero address; beacon and admin only accompany EIP-1967. *)
Definition wellFormedInfo (info : ProxyDetector.ProxyInfo) : Prop :=
  (ProxyDetector.isProxy info = false -> info = ProxyDetector.notProxy)
  /\ (ProxyDetector.isProxy info = true ->
      exists t, ProxyDetector.proxyType info = Some t)
  /\ (forall t, ProxyDetector.proxyType info = Some t -> t <> ProxyDetector.Minimal ->
      exists s impl, ProxyDetector.implementationAddress info = Some s
                     /\ s <> Addr.ZERO /\ Addr.fromString s = Some impl)
  /\ (ProxyDetector.beaconAddress info <> None \/ ProxyDetector.adminAddress info <> None ->
      ProxyDetector.proxyType info = Some ProxyDetector.EIP1967).

(** The catalogue entries whose selector occurs in the hex text of [code]. *)
Definition matching (code : list byte) : list SecurityAnalyzer.Pattern :=
  List.filter
    (fun p => Js.includes (Js.toLowerCase (Js.toHex code)) (SecurityAnalyzer.selector p))
    SecurityAnalyzer.suspiciousPatterns.

Definition sumRisk (ps : list SecurityAnalyzer.Pattern) : Z :=
  fold_right Z.add 0 (map SecurityAnalyzer.risk ps).

Definition suspiciousFlag (p : SecurityAnalyzer.Pattern) : string :=
  "Suspicious Function: " ++ SecurityAnalyzer.name p ++ "()".

(** The ownership part of a report: status, owner and the flag that goes
    with them. *)
Definition ownershipOk (r : SecurityAnalyzer.SecurityReport) : Prop :=
  match SecurityAnalyzer.ownershipStatus r with
  | SecurityAnalyzer.Unknown => SecurityAnalyzer.ownerAddress r = None
  | SecurityAnalyzer.Renounced =>
      SecurityAnalyzer.ownerAddress r = None
      /\ In "Ownership Renounced (Safe)" (SecurityAnalyzer.flags r)
  | SecurityAnalyzer.Centralized =>
      exists a, SecurityAnalyzer.ownerAddress r = Some a
                /\ a <> Addr.ZERO
                /\ (exists bytes, Addr.fromString a = Some bytes)
                /\ In ("Contract has an Owner: " ++ a)%string (SecurityAnalyzer.flags r)
  end.

(** The users of a run all reverted and some owner succeeded: the test of
    the honeypot rule. *)
Definition honeypotMatrix (actors : list CounterfactualAnalyzer.ActorSimulationResult) : bool :=
  forallb CounterfactualAnalyzer.reverted
          (CounterfactualAnalyzer.ofType CounterfactualAnalyzer.RandomUser actors)
  && existsb CounterfactualAnalyzer.succeeded
             (CounterfactualAnalyzer.ofType CounterfactualAnalyzer.Owner actors).

(** The call succeeds now and some run at a later time of the canonical
    list does not. *)
Definition timeBomb (engine : SimulationEngine) (txParams : TxParams) : Prop :=
  exists cur seconds description out,
    runAt engine txParams 0 = Some cur
    /\ status cur = "Success"
    /\ In (seconds, description) TimeTravelAnalyzer.timeOffsets
    /\ 0 < seconds
    /\ runAt engine txParams seconds = Some out
    /\ status out <> "Success".

(** Some flag of the list contains the word. *)
Definition mentions (word : string) (flags : list string) : bool :=
  existsb (fun f => Js.includes f word) flags.

(** A feature value within the range the classifier expects. *)
Definition inUnit (q : Q) : Prop := (0 <= q /\ q <= 1)%Q.

(** The flags the advanced analysis offers to the report, in the order
    they are merged. *)
Definition advancedFlags (adv : AdvancedSimulator.AdvancedAnalysis) : list string :=
  (TimeTravelAnalyzer.riskFlags (AdvancedSimulator.timeTravel adv)
   ++ CounterfactualAnalyzer.riskFlags (AdvancedSimulator.counterfactual adv)
   ++ map EvmExecutor.diffFlag
          (CounterfactualAnalyzer.privilegeDiff (AdvancedSimulator.counterfactual adv)))%list.

(** Two reports that differ at most in their flags. *)
Definition sameButFlags (a b : SecurityAnalyzer.SecurityReport) : Prop :=
  SecurityAnalyzer.set_flags [] a = SecurityAnalyzer.set_flags [] b.

(** The report of the static analysis, as [simulateTransaction] builds it
    before the advanced simulation: with a chain id the proxy check runs
    first and the implementation is analysed in place of a proxy. *)
Definition staticReport {S} `{EvmApi S} (env : EvmExecutor.Environment S)
           (to : Address) (chainId : option Z) : SecurityAnalyzer.SecurityReport :=
  match chainId with
  | Some _ =>
      let '(p, a, e) :=
        EvmExecutor.proxyPhase (EvmExecutor.env_evm env) to (EvmExecutor.env_provider env) in
      EvmExecutor.baseReport env e a (EvmExecutor.env_provider env) (Some p)
  | None => EvmExecutor.baseReport env (EvmExecutor.env_evm env) to None None
  end.

(** The opcode of the step before was [op]. *)
Definition wasOp (last : option string) (op : string) : bool :=
  match last with
  | Some l => String.eqb l op
  | None => false
  end.

(** The events one step adds to a trace, from the step and the opcode
    before it alone. *)
Definition stepEvents (last : option string) (data : OpcodeTracer.StepData) : list string :=
  let op := OpcodeTracer.opcodeName data in
  let pc := OpcodeTracer.stepPc data in
  ((if String.eqb op "CALLER" then [OpcodeTracer.senderLoaded pc]
    else if String.eqb op "ORIGIN" then [OpcodeTracer.originLoaded pc]
    else [])
   ++ (if String.eqb op "TIMESTAMP" then [OpcodeTracer.timestampLoaded pc] else [])
   ++ (if OpcodeTracer.oneOf op ["EQ"; "LT"; "GT"; "SGT"; "SLT"] then
         (if wasOp last "CALLER" || wasOp last "ORIGIN"
          then [OpcodeTracer.SENDER_COMPARE] else [])
         ++ (if wasOp last "TIMESTAMP" then [OpcodeTracer.TIME_COMPARE] else [])
       else []))%list.

Fixpoint eventsFrom (last : option string) (run : list OpcodeTracer.StepData) : list string :=
  match run with
  | [] => []
  | data :: rest =>
      (stepEvents last data ++ eventsFrom (Some (OpcodeTracer.opcodeName data)) rest)%list
  end.

(** The opcode [op] is executed somewhere in the run. *)
Definition ran (op : string) (run : list OpcodeTracer.StepData) : bool :=
  existsb (fun data => String.eqb (OpcodeTracer.opcodeName data) op) run.

(** ** Test vectors of the digest (FIPS 180-4, appendix B) *)

Example sha256_constants :
  nth 0 Sha256.K 0 = 0x428a2f98 /\ nth 63 Sha256.K 0 = 0xc67178f2
  /\ nth 0 Sha256.H0 0 = 0x6a09e667 /\ nth 7 Sha256.H0 0 = 0x5be0cd19.
Proof. vm_compute. repeat split. Qed.

Example sha256_abc :
  Sha256.hexdigest "abc"
  = "ba7816bf8f01cfea414140de5dae2223b00361a396177a9cb410ff61f20015ad".
Proof. vm_compute. reflexivity. Qed.

Example sha256_two_blocks :
  Sha256.hexdigest "abcdbcdecdefdefgefghfghighijhijkijkljklmklmnlmnomnopnopq"
  = "248d6a61d20638b8e5c026930c3e6039a33ce45964ff2167f6ecedd419db06c1".
Proof. vm_compute. reflexivity. Qed.

Example sha256_empty :
  Sha256.hexdigest ""
  = "e3b0c44298fc1c149afbf4c8996fb92427ae41e4649b934ca495991b7852b855".
Proof. vm_compute. reflexivity. Qed.

(** ** Concrete chains, engines and stores used in the examples below *)
Module Fixtures.

(** An EVM test double shaped like the EVM the program builds: a code
    table behind the current [getCode] and [putCode], a fixed reply to
    [owner()] while every other call reverts, and no [getContractCode] or
    [getContractStorage]. *)
Record ToyEvm := {
  codes : list (Address * list byte);
  ownerReply : list byte
}.

Definition sameBytes (a b : list byte) : bool :=
  String.eqb (Js.toHex a) (Js.toHex b).

Definition codeAt (evm : ToyEvm) (a : Address) : list byte :=
  match find (fun e => sameBytes (fst e) a) (codes evm) with
  | Some e => snd e
  | None => []
  end.

Definition zeroWord : list byte := repeat x00 32.

Definition toyCall (evm : ToyEvm) (opts : RunCallOpts) : option ExecResult * ToyEvm :=
  if sameBytes (call_data opts) SecurityAnalyzer.OWNER_SELECTOR then
    (Some {| exceptionError := None; returnValue := ownerReply evm;
             executionGasUsed := 2300 |}, evm)
  else
    (Some {| exceptionError := Some "revert"; returnValue := [];
             executionGasUsed := 21000 |}, evm).

#[global] Instance toyApi : EvmApi ToyEvm := {|
  Account := unit;
  newAccount := tt;
  getAccount := fun _ _ => Some None;
  putAccount := fun evm _ _ => Some evm;
  getContractCode := fun _ _ => None;
  getCode := fun evm a => Some (codeAt evm a);
  getContractStorage := fun _ _ _ => None;
  runCall := toyCall;
  putCode := fun evm a code =>
    Some {| codes := (a, code) :: codes evm; ownerReply := ownerReply evm |}
|}.

Definition addrA : Address := repeat xaa 20.
Definition addrB : Address := repeat xbb 20.
Definition addrOwner : Address := repeat xcc 20.
Definition word (a : Address) : list byte := (repeat x00 12 ++ a)%list.

(** A provider that serves the same one-instruction code everywhere. *)
Definition stopProvider : Provider :=
  {| p_getStorage := fun _ _ => None;
     p_getCode := fun _ => Some [x00];
     p_call := fun _ _ => None |}.

(** A→B→A: two deployed contracts, each naming the other in its
    EIP-1967 implementation slot.  The two slot values are chain state,
    which the provider serves. *)
Definition cyclicEvm : ToyEvm :=
  {| codes := [(addrA, [x00]); (addrB, [x00])]; ownerReply := [] |}.

Definition cyclicProvider : Provider :=
  {| p_getStorage := fun a slot =>
       if slot =? ProxyDetector.EIP1967_IMPLEMENTATION then
         if String.eqb a (Addr.toString addrA) then Some (word addrB)
         else if String.eqb a (Addr.toString addrB) then Some (word addrA)
         else Some zeroWord
       else Some zeroWord;
     p_getCode := fun _ => Some [x00];
     p_call := fun _ _ => None |}.

(** A provider for contracts with no slot set: every slot reads zero. *)
Definition plainProvider : Provider :=
  {| p_getStorage := fun _ _ => Some zeroWord;
     p_getCode := fun _ => Some [x00];
     p_call := fun _ _ => None |}.

(** PUSH2 0x0f40; POP; STOP: five bytes, none of them 0xf4. *)
Definition push2Code : list byte := [x61; x0f; x40; x50; x00].

(** A forwarder of 44 bytes that is no EIP-1167 clone: CALLDATASIZE,
    PUSH0, PUSH0, CALLDATACOPY, PUSH0, PUSH0, CALLDATASIZE, PUSH0,
    PUSH20 [addrB], GAS, DELEGATECALL, and the return or revert of the
    result. *)
Definition delegateCode : list byte :=
  ([x36; x5f; x5f; x37; x5f; x5f; x36; x5f; x73] ++ addrB
   ++ [x5a; xf4; x3d; x5f; x5f; x3e; x5f; x3d; x91; x60; x2a; x57; xfd; x5b; xf3])%list.

Definition delegateEvm : ToyEvm :=
  {| codes := [(addrA, delegateCode)]; ownerReply := [] |}.

(** A dispatcher that pushes the selectors of drain() and blacklist(address). *)
Definition drainCode : list byte :=
  [x63; xd0; x40; x22; x0a; x63; xf9; xf9; x2b; xe4; x00].

Definition drainEvm : ToyEvm :=
  {| codes := [(addrA, drainCode)]; ownerReply := [] |}.

(** A contract of one STOP instruction whose owner() answers [addrOwner]. *)
Definition ownedEvm : ToyEvm :=
  {| codes := [(addrA, [x00])]; ownerReply := word addrOwner |}.

Definition ok (gas : Z) : SimulationOutcome :=
  {| status := "Success"; gasUsed := gas; outReturnValue := "0x"; revertReason := None |}.

Definition rev (gas : Z) : SimulationOutcome :=
  {| status := "Reverted"; gasUsed := gas; outReturnValue := "0x";
     revertReason := Some "revert" |}.

Definition tx : TxParams :=
  {| tx_from := "0x1111111111111111111111111111111111111111";
     tx_to := Addr.toString addrA;
     tx_data := None;
     tx_value := Some "0x0" |}.

Definition randomAddress : string := "0x2222222222222222222222222222222222222222".

(** Every run succeeds with the same gas. *)
Definition benignEngine : SimulationEngine :=
  {| runAt := fun _ _ => Some (ok 30000);
     runAs := fun _ _ _ => Some (ok 30000);
     generateRandomAddress := randomAddress |}.

(** Reverts now and at every later time, but succeeded a day ago. *)
Definition closedEngine : SimulationEngine :=
  {| runAt := fun _ offset => if offset <? 0 then Some (ok 30000) else Some (rev 2000);
     runAs := fun _ _ _ => Some (rev 2000);
     generateRandomAddress := randomAddress |}.

(** Users revert early; the owner, with its slots injected, succeeds. *)
Definition honeypotEngine : SimulationEngine :=
  {| runAt := fun _ _ => Some (rev 2000);
     runAs := fun _ _ isOwner => if isOwner then Some (ok 30000) else Some (rev 2000);
     generateRandomAddress := randomAddress |}.

Definition user (o : SimulationOutcome) : CounterfactualAnalyzer.ActorSimulationResult :=
  {| CounterfactualAnalyzer.actorType := CounterfactualAnalyzer.RandomUser;
     CounterfactualAnalyzer.address := randomAddress;
     CounterfactualAnalyzer.outcome := o |}.

Definition owner (o : SimulationOutcome) : CounterfactualAnalyzer.ActorSimulationResult :=
  {| CounterfactualAnalyzer.actorType := CounterfactualAnalyzer.Owner;
     CounterfactualAnalyzer.address := Addr.toString addrOwner;
     CounterfactualAnalyzer.outcome := o |}.

Definition safeStory : Explanation :=
  {| title := "Security Check Passed";
     story := "No suspicious mechanisms detected during execution.";
     severity := "Safe" |}.

Definition noClassifier (_ : MLService.ContinuousFeatures)
  : option MLService.CalibratedResponse := None.

(** An environment over the test double; [store] is the database when
    both Redis calls return, and [None] stands for a run in which
    [analyzeDrift] throws. *)
Definition envOf (evm : ToyEvm) (engine : option SimulationEngine)
           (store : option ScanHistory.Store) : EvmExecutor.Environment ToyEvm :=
  {| EvmExecutor.env_evm := evm;
     EvmExecutor.env_status := "Success";
     EvmExecutor.env_mechanismStory := safeStory;
     EvmExecutor.env_traceEvents := [];
     EvmExecutor.env_provider := Some stopProvider;
     EvmExecutor.env_engine := engine;
     EvmExecutor.env_redis :=
       match store with
       | Some db => EvmExecutor.Returns db
       | None => EvmExecutor.AnalyzeThrows
       end;
     EvmExecutor.env_now := 1700000000000;
     EvmExecutor.env_classifier := noClassifier |}.

Definition reportOf (score : Z) (fs : list string) : SecurityAnalyzer.SecurityReport :=
  SecurityAnalyzer.set_flags fs
    (SecurityAnalyzer.set_riskScore score SecurityAnalyzer.initialReport).

(** The store after one earlier scan of [addrA] that produced [report]. *)
Definition storeAfter (report : SecurityAnalyzer.SecurityReport) : ScanHistory.Store :=
  snd (ScanHistory.storeScan ScanHistory.emptyStore 1600000000000
         (Addr.toString addrA) (Some 1) report None).

End Fixtures.

(** * Properties *)

(** ** Verdict assembly *)

Lemma assembleVerdict_rule_based sr adv ml :
  CounterfactualAnalyzer.isHoneypot (AdvancedSimulator.counterfactual adv) = true ->
  EvmExecutor.assembleVerdict sr (Some adv) ml =
  {| EvmExecutor.verdict := MLService.BLOCK;
     EvmExecutor.reason :=
       default "Honeypot or scam patterns detected"
         (Js.or_else (sr ≫= SecurityAnalyzer.friendlyExplanation)
            (Js.or_else (Some (AdvancedSimulator.overallSummary adv)) None));
     EvmExecutor.confidence := 100;
     EvmExecutor.source := "RULE_BASED";
     EvmExecutor.uncertainty := MLService.uncertainty <$> ml;
     EvmExecutor.confidence_interval := MLService.confidence_interval <$> ml |}.
Proof.
  intros Hhp. unfold EvmExecutor.assembleVerdict. cbn [fmap option_fmap option_map default].
  rewrite Hhp. rewrite !orb_true_r. cbn [orb]. reflexivity.
Qed.

Lemma simulateTransaction_verdict {S} `{EvmApi S}
      (env : EvmExecutor.Environment S) txParams to chainId :
  let resp := fst (EvmExecutor.simulateTransaction env txParams to chainId) in
  EvmExecutor.finalVerdict resp =
  EvmExecutor.assembleVerdict (EvmExecutor.securityReport resp)
    (EvmExecutor.advancedAnalysis resp) (EvmExecutor.mlAnalysis resp).
Proof.
  unfold EvmExecutor.simulateTransaction.
  destruct to as [toAddr|]; [|reflexivity].
  destruct chainId as [c|].
  - destruct (EvmExecutor.proxyPhase _ _ _) as [[p a] e].
    destruct (EvmExecutor.driftPhase _ _ _ _ _ _) as [[d r] s]. reflexivity.
  - destruct (EvmExecutor.driftPhase _ _ _ _ _ _) as [[d r] s]. reflexivity.
Qed.

(** C1. Whenever the counterfactual analysis of a scan reports a honeypot,
    the final verdict of [simulateTransaction] is BLOCK, from the rule-based
    source, with confidence 100, whatever the classifier answered and also
    when it did not answer. *)
Theorem honeypot_implies_block {S} `{EvmApi S}
        (env : EvmExecutor.Environment S) txParams to chainId adv :
  let resp := fst (EvmExecutor.simulateTransaction env txParams to chainId) in
  EvmExecutor.advancedAnalysis resp = Some adv ->
  CounterfactualAnalyzer.isHoneypot (AdvancedSimulator.counterfactual adv) = true ->
  EvmExecutor.verdict (EvmExecutor.finalVerdict resp) = MLService.BLOCK
  /\ EvmExecutor.source (EvmExecutor.finalVerdict resp) = "RULE_BASED"
  /\ EvmExecutor.confidence (EvmExecutor.finalVerdict resp) = 100%Q.
Proof.
  intros resp Hadv Hhp. subst resp.
  rewrite simulateTransaction_verdict, Hadv.
  rewrite (assembleVerdict_rule_based _ _ _ Hhp). cbn. auto.
Qed.

Lemma honeypot_implies_block_witness :
  let resp :=
    fst (EvmExecutor.simulateTransaction
           (Fixtures.envOf Fixtures.ownedEvm (Some Fixtures.honeypotEngine)
              (Some ScanHistory.emptyStore))
           Fixtures.tx (Some Fixtures.addrA) (Some 1)) in
  EvmExecutor.verdict (EvmExecutor.finalVerdict resp) = MLService.BLOCK
  /\ EvmExecutor.source (EvmExecutor.finalVerdict resp) = "RULE_BASED"
  /\ EvmExecutor.confidence (EvmExecutor.finalVerdict resp) = 100%Q.
Proof.
  eapply (honeypot_implies_block
            (Fixtures.envOf Fixtures.ownedEvm (Some Fixtures.honeypotEngine)
               (Some ScanHistory.emptyStore))
            Fixtures.tx (Some Fixtures.addrA) (Some 1)).
  - vm_compute. reflexivity.
  - vm_compute. reflexivity.
Defined.

(** ** Drift detection *)

Lemma getLatestScan_head db addr :
  ScanHistory.getLatestScan db addr = head (historyOf db addr).
Proof.
  unfold ScanHistory.getLatestScan, ScanHistory.getHistory, ScanHistory.lRange, historyOf.
  destruct (default [] _) as [|r rest]; reflexivity.
Qed.

Lemma app_one_neq {A} (l : list A) (x : A) : (l ++ [x])%list <> l.
Proof.
  intros Heq. apply (f_equal (@length A)) in Heq.
  rewrite length_app in Heq. cbn in Heq. lia.
Qed.

(** C10. For an address with no stored scan record, drift analysis reports
    no drift, a risk delta of 0, no new and no removed flags and no previous
    scan; the drift step of the scan then leaves the flags of the report as
    they are, so the risk-increase flag is not added. *)
Theorem first_scan_no_drift (db : ScanHistory.Store) (addr : string)
        (report : SecurityAnalyzer.SecurityReport)
        (now : Z) (chainId : option Z) (proxyInfo : option ProxyDetector.ProxyInfo) :
  historyOf db addr = [] ->
  ScanHistory.analyzeDrift db addr report = noDrift
  /\ EvmExecutor.applyDrift (ScanHistory.analyzeDrift db addr report) report = report
  /\ fst (EvmExecutor.driftPhase (EvmExecutor.Returns db) now addr chainId proxyInfo report)
     = (Some noDrift, report)
  /\ (forall step,
        fst (EvmExecutor.driftPhase (EvmExecutor.StoreThrows db step) now addr chainId
               proxyInfo report)
        = (Some noDrift, report)).
Proof.
  intros Hempty.
  assert (Hdrift : ScanHistory.analyzeDrift db addr report = noDrift).
  { unfold ScanHistory.analyzeDrift. rewrite getLatestScan_head, Hempty. reflexivity. }
  split; [exact Hdrift|]. split; [|split].
  - rewrite Hdrift. reflexivity.
  - unfold EvmExecutor.driftPhase. rewrite Hdrift.
    destruct (ScanHistory.storeScan _ _ _ _ _ _) as [rec db']. reflexivity.
  - intros step. unfold EvmExecutor.driftPhase. rewrite Hdrift. reflexivity.
Qed.

Lemma first_scan_no_drift_witness :
  ScanHistory.analyzeDrift ScanHistory.emptyStore (Addr.toString Fixtures.addrA)
    (Fixtures.reportOf 95 ["Suspicious Function: drain()()"]) = noDrift.
Proof.
  apply (first_scan_no_drift ScanHistory.emptyStore (Addr.toString Fixtures.addrA)
           (Fixtures.reportOf 95 ["Suspicious Function: drain()()"]) 0 None None).
  reflexivity.
Defined.

(** C7, as the code has it.  For a scan with a prior stored record, the
    risk delta is the current risk score minus the prior one, and the flag
    "Risk Increased (+delta since last scan)" is appended to the current
    report exactly when the capability hash differs from the prior record's
    and the delta is positive; otherwise the flags are unchanged. *)
Theorem drift_flag_rule (db : ScanHistory.Store) (addr : string)
        (report : SecurityAnalyzer.SecurityReport) (prior : ScanHistory.ScanRecord) :
  head (historyOf db addr) = Some prior ->
  let d := ScanHistory.analyzeDrift db addr report in
  let flags' := SecurityAnalyzer.flags (EvmExecutor.applyDrift d report) in
  ScanHistory.previousScan d = Some prior
  /\ ScanHistory.riskDelta d
     = SecurityAnalyzer.riskScore report - ScanHistory.riskScore prior
  /\ (ScanHistory.hasDrift d = true <->
      ScanHistory.generateCapabilityHash (SecurityAnalyzer.flags report)
      <> ScanHistory.capabilityHash prior)
  /\ (flags' = (SecurityAnalyzer.flags report
                ++ [EvmExecutor.riskIncreasedFlag (ScanHistory.riskDelta d)])%list
      <-> ScanHistory.hasDrift d = true /\ 0 < ScanHistory.riskDelta d)
  /\ (flags' = SecurityAnalyzer.flags report
      <-> ~ (ScanHistory.hasDrift d = true /\ 0 < ScanHistory.riskDelta d)).
Proof.
  intros Hprior d flags'. subst d flags'.
  unfold ScanHistory.analyzeDrift. rewrite getLatestScan_head, Hprior.
  cbn [ScanHistory.previousScan ScanHistory.riskDelta ScanHistory.hasDrift].
  split; [reflexivity|]. split; [reflexivity|]. split.
  { rewrite negb_true_iff, String.eqb_neq. reflexivity. }
  unfold EvmExecutor.applyDrift.
  cbn [ScanHistory.previousScan ScanHistory.riskDelta ScanHistory.hasDrift].
  destruct (negb _) eqn:Hd.
  - destruct (Z.ltb_spec 0 (SecurityAnalyzer.riskScore report - ScanHistory.riskScore prior))
      as [Hpos|Hnpos].
    + cbn. split; split; auto.
      * intros Heq. exfalso. exact (app_one_neq _ _ Heq).
      * intros Hn. exfalso. apply Hn. auto.
    + split; split.
      * intros Heq. exfalso. symmetry in Heq. exact (app_one_neq _ _ Heq).
      * intros [_ Hpos]. lia.
      * intros _ [_ Hpos]. lia.
      * reflexivity.
  - split; split.
    + intros Heq. exfalso. symmetry in Heq. exact (app_one_neq _ _ Heq).
    + intros [Hf _]. discriminate.
    + intros _ [Hf _]. discriminate.
    + reflexivity.
Qed.

Lemma drift_flag_rule_witness :
  ScanHistory.riskDelta
    (ScanHistory.analyzeDrift
       (Fixtures.storeAfter (Fixtures.reportOf 20 ["Simulation Reverted"]))
       (Addr.toString Fixtures.addrA)
       (Fixtures.reportOf 95 ["Simulation Reverted"; "Suspicious Function: drain()()"]))
  = 95 - 20.
Proof.
  refine (proj1 (proj2 (drift_flag_rule
           (Fixtures.storeAfter (Fixtures.reportOf 20 ["Simulation Reverted"]))
           (Addr.toString Fixtures.addrA)
           (Fixtures.reportOf 95 ["Simulation Reverted"; "Suspicious Function: drain()()"])
           (fst (ScanHistory.storeScan ScanHistory.emptyStore 1600000000000
                   (Addr.toString Fixtures.addrA) (Some 1)
                   (Fixtures.reportOf 20 ["Simulation Reverted"]) None))
           _))).
  vm_compute. reflexivity.
Defined.

(** C7 as stated fails in both directions.  With a prior record of risk 10
    and unchanged flags, a scan of risk 40 has delta 30 and gets no flag;
    with a new flag, a scan of risk 15 has delta 5 and gets the flag. *)
Lemma drift_flag_threshold_counterexample :
  (ScanHistory.riskDelta
     (ScanHistory.analyzeDrift
        (Fixtures.storeAfter (Fixtures.reportOf 10 ["Simulation Reverted"]))
        (Addr.toString Fixtures.addrA)
        (Fixtures.reportOf 40 ["Simulation Reverted"])) = 30
   /\ SecurityAnalyzer.flags
        (EvmExecutor.applyDrift
           (ScanHistory.analyzeDrift
              (Fixtures.storeAfter (Fixtures.reportOf 10 ["Simulation Reverted"]))
              (Addr.toString Fixtures.addrA)
              (Fixtures.reportOf 40 ["Simulation Reverted"]))
           (Fixtures.reportOf 40 ["Simulation Reverted"]))
      = ["Simulation Reverted"])
  /\
  (ScanHistory.riskDelta
     (ScanHistory.analyzeDrift
        (Fixtures.storeAfter (Fixtures.reportOf 10 ["Simulation Reverted"]))
        (Addr.toString Fixtures.addrA)
        (Fixtures.reportOf 15 ["Simulation Reverted"; "Ownership Renounced (Safe)"])) = 5
   /\ SecurityAnalyzer.flags
        (EvmExecutor.applyDrift
           (ScanHistory.analyzeDrift
              (Fixtures.storeAfter (Fixtures.reportOf 10 ["Simulation Reverted"]))
              (Addr.toString Fixtures.addrA)
              (Fixtures.reportOf 15 ["Simulation Reverted"; "Ownership Renounced (Safe)"]))
           (Fixtures.reportOf 15 ["Simulation Reverted"; "Ownership Renounced (Safe)"]))
      = ["Simulation Reverted"; "Ownership Renounced (Safe)";
         "Risk Increased (+5 since last scan)"]).
Proof. vm_compute. repeat split. Qed.

(** ** Static analysis: risk score and proxy detection *)

Lemma scanPattern_risk codeHex report pattern :
  0 <= SecurityAnalyzer.risk pattern ->
  SecurityAnalyzer.riskScore report
  <= SecurityAnalyzer.riskScore (SecurityAnalyzer.scanPattern codeHex report pattern).
Proof.
  intros Hp. unfold SecurityAnalyzer.scanPattern.
  destruct (Js.includes codeHex _); cbn; lia.
Qed.

Lemma scanPatterns_risk codeHex patterns :
  Forall (fun p => 0 <= SecurityAnalyzer.risk p) patterns ->
  forall report,
    SecurityAnalyzer.riskScore report
    <= SecurityAnalyzer.riskScore
         (fold_left (SecurityAnalyzer.scanPattern codeHex) patterns report).
Proof.
  induction 1 as [|p ps Hp _ IH]; intros report; cbn [fold_left]; [lia|].
  etransitivity; [apply (scanPattern_risk codeHex report p Hp)|apply IH].
Qed.

(** The part of the range that the analyzer does keep: the score of a
    report is never negative. *)
Lemma analyze_riskScore_nonneg {S} `{EvmApi S} (evm : S) target status provider :
  0 <= SecurityAnalyzer.riskScore (fst (SecurityAnalyzer.analyze evm target status provider)).
Proof.
  unfold SecurityAnalyzer.analyze.
  set (r1 := SecurityAnalyzer.analyzeSimulation status SecurityAnalyzer.initialReport).
  assert (H1 : 0 <= SecurityAnalyzer.riskScore r1).
  { subst r1. unfold SecurityAnalyzer.analyzeSimulation.
    destruct (_ && _); cbn; lia. }
  destruct (SecurityAnalyzer.checkOwnership evm target provider r1) as [r2 evm'] eqn:Hown.
  assert (H2 : 0 <= SecurityAnalyzer.riskScore r2).
  { unfold SecurityAnalyzer.checkOwnership in Hown.
    destruct (runCall evm _) as [[res|] e] in Hown.
    - injection Hown as <- _. unfold SecurityAnalyzer.interpretOwner.
      repeat match goal with
             | |- context [if ?b then _ else _] => destruct b
             | |- context [match ?x with _ => _ end] => destruct x
             end; cbn; lia.
    - injection Hown as <- _. exact H1. }
  destruct (getCode evm' target) as [code|]; cbn [fst]; [|exact H2].
  unfold SecurityAnalyzer.scanBytecode.
  etransitivity; [exact H2|]. apply scanPatterns_risk.
  unfold SecurityAnalyzer.suspiciousPatterns.
  repeat constructor; cbn; lia.
Qed.

(** C2 fails on the code: the analyzer adds the weights of all matching
    selectors and nothing saturates the sum.  For a contract whose code
    holds the selectors of drain() and blacklist(address), the report has
    risk score 150, and the scan returns it with that score. *)
Theorem risk_score_exceeds_100 :
  SecurityAnalyzer.riskScore
    (fst (SecurityAnalyzer.analyze Fixtures.drainEvm Fixtures.addrA "Success" None)) = 150
  /\ SecurityAnalyzer.riskScore
       <$> EvmExecutor.securityReport
             (fst (EvmExecutor.simulateTransaction
                     (Fixtures.envOf Fixtures.drainEvm (Some Fixtures.benignEngine)
                        (Some ScanHistory.emptyStore))
                     Fixtures.tx (Some Fixtures.addrA) (Some 1)))
     = Some 150.
Proof. vm_compute. split; reflexivity. Qed.

(** What [detectProxy] does when no standard pattern applies: the contract
    is reported as a proxy exactly when its code is shorter than 200 bytes
    and the hex text of the code contains the digits f4. *)
Lemma detectProxy_custom {S} `{EvmApi S} (evm : S) (address : Address)
      (provider : option Provider) (code : list byte) :
  getContractCode evm address = Some code ->
  ProxyDetector.checkMinimalProxy (Js.toHex code) = None ->
  ProxyDetector.isProxy (ProxyDetector.checkEIP1967Slots evm address provider) = false ->
  ProxyDetector.isProxy (ProxyDetector.checkEIP1822 evm address provider) = false ->
  ProxyDetector.isProxy (fst (ProxyDetector.checkEIP897 evm address)) = false ->
  ProxyDetector.isProxy (fst (ProxyDetector.detectProxy evm address provider))
  = (length code <? 200)%nat && ProxyDetector.containsDelegateCall (Js.toHex code).
Proof.
  intros Hcode Hmin H1967 H1822 H897.
  unfold ProxyDetector.detectProxy. rewrite Hcode, Hmin, H1967, H1822.
  destruct (ProxyDetector.checkEIP897 evm address) as [info evm'].
  cbn [fst] in H897. rewrite H897.
  destruct (_ && _); reflexivity.
Qed.

(** [containsDelegateCall] searches the hex text of the code, so the
    digits f4 that straddle the bytes 0f 40 of PUSH2 0x0f40 count as a
    DELEGATECALL although no byte of the code is 0xf4. *)
Lemma containsDelegateCall_hex_text :
  ~ In xf4 Fixtures.push2Code
  /\ ProxyDetector.containsDelegateCall (Js.toHex Fixtures.push2Code) = true.
Proof.
  split.
  - cbn. intros [Hf|[Hf|[Hf|[Hf|[Hf|[]]]]]]; discriminate Hf.
  - vm_compute. reflexivity.
Qed.

(** On a current state manager [detectProxy] stops at its first statement:
    [getContractCode] throws, the catch logs the error, and the result is
    the negative report it started with. *)
Lemma detectProxy_current {S} `{EvmApi S} (evm : S) (address : Address)
      (provider : option Provider) :
  currentStateManager S ->
  ProxyDetector.detectProxy evm address provider = (ProxyDetector.notProxy, evm).
Proof.
  intros [Hcode _]. unfold ProxyDetector.detectProxy. rewrite Hcode. reflexivity.
Qed.

(** C9 fails on the code, on the side of the contracts that are custom
    proxies.  The forwarder [delegateCode] has 44 bytes, executes
    DELEGATECALL, is no EIP-1167 clone and has no standard slot set, and
    its code is in the EVM; [detectProxy] reports it as no proxy, because
    the legacy getter it calls first is not there to call. *)
Theorem custom_proxy_not_classified :
  In xf4 Fixtures.delegateCode
  /\ length Fixtures.delegateCode = 44%nat
  /\ ProxyDetector.checkMinimalProxy (Js.toHex Fixtures.delegateCode) = None
  /\ getCode Fixtures.delegateEvm Fixtures.addrA = Some Fixtures.delegateCode
  /\ ProxyDetector.detectProxy Fixtures.delegateEvm Fixtures.addrA
       (Some Fixtures.plainProvider)
     = (ProxyDetector.notProxy, Fixtures.delegateEvm).
Proof.
  split.
  { unfold Fixtures.delegateCode. rewrite !in_app_iff. right. right.
    right. left. reflexivity. }
  split; [reflexivity|].
  split; [vm_compute; reflexivity|].
  split; [vm_compute; reflexivity|].
  vm_compute. reflexivity.
Qed.

Lemma walk_length {S} `{EvmApi S} (provider : option Provider) (n : nat) :
  forall (evm : S) (cur : Address) (chain : list string),
    (length (ProxyDetector.walk n evm provider cur chain) <= length chain + n)%nat
    /\ exists rest, ProxyDetector.walk n evm provider cur chain = (chain ++ rest)%list.
Proof.
  induction n as [|n IH]; intros evm cur chain; cbn [ProxyDetector.walk].
  - split; [lia|]. exists []. symmetry. apply app_nil_r.
  - destruct (ProxyDetector.detectProxy evm cur provider) as [info evm1].
    destruct (ProxyDetector.nextImplementation info) as [impl|].
    + destruct (ProxyDetector.loadImplementation evm1 provider impl) as [[a evm2]|].
      * destruct (IH evm2 a (chain ++ [impl])%list) as [Hlen [rest Hrest]].
        split.
        -- rewrite length_app in Hlen. cbn in Hlen. lia.
        -- exists (impl :: rest). rewrite Hrest, <- app_assoc. reflexivity.
      * split.
        -- rewrite length_app. cbn. lia.
        -- exists [impl]. reflexivity.
    + split; [lia|]. exists []. symmetry. apply app_nil_r.
Qed.

(** For every EVM the walk is a total function: it stops after at most
    [maxDepth] hops whatever the contracts point to, and the chain it
    returns starts with the starting address and holds at most
    [maxDepth + 1] addresses. *)
Lemma resolution_chain_bounded {S} `{EvmApi S} (evm : S) (address : Address)
      (provider : option Provider) (maxDepth : nat) :
  let r := ProxyDetector.resolveImplementationChain evm address provider maxDepth in
  (length (ProxyDetector.chain r) <= maxDepth + 1)%nat
  /\ head (ProxyDetector.chain r) = Some (Addr.toString address).
Proof.
  cbn. destruct (walk_length provider maxDepth evm address [Addr.toString address])
    as [Hlen [rest Hrest]].
  split.
  - cbn in Hlen. lia.
  - rewrite Hrest. reflexivity.
Qed.

Lemma walk_current {S} `{EvmApi S} (provider : option Provider) (n : nat)
      (evm : S) (cur : Address) (chain : list string) :
  currentStateManager S -> ProxyDetector.walk n evm provider cur chain = chain.
Proof.
  intros Hcur. destruct n as [|n]; [reflexivity|].
  cbn [ProxyDetector.walk]. rewrite (detectProxy_current evm cur provider Hcur).
  reflexivity.
Qed.

(** On a legacy state manager a hop can be recorded, but loading the
    implementation throws at [putCode]: the walk ends after one hop. *)
Lemma walk_legacy {S} `{EvmApi S} (provider : option Provider) (n : nat)
      (evm : S) (cur : Address) (chain : list string) :
  legacyStateManager S ->
  (length (ProxyDetector.walk n evm provider cur chain) <= length chain + 1)%nat.
Proof.
  intros [_ Hput]. destruct n as [|n]; [cbn; lia|].
  cbn [ProxyDetector.walk].
  destruct (ProxyDetector.detectProxy evm cur provider) as [info evm1].
  destruct (ProxyDetector.nextImplementation info) as [impl|]; [|lia].
  assert (Hload : ProxyDetector.loadImplementation evm1 provider impl = None).
  { unfold ProxyDetector.loadImplementation.
    destruct provider as [p|]; [|reflexivity].
    destruct (p_getCode p impl) as [[|b code]|]; try reflexivity.
    destruct (Addr.fromString impl) as [a|]; [|reflexivity].
    destruct (putAccount evm1 a newAccount) as [evm2|]; [|reflexivity].
    rewrite Hput. reflexivity. }
  rewrite Hload, length_app. cbn. lia.
Qed.



(** ** Time-travel simulation *)

Lemma step_eq engine txParams r offset :
  TimeTravelAnalyzer.step engine txParams r offset =
  let added :=
    futureOf engine txParams
      (TimeTravelAnalyzer.cur_status (TimeTravelAnalyzer.currentBlockResult r)) offset in
  {| TimeTravelAnalyzer.isTimeSensitive :=
       TimeTravelAnalyzer.isTimeSensitive r
       || existsb TimeTravelAnalyzer.divergesFromCurrent added;
     TimeTravelAnalyzer.currentBlockResult := TimeTravelAnalyzer.currentBlockResult r;
     TimeTravelAnalyzer.futureResults :=
       (TimeTravelAnalyzer.futureResults r ++ added)%list;
     TimeTravelAnalyzer.summary := TimeTravelAnalyzer.summary r;
     TimeTravelAnalyzer.riskFlags := TimeTravelAnalyzer.riskFlags r |}.
Proof.
  destruct offset as [seconds description].
  unfold TimeTravelAnalyzer.step, futureOf. cbn [fst snd].
  destruct (seconds =? 0).
  { destruct r. cbn. rewrite orb_false_r, app_nil_r. reflexivity. }
  destruct (runAt engine txParams seconds) as [out|].
  - cbn. destruct (negb _); cbn.
    + rewrite orb_true_r. reflexivity.
    + rewrite orb_false_r. reflexivity.
  - destruct r. cbn. rewrite orb_false_r, app_nil_r. reflexivity.
Qed.

Lemma fold_step engine txParams offsets :
  forall r,
    fold_left (TimeTravelAnalyzer.step engine txParams) offsets r =
    let added :=
      concat (map (futureOf engine txParams
                     (TimeTravelAnalyzer.cur_status (TimeTravelAnalyzer.currentBlockResult r)))
                  offsets) in
    {| TimeTravelAnalyzer.isTimeSensitive :=
         TimeTravelAnalyzer.isTimeSensitive r
         || existsb TimeTravelAnalyzer.divergesFromCurrent added;
       TimeTravelAnalyzer.currentBlockResult := TimeTravelAnalyzer.currentBlockResult r;
       TimeTravelAnalyzer.futureResults :=
         (TimeTravelAnalyzer.futureResults r ++ added)%list;
       TimeTravelAnalyzer.summary := TimeTravelAnalyzer.summary r;
       TimeTravelAnalyzer.riskFlags := TimeTravelAnalyzer.riskFlags r |}.
Proof.
  induction offsets as [|offset rest IH]; intros r.
  - destruct r. cbn. rewrite orb_false_r, app_nil_r. reflexivity.
  - cbn [fold_left]. rewrite IH, step_eq.
    cbn [TimeTravelAnalyzer.isTimeSensitive TimeTravelAnalyzer.currentBlockResult
         TimeTravelAnalyzer.futureResults TimeTravelAnalyzer.summary
         TimeTravelAnalyzer.riskFlags map concat].
    rewrite existsb_app, orb_assoc, app_assoc. reflexivity.
Qed.

(** C3, as the code has it.  The result is time-sensitive exactly when the
    baseline run was made and some other offset of the canonical list,
    later or earlier than now, was run and ended with a status different
    from the baseline status. *)
Theorem time_sensitive_iff_any_divergence (engine : SimulationEngine) (txParams : TxParams) :
  TimeTravelAnalyzer.isTimeSensitive
    (TimeTravelAnalyzer.runTimeTravelSimulation engine txParams) = true
  <->
  exists cur seconds description out,
    runAt engine txParams 0 = Some cur
    /\ In (seconds, description) TimeTravelAnalyzer.timeOffsets
    /\ seconds <> 0
    /\ runAt engine txParams seconds = Some out
    /\ status out <> status cur.
Proof.
  unfold TimeTravelAnalyzer.runTimeTravelSimulation.
  destruct (runAt engine txParams 0) as [cur|] eqn:Hcur.
  - rewrite fold_step.
    cbn [TimeTravelAnalyzer.analyzeTimeTravelResults TimeTravelAnalyzer.isTimeSensitive
         TimeTravelAnalyzer.currentBlockResult TimeTravelAnalyzer.cur_status orb].
    unfold TimeTravelAnalyzer.analyzeTimeTravelResults.
    cbn [TimeTravelAnalyzer.isTimeSensitive TimeTravelAnalyzer.currentBlockResult
         TimeTravelAnalyzer.cur_status orb].
    rewrite existsb_exists. split.
    + intros [f [Hin Hdiv]].
      apply in_concat in Hin as [fs [Hfs Hin]].
      apply in_map_iff in Hfs as [[seconds description] [<- Hoff]].
      unfold futureOf in Hin. cbn [fst snd] in Hin.
      destruct (Z.eqb_spec seconds 0) as [|Hnz]; [destruct Hin|].
      destruct (runAt engine txParams seconds) as [out|] eqn:Hrun; [|destruct Hin].
      destruct Hin as [<-|[]]. cbn in Hdiv.
      exists cur, seconds, description, out. repeat split; auto.
      apply negb_true_iff in Hdiv. apply String.eqb_neq. exact Hdiv.
    + intros (cur' & seconds & description & out & Hc & Hoff & Hnz & Hrun & Hne).
      injection Hc as <-.
      exists {| TimeTravelAnalyzer.offsetDescription := description;
                TimeTravelAnalyzer.offsetSeconds := seconds;
                TimeTravelAnalyzer.outcome := out;
                TimeTravelAnalyzer.divergesFromCurrent :=
                  negb (String.eqb (status out) (status cur)) |}.
      split.
      * apply in_concat. eexists. split.
        -- apply in_map. exact Hoff.
        -- unfold futureOf. cbn [fst snd].
           destruct (Z.eqb_spec seconds 0) as [|_]; [contradiction|].
           rewrite Hrun. left. reflexivity.
      * cbn. apply negb_true_iff, String.eqb_neq. exact Hne.
  - cbn. split; [discriminate|].
    intros (cur' & _ & _ & _ & Hc & _). discriminate.
Qed.

(** C3 as stated fails: a divergence at the past offset alone makes the
    result time-sensitive.  When the call reverts now and at every later
    offset but succeeded a day ago, the result is time-sensitive although no
    offset after now diverges. *)
Lemma past_divergence_counterexample :
  TimeTravelAnalyzer.isTimeSensitive
    (TimeTravelAnalyzer.runTimeTravelSimulation Fixtures.closedEngine Fixtures.tx) = true
  /\ ~ (exists f,
          In f (TimeTravelAnalyzer.futureResults
                  (TimeTravelAnalyzer.runTimeTravelSimulation Fixtures.closedEngine Fixtures.tx))
          /\ 0 < TimeTravelAnalyzer.offsetSeconds f
          /\ TimeTravelAnalyzer.divergesFromCurrent f = true).
Proof.
  split; [vm_compute; reflexivity|].
  intros [f [Hin [Hpos Hdiv]]].
  vm_compute in Hin.
  repeat (destruct Hin as [<-|Hin]; [cbn in Hpos, Hdiv; try discriminate; try lia|]).
  exact Hin.
Qed.

(** ** Counterfactual simulation *)

Lemma isType_eq a b : CounterfactualAnalyzer.isType a b = true <-> a = b.
Proof. destruct a, b; cbn; split; congruence. Qed.

Lemma ofType_In t a actors :
  In a (CounterfactualAnalyzer.ofType t actors)
  <-> In a actors /\ CounterfactualAnalyzer.actorType a = t.
Proof.
  unfold CounterfactualAnalyzer.ofType. rewrite filter_In, isType_eq. reflexivity.
Qed.

(** C5, as the code has it.  On such a matrix the result is a honeypot with
    owner privileges, carries the CRITICAL HONEYPOT flag and the privilege
    diff of severity Critical, and the rule sets the risk score to 100; the
    gas-anomaly rule that runs afterwards adds 15 when it fires, so the
    score of the result is 100 or 115. *)
Theorem honeypot_rule (actors : list CounterfactualAnalyzer.ActorSimulationResult) :
  ownerOnlyMatrix actors ->
  let r := CounterfactualAnalyzer.analyzeCounterfactualResults
             (CounterfactualAnalyzer.initialResult actors) in
  CounterfactualAnalyzer.isHoneypot r = true
  /\ CounterfactualAnalyzer.hasOwnerPrivileges r = true
  /\ In CounterfactualAnalyzer.HONEYPOT_FLAG (CounterfactualAnalyzer.riskFlags r)
  /\ In CounterfactualAnalyzer.honeypotDiff (CounterfactualAnalyzer.privilegeDiff r)
  /\ CounterfactualAnalyzer.diffSeverity CounterfactualAnalyzer.honeypotDiff
     = CounterfactualAnalyzer.Critical
  /\ CounterfactualAnalyzer.riskScore r = (if gasAnomalyIn actors then 115 else 100).
Proof.
  intros [Hrev [w [Hw [Hwt Hws]]]] r. subst r.
  unfold CounterfactualAnalyzer.analyzeCounterfactualResults, gasAnomalyIn.
  cbn [CounterfactualAnalyzer.initialResult CounterfactualAnalyzer.actorResults].
  set (users := CounterfactualAnalyzer.ofType CounterfactualAnalyzer.RandomUser actors).
  set (owners := CounterfactualAnalyzer.ofType CounterfactualAnalyzer.Owner actors).
  set (whites := CounterfactualAnalyzer.ofType CounterfactualAnalyzer.WhitelistedAddress actors).
  assert (Hall : forallb CounterfactualAnalyzer.reverted users = true).
  { apply forallb_forall. intros a Ha. apply ofType_In in Ha as [Ha Ht].
    unfold CounterfactualAnalyzer.reverted.
    rewrite (Hrev a Ha) by congruence. reflexivity. }
  assert (Hin : In w owners) by (apply ofType_In; auto).
  assert (Hown : existsb CounterfactualAnalyzer.succeeded owners = true).
  { apply existsb_exists. exists w. split; [exact Hin|].
    unfold CounterfactualAnalyzer.succeeded. rewrite Hws. reflexivity. }
  assert (Hfails : forallb CounterfactualAnalyzer.reverted owners = false).
  { apply not_true_is_false. intros Hf.
    rewrite forallb_forall in Hf.
    specialize (Hf w Hin). unfold CounterfactualAnalyzer.reverted in Hf.
    rewrite Hws in Hf. discriminate. }
  assert (Hwhite : existsb CounterfactualAnalyzer.succeeded whites = false).
  { apply not_true_is_false. intros He.
    apply existsb_exists in He as [a [Ha Hs]].
    apply ofType_In in Ha as [Ha Ht].
    unfold CounterfactualAnalyzer.succeeded in Hs.
    rewrite (Hrev a Ha) in Hs by congruence. discriminate. }
  rewrite Hall, Hown, Hfails.
  unfold CounterfactualAnalyzer.honeypotRule, CounterfactualAnalyzer.unusualRule,
    CounterfactualAnalyzer.whitelistRule.
  rewrite Hwhite, andb_false_r. cbn [andb].
  replace (if (0 <? length whites)%nat then _ else _)
    with (CounterfactualAnalyzer.pushDiff CounterfactualAnalyzer.honeypotDiff
            (CounterfactualAnalyzer.pushFlag CounterfactualAnalyzer.HONEYPOT_FLAG
               (CounterfactualAnalyzer.setScore 100
                  (CounterfactualAnalyzer.markHoneypot
                     (CounterfactualAnalyzer.initialResult actors)))))
    by (destruct (0 <? length whites)%nat; reflexivity).
  unfold CounterfactualAnalyzer.gasRule.
  destruct users as [|u us], owners as [|o os];
    try (cbn; repeat split; auto; fail).
  destruct (CounterfactualAnalyzer.gasAnomaly _ _); cbn; repeat split; auto.
Qed.

Lemma honeypot_rule_witness :
  CounterfactualAnalyzer.isHoneypot
    (CounterfactualAnalyzer.analyzeCounterfactualResults
       (CounterfactualAnalyzer.initialResult
          [Fixtures.user (Fixtures.rev 29000); Fixtures.owner (Fixtures.ok 30000)])) = true.
Proof.
  refine (proj1 (honeypot_rule
            [Fixtures.user (Fixtures.rev 29000); Fixtures.owner (Fixtures.ok 30000)] _)).
  split.
  - intros a [<-|[<-|[]]] Ht; [reflexivity|]. exfalso. apply Ht. reflexivity.
  - exists (Fixtures.owner (Fixtures.ok 30000)). split; [right; left; reflexivity|].
    split; reflexivity.
Defined.

(** C5 as stated fails on the score of the result: a user that reverts
    after 2000 gas and an owner that succeeds with 30000 gas form such a
    matrix, and the result has risk score 115. *)
Lemma honeypot_score_counterexample :
  ownerOnlyMatrix [Fixtures.user (Fixtures.rev 2000); Fixtures.owner (Fixtures.ok 30000)]
  /\ CounterfactualAnalyzer.riskScore
       (CounterfactualAnalyzer.analyzeCounterfactualResults
          (CounterfactualAnalyzer.initialResult
             [Fixtures.user (Fixtures.rev 2000); Fixtures.owner (Fixtures.ok 30000)])) = 115.
Proof.
  split; [|vm_compute; reflexivity].
  split.
  - intros a [<-|[<-|[]]] Ht; [reflexivity|]. exfalso. apply Ht. reflexivity.
  - exists (Fixtures.owner (Fixtures.ok 30000)). split; [right; left; reflexivity|].
    split; reflexivity.
Qed.

(** ** Capability hash *)

Lemma sortFlags_sorted flags : Sorted String.le (ScanHistory.sortFlags flags).
Proof. unfold ScanHistory.sortFlags. apply (Sorted_merge_sort String.le). Qed.

Lemma sortFlags_perm flags : ScanHistory.sortFlags flags ≡ₚ flags.
Proof. unfold ScanHistory.sortFlags. apply merge_sort_Permutation. Qed.

(** A list has one sorted arrangement only, whatever algorithm finds it. *)
Lemma sortFlags_unique flags sorted :
  Sorted String.le sorted -> sorted ≡ₚ flags -> ScanHistory.sortFlags flags = sorted.
Proof.
  intros Hs Hp. apply (Sorted_unique String.le).
  - apply sortFlags_sorted.
  - exact Hs.
  - rewrite sortFlags_perm. symmetry. exact Hp.
Qed.

Lemma compress_length h block :
  length h = 8%nat -> length (Sha256.compress h block) = 8%nat.
Proof.
  intros Hh. unfold Sha256.compress.
  rewrite length_map, length_combine, Hh. reflexivity.
Qed.

Lemma digest_length msg : length (Sha256.digest msg) = 8%nat.
Proof.
  unfold Sha256.digest.
  generalize (Sha256.blocks (length (Sha256.words_of_bytes (Sha256.pad msg)))
                (Sha256.words_of_bytes (Sha256.pad msg))).
  assert (H0 : length Sha256.H0 = 8%nat) by reflexivity.
  revert H0. generalize Sha256.H0.
  intros h Hh bs. revert h Hh.
  induction bs as [|b bs IH]; intros h Hh; cbn [fold_left]; [exact Hh|].
  apply IH, compress_length, Hh.
Qed.

Lemma hex_of_nibbles_length n x acc :
  String.length (Sha256.hex_of_nibbles n x acc) = (n + String.length acc)%nat.
Proof.
  revert x acc. induction n as [|n IH]; intros x acc; cbn [Sha256.hex_of_nibbles]; [reflexivity|].
  rewrite IH. cbn. lia.
Qed.

Lemma string_app_length (a b : string) :
  String.length (a ++ b) = (String.length a + String.length b)%nat.
Proof.
  induction a as [|c a IH]; [reflexivity|].
  change (Datatypes.S (String.length (a ++ b))
          = Datatypes.S (String.length a + String.length b)).
  rewrite IH. reflexivity.
Qed.

Lemma hexdigest_length s : String.length (Sha256.hexdigest s) = 64%nat.
Proof.
  unfold Sha256.hexdigest.
  assert (Hgen : forall ws,
             String.length (fold_right (fun w acc => Sha256.hex_of_word w ++ acc) "" ws)
             = (8 * length ws)%nat).
  { induction ws as [|w ws IH]; [reflexivity|].
    cbn [fold_right]. rewrite string_app_length, IH.
    unfold Sha256.hex_of_word. rewrite hex_of_nibbles_length. cbn [length String.length]. lia. }
  rewrite Hgen, digest_length. reflexivity.
Qed.

Lemma substring_length n s :
  (n <= String.length s)%nat -> String.length (String.substring 0 n s) = n.
Proof.
  revert s. induction n as [|n IH]; intros s Hn.
  - destruct s; reflexivity.
  - destruct s as [|c s]; cbn in Hn; [lia|].
    cbn. rewrite IH by lia. reflexivity.
Qed.

(** C6, as the code has it.  The capability hash of a flag list is the
    first 16 hex characters of the SHA-256 digest of its sorted,
    pipe-joined arrangement; it is the same for every permutation of the
    list, and two lists with different hashes are not permutations of one
    another. *)
Theorem capability_hash_stable (l1 l2 : list string) :
  (forall sorted,
      Sorted String.le sorted -> sorted ≡ₚ l1 ->
      ScanHistory.generateCapabilityHash l1
      = String.substring 0 16 (Sha256.hexdigest (Js.join "|" sorted)))
  /\ String.length (ScanHistory.generateCapabilityHash l1) = 16%nat
  /\ (l1 ≡ₚ l2 ->
      ScanHistory.generateCapabilityHash l1 = ScanHistory.generateCapabilityHash l2)
  /\ (ScanHistory.generateCapabilityHash l1 <> ScanHistory.generateCapabilityHash l2 ->
      ~ l1 ≡ₚ l2).
Proof.
  assert (Hperm : forall a b, a ≡ₚ b ->
            ScanHistory.generateCapabilityHash a = ScanHistory.generateCapabilityHash b).
  { intros a b Hp. unfold ScanHistory.generateCapabilityHash.
    rewrite (sortFlags_unique a (ScanHistory.sortFlags b)); [reflexivity| |].
    - apply sortFlags_sorted.
    - rewrite sortFlags_perm. symmetry. exact Hp. }
  split; [|split; [|split]].
  - intros sorted Hs Hp. unfold ScanHistory.generateCapabilityHash.
    rewrite (sortFlags_unique l1 sorted Hs Hp). reflexivity.
  - unfold ScanHistory.generateCapabilityHash.
    apply substring_length. rewrite hexdigest_length. lia.
  - apply Hperm.
  - intros Hne Hp. apply Hne, Hperm, Hp.
Qed.

Lemma capability_hash_stable_witness :
  ScanHistory.generateCapabilityHash
    ["Simulation Reverted"; "Proxy Contract (Minimal)"; "Ownership Renounced (Safe)"]
  = ScanHistory.generateCapabilityHash
      ["Ownership Renounced (Safe)"; "Simulation Reverted"; "Proxy Contract (Minimal)"].
Proof.
  apply (capability_hash_stable
           ["Simulation Reverted"; "Proxy Contract (Minimal)"; "Ownership Renounced (Safe)"]
           ["Ownership Renounced (Safe)"; "Simulation Reverted"; "Proxy Contract (Minimal)"]).
  etransitivity; [apply perm_skip, perm_swap|apply perm_swap].
Defined.

(** C6 as stated fails in both directions of "different hashes iff
    different sets".  One flag that contains the separator hashes like the
    two flags it splits into, although the sets differ; and a repeated flag
    changes the hash, although the set is the same. *)
Lemma capability_hash_set_counterexample :
  ((list_to_set ["Proxy Contract (Minimal)|Simulation Reverted"] : gset string)
   <> list_to_set ["Simulation Reverted"; "Proxy Contract (Minimal)"]
   /\ ScanHistory.generateCapabilityHash ["Proxy Contract (Minimal)|Simulation Reverted"]
      = ScanHistory.generateCapabilityHash ["Simulation Reverted"; "Proxy Contract (Minimal)"])
  /\
  ((list_to_set ["Simulation Reverted"; "Simulation Reverted"] : gset string)
   = list_to_set ["Simulation Reverted"]
   /\ ScanHistory.generateCapabilityHash ["Simulation Reverted"; "Simulation Reverted"]
      <> ScanHistory.generateCapabilityHash ["Simulation Reverted"]).
Proof.
  split; split.
  - intros Heq.
    assert (Hin : "Simulation Reverted"
                  ∈ (list_to_set ["Simulation Reverted"; "Proxy Contract (Minimal)"] : gset string))
      by set_solver.
    rewrite <- Heq in Hin. apply elem_of_list_to_set in Hin.
    apply list_elem_of_singleton in Hin. discriminate Hin.
  - vm_compute. reflexivity.
  - set_solver.
  - vm_compute. discriminate.
Qed.

(** ** Feature vector *)

(** C4, as the code has it.  The bytecode_entropy field of every feature
    vector is the constant 0.5; it does not depend on the deployed code,
    which [buildFeatureVector] never receives. *)
Theorem bytecode_entropy_constant
        (simulationStatus : string)
        (advancedAnalysis : option AdvancedSimulator.AdvancedAnalysis)
        (securityReport : option SecurityAnalyzer.SecurityReport)
        (traceEvents : option (list string))
        (proxyInfo : option ProxyDetector.ProxyInfo) :
  MLService.bytecode_entropy
    (MLService.buildFeatureVector simulationStatus advancedAnalysis securityReport
       traceEvents proxyInfo) = (5 # 10)%Q
  /\ (MLService.bytecode_entropy
        (MLService.buildFeatureVector simulationStatus advancedAnalysis securityReport
           traceEvents proxyInfo) == 1 # 2)%Q.
Proof. split; reflexivity. Qed.

Lemma sum_zero {A} (f : A -> R) (l : list A) :
  (forall v, f v = 0%R) -> fold_right Rplus 0%R (map f l) = 0%R.
Proof.
  intros Hf. induction l as [|v l IH]; cbn; [reflexivity|].
  rewrite Hf, IH. apply Rplus_0_l.
Qed.

Lemma entropy_of_stop : EntropySpec.normalized_entropy [x00] = 0%R.
Proof.
  unfold EntropySpec.normalized_entropy, EntropySpec.shannon_entropy.
  rewrite sum_zero.
  - unfold Rdiv. apply Rmult_0_l.
  - intros v. unfold EntropySpec.occurrences. cbn [List.filter length].
    destruct (N.eqb (Byte.to_N x00) v); cbn [length]; unfold EntropySpec.term; cbn [Nat.eqb].
    + unfold EntropySpec.log2R. cbn [INR].
      replace (1 / 1)%R with 1%R by (unfold Rdiv; rewrite Rinv_1, Rmult_1_r; reflexivity).
      rewrite ln_1. unfold Rdiv. rewrite Rmult_0_l, Rmult_0_r. apply Ropp_0.
    + reflexivity.
Qed.

(** C4 as stated fails: for a contract whose deployed code is the single
    byte 00 the byte histogram has entropy 0, and the scan builds a feature
    vector whose bytecode_entropy is 0.5. *)
Lemma entropy_placeholder_counterexample :
  getCode Fixtures.ownedEvm Fixtures.addrA = Some [x00]
  /\ MLService.bytecode_entropy
       <$> EvmExecutor.featureVector
             (fst (EvmExecutor.simulateTransaction
                     (Fixtures.envOf Fixtures.ownedEvm (Some Fixtures.benignEngine)
                        (Some ScanHistory.emptyStore))
                     Fixtures.tx (Some Fixtures.addrA) (Some 1)))
     = Some (5 # 10)%Q
  /\ Q2R (5 # 10) <> EntropySpec.normalized_entropy [x00].
Proof.
  split; [reflexivity|]. split; [vm_compute; reflexivity|].
  rewrite entropy_of_stop. unfold Q2R. cbn. lra.
Qed.

(** * Further properties of the code *)

(** ** Hex text and addresses *)

Lemma append_cons (c : ascii) (a b : string) :
  (String c a ++ b)%string = String c (a ++ b)%string.
Proof. reflexivity. Qed.

Lemma append_nil (b : string) : ("" ++ b)%string = b.
Proof. reflexivity. Qed.

Lemma string_app_assoc (a b c : string) : ((a ++ b) ++ c)%string = (a ++ (b ++ c))%string.
Proof.
  induction a as [|x a IH]; [reflexivity|].
  rewrite !append_cons, IH. reflexivity.
Qed.

Lemma toHex_app (a b : list byte) : Js.toHex (a ++ b) = (Js.toHex a ++ Js.toHex b)%string.
Proof.
  induction a as [|x a IH]; [reflexivity|].
  cbn [app Js.toHex]. rewrite IH. symmetry. apply string_app_assoc.
Qed.

Lemma toHex_length (a : list byte) : String.length (Js.toHex a) = (2 * length a)%nat.
Proof.
  induction a as [|x a IH]; [reflexivity|].
  cbn [Js.toHex]. rewrite string_app_length, IH. cbn [length Js.hex_of_byte String.length]. lia.
Qed.

Lemma fromHex_byte (b : byte) (s : string) :
  Js.fromHex (Js.hex_of_byte b ++ s)
  = match Js.fromHex s with Some bs => Some (b :: bs) | None => None end.
Proof. destruct b; reflexivity. Qed.

Lemma fromHex_toHex (bs : list byte) : Js.fromHex (Js.toHex bs) = Some bs.
Proof.
  induction bs as [|b bs IH]; [reflexivity|].
  cbn [Js.toHex]. rewrite fromHex_byte, IH. reflexivity.
Qed.

Lemma prefix_app (a b : string) : String.prefix a (a ++ b) = true.
Proof.
  induction a as [|c a IH].
  - rewrite append_nil. destruct b; reflexivity.
  - rewrite append_cons. cbn [String.prefix].
    destruct (ascii_dec c c); [exact IH|contradiction].
Qed.

Lemma substring_all (a : string) : String.substring 0 (String.length a) a = a.
Proof. induction a as [|c a IH]; cbn; [reflexivity|]. rewrite IH. reflexivity. Qed.

Lemma substring_prefix (a s : string) :
  String.substring 0 (String.length a) (a ++ s) = a.
Proof.
  induction a as [|c a IH].
  - rewrite append_nil. destruct s; reflexivity.
  - rewrite append_cons. cbn [String.length String.substring]. rewrite IH. reflexivity.
Qed.

Lemma substring_skip (a s : string) (n m : nat) :
  String.substring (String.length a + n) m (a ++ s) = String.substring n m s.
Proof.
  induction a as [|c a IH]; [reflexivity|].
  rewrite append_cons. cbn [String.length Nat.add String.substring]. exact IH.
Qed.

Lemma endsWith_app (a b : string) : Js.endsWith (a ++ b) b = true.
Proof.
  unfold Js.endsWith. rewrite string_app_length.
  replace (String.length a + String.length b - String.length b)%nat
    with (String.length a + 0)%nat by lia.
  rewrite substring_skip, substring_all, String.eqb_refl.
  rewrite andb_true_r. apply Nat.leb_le. lia.
Qed.

Lemma addr_roundtrip (a : Address) :
  length a = 20%nat -> Addr.fromString (Addr.toString a) = Some a.
Proof.
  intros Hlen. unfold Addr.fromString, Addr.toString, Js.bytesToHex, Js.startsWith.
  rewrite prefix_app.
  change (String.length ("0x" ++ Js.toHex a) - 2)%nat
    with (Datatypes.S (Datatypes.S (String.length (Js.toHex a))) - 2)%nat.
  replace (Datatypes.S (Datatypes.S (String.length (Js.toHex a))) - 2)%nat
    with (String.length (Js.toHex a)) by lia.
  change (String.substring 2 (String.length (Js.toHex a)) ("0x" ++ Js.toHex a))
    with (String.substring 0 (String.length (Js.toHex a)) (Js.toHex a)).
  rewrite substring_all, fromHex_toHex, Hlen. reflexivity.
Qed.

Lemma all_zero_repeat n : Js.all_zero (repeat x00 n) = true.
Proof. induction n as [|n IH]; [reflexivity|]. cbn. exact IH. Qed.

Lemma last_n_length {A} (k : nat) (xs : list A) :
  (k <= length xs)%nat -> length (Js.last_n k xs) = k.
Proof. intros Hk. unfold Js.last_n. rewrite length_skipn. lia. Qed.

(** X1. What [extractAddress] returns is the text of the last twenty
    bytes of the value: it is 42 characters long, it parses back to those
    bytes, and it is never the zero address; nothing is returned for a
    value shorter than twenty bytes or ending in twenty zero bytes. *)
Theorem extractAddress_sound (value : list byte) :
  match ProxyDetector.extractAddress value with
  | Some s =>
      (20 <= length value)%nat
      /\ s = Addr.toString (Js.last_n 20 value)
      /\ String.length s = 42%nat
      /\ Addr.fromString s = Some (Js.last_n 20 value)
      /\ s <> Addr.ZERO
  | None => (length value < 20)%nat \/ Js.all_zero (Js.last_n 20 value) = true
  end.
Proof.
  unfold ProxyDetector.extractAddress.
  destruct (Nat.ltb_spec (length value) 20) as [Hshort|Hlong]; [left; exact Hshort|].
  destruct (Js.all_zero (Js.last_n 20 value)) eqn:Hz; [right; reflexivity|].
  assert (Hlen : length (Js.last_n 20 value) = 20%nat) by (apply last_n_length; exact Hlong).
  split; [exact Hlong|]. split; [reflexivity|]. split.
  - unfold Js.bytesToHex.
    change (String.length ("0x" ++ Js.toHex (Js.last_n 20 value)))
      with (Datatypes.S (Datatypes.S (String.length (Js.toHex (Js.last_n 20 value))))).
    rewrite toHex_length, Hlen. reflexivity.
  - split; [apply addr_roundtrip; exact Hlen|].
    intros Heq.
    assert (Hparse : Addr.fromString (Js.bytesToHex (Js.last_n 20 value))
                     = Some (Js.last_n 20 value)) by (apply addr_roundtrip; exact Hlen).
    rewrite Heq in Hparse.
    change (Addr.fromString Addr.ZERO) with (Some (repeat x00 20)) in Hparse.
    injection Hparse as Hparse.
    assert (Hz' : Js.all_zero (Js.last_n 20 value) = true)
      by (rewrite <- Hparse; reflexivity).
    congruence.
Qed.

Lemma isSet_extract (value : list byte) :
  ProxyDetector.isSet (ProxyDetector.extractAddress value) = true ->
  exists s, ProxyDetector.extractAddress value = Some s
            /\ s <> Addr.ZERO
            /\ Addr.fromString s = Some (Js.last_n 20 value).
Proof.
  intros Hset. pose proof (extractAddress_sound value) as Hs.
  destruct (ProxyDetector.extractAddress value) as [s|]; [|discriminate].
  exists s. tauto.
Qed.

(** X2. The helper that recognises EIP-1167 clones reads the
    implementation back: for every twenty-byte address, the hex text of
    the code made of the fixed prefix, the address and the fixed suffix is
    accepted by [checkMinimalProxy] with the text of that address, and
    that text parses back to the address. *)
Theorem minimal_proxy_roundtrip (impl : Address) :
  length impl = 20%nat ->
  ProxyDetector.checkMinimalProxy (Js.toHex (cloneCode impl)) = Some (Addr.toString impl)
  /\ Addr.fromString (Addr.toString impl) = Some impl.
Proof.
  intros Hlen. split; [|apply addr_roundtrip; exact Hlen].
  unfold ProxyDetector.checkMinimalProxy, cloneCode.
  rewrite !toHex_app.
  change (Js.toHex minimalPrefixBytes) with ProxyDetector.MINIMAL_PROXY_PREFIX.
  change (Js.toHex minimalSuffixBytes) with ProxyDetector.MINIMAL_PROXY_SUFFIX.
  unfold Js.startsWith. rewrite prefix_app.
  rewrite <- string_app_assoc, endsWith_app, string_app_assoc. cbn [andb].
  unfold Js.slice.
  replace (String.length ProxyDetector.MINIMAL_PROXY_PREFIX + 40
           - String.length ProxyDetector.MINIMAL_PROXY_PREFIX)%nat
    with (String.length (Js.toHex impl)) by (rewrite toHex_length, Hlen; reflexivity).
  replace (String.length ProxyDetector.MINIMAL_PROXY_PREFIX)
    with (String.length ProxyDetector.MINIMAL_PROXY_PREFIX + 0)%nat at 1 by lia.
  rewrite substring_skip, substring_prefix. reflexivity.
Qed.

Lemma minimal_proxy_roundtrip_witness :
  ProxyDetector.checkMinimalProxy (Js.toHex (cloneCode Fixtures.addrB))
  = Some (Addr.toString Fixtures.addrB).
Proof.
  refine (proj1 (minimal_proxy_roundtrip Fixtures.addrB _)). reflexivity.
Defined.

Lemma wellFormed_notProxy : wellFormedInfo ProxyDetector.notProxy.
Proof.
  repeat split; cbn; try discriminate.
  intros [Hb|Ha]; contradiction.
Qed.

Lemma wellFormed_slot (t : ProxyDetector.ProxyType) (value : list byte)
      (beacon admin : option string) :
  t <> ProxyDetector.Minimal ->
  (beacon <> None \/ admin <> None -> t = ProxyDetector.EIP1967) ->
  ProxyDetector.isSet (ProxyDetector.extractAddress value) = true ->
  wellFormedInfo
    {| ProxyDetector.isProxy := true;
       ProxyDetector.proxyType := Some t;
       ProxyDetector.implementationAddress := ProxyDetector.extractAddress value;
       ProxyDetector.beaconAddress := beacon;
       ProxyDetector.adminAddress := admin |}.
Proof.
  intros Ht Hba Hset. destruct (isSet_extract value Hset) as [s [Hs [Hnz Hparse]]].
  repeat split; cbn.
  - discriminate.
  - intros _. exists t. reflexivity.
  - intros t' _ _. exists s, (Js.last_n 20 value). auto.
  - intros Hor. f_equal. apply Hba. exact Hor.
Qed.

Lemma wellFormed_1967 {S} `{EvmApi S} (evm : S) address provider :
  wellFormedInfo (ProxyDetector.checkEIP1967Slots evm address provider).
Proof.
  unfold ProxyDetector.checkEIP1967Slots.
  destruct (ProxyDetector.readSlot _ _ _ _) as [v|]; [|apply wellFormed_notProxy].
  destruct (ProxyDetector.isSet _) eqn:Hset; [|apply wellFormed_notProxy].
  apply wellFormed_slot; [discriminate|reflexivity|exact Hset].
Qed.

Lemma wellFormed_1822 {S} `{EvmApi S} (evm : S) address provider :
  wellFormedInfo (ProxyDetector.checkEIP1822 evm address provider).
Proof.
  unfold ProxyDetector.checkEIP1822.
  destruct (ProxyDetector.readSlot _ _ _ _) as [v|]; [|apply wellFormed_notProxy].
  destruct (ProxyDetector.isSet _) eqn:Hset; [|apply wellFormed_notProxy].
  apply wellFormed_slot; [discriminate| |exact Hset].
  intros [Hb|Ha]; contradiction.
Qed.

Lemma wellFormed_897 {S} `{EvmApi S} (evm : S) address :
  wellFormedInfo (fst (ProxyDetector.checkEIP897 evm address)).
Proof.
  unfold ProxyDetector.checkEIP897.
  destruct (runCall evm _) as [[res|] evm']; [|apply wellFormed_notProxy].
  destruct (exceptionError res); [apply wellFormed_notProxy|].
  destruct (length (returnValue res) =? 32)%nat; [|apply wellFormed_notProxy].
  destruct (ProxyDetector.isSet _) eqn:Hset; [|apply wellFormed_notProxy].
  apply wellFormed_slot; [discriminate| |exact Hset].
  intros [Hb|Ha]; contradiction.
Qed.

(** X3. Every report of [detectProxy], for every EVM state and provider,
    has the shape [wellFormedInfo]: a negative report carries no type and
    no address; a positive one names its type; EIP-1967, EIP-1822 and
    EIP-897 reports carry an implementation address that parses and is not
    the zero address; beacon and admin appear only with EIP-1967. *)
Theorem detectProxy_wellformed {S} `{EvmApi S} (evm : S) (address : Address)
        (provider : option Provider) :
  wellFormedInfo (fst (ProxyDetector.detectProxy evm address provider)).
Proof.
  unfold ProxyDetector.detectProxy.
  destruct (getContractCode evm address) as [code|]; [|apply wellFormed_notProxy].
  destruct (ProxyDetector.checkMinimalProxy _) as [impl|].
  { repeat split; cbn; try discriminate.
    - intros _. eexists. reflexivity.
    - intros t Ht Hne. congruence.
    - intros [Hb|Ha]; contradiction. }
  destruct (ProxyDetector.isProxy (ProxyDetector.checkEIP1967Slots _ _ _)) eqn:H1;
    [apply wellFormed_1967|].
  destruct (ProxyDetector.isProxy (ProxyDetector.checkEIP1822 _ _ _)) eqn:H2;
    [apply wellFormed_1822|].
  pose proof (wellFormed_897 evm address) as H897.
  destruct (ProxyDetector.checkEIP897 evm address) as [info evm'].
  cbn [fst] in H897.
  destruct (ProxyDetector.isProxy info) eqn:H3; [exact H897|].
  destruct (_ && _); [|apply wellFormed_notProxy].
  repeat split; cbn; try discriminate.
  - intros _. eexists. reflexivity.
  - intros t Ht Hne. congruence.
  - intros [Hb|Ha]; contradiction.
Qed.

Lemma walk_no_provider {S} `{EvmApi S} (n : nat) (evm : S) (cur : Address)
      (chain : list string) :
  (length (ProxyDetector.walk n evm None cur chain) <= length chain + 1)%nat.
Proof.
  destruct n as [|n]; cbn [ProxyDetector.walk]; [lia|].
  destruct (ProxyDetector.detectProxy evm cur None) as [info evm1].
  destruct (ProxyDetector.nextImplementation info); cbn; [|lia].
  rewrite length_app. cbn. lia.
Qed.

Lemma walk_not_proxy {S} `{EvmApi S} (n : nat) (evm : S) provider (cur : Address)
      (chain : list string) :
  ProxyDetector.isProxy (fst (ProxyDetector.detectProxy evm cur provider)) = false ->
  ProxyDetector.walk n evm provider cur chain = chain.
Proof.
  intros Hnp. destruct n as [|n]; cbn [ProxyDetector.walk]; [reflexivity|].
  destruct (ProxyDetector.detectProxy evm cur provider) as [info evm1].
  cbn [fst] in Hnp. unfold ProxyDetector.nextImplementation. rewrite Hnp. reflexivity.
Qed.

(** X4. The resolution result is consistent: there is a final
    implementation exactly when the chain has more than the starting
    address, and it is then the last entry of the chain.  Without a
    provider the chain has at most two entries, and a start that is not a
    proxy gives the chain of the start alone. *)
Theorem resolution_final {S} `{EvmApi S} (evm : S) (address : Address)
        (provider : option Provider) (maxDepth : nat) :
  let r := ProxyDetector.resolveImplementationChain evm address provider maxDepth in
  (ProxyDetector.finalImplementation r = None
   <-> ProxyDetector.chain r = [Addr.toString address])
  /\ (forall x, ProxyDetector.finalImplementation r = Some x ->
                last (ProxyDetector.chain r) = Some x
                /\ (2 <= length (ProxyDetector.chain r))%nat)
  /\ (provider = None -> (length (ProxyDetector.chain r) <= 2)%nat)
  /\ (ProxyDetector.isProxy (fst (ProxyDetector.detectProxy evm address provider)) = false ->
      ProxyDetector.chain r = [Addr.toString address]).
Proof.
  cbn zeta. unfold ProxyDetector.resolveImplementationChain.
  cbn [ProxyDetector.chain ProxyDetector.finalImplementation].
  destruct (walk_length provider maxDepth evm address [Addr.toString address])
    as [_ [rest Hrest]].
  split; [|split; [|split]].
  - rewrite Hrest. destruct rest as [|x rest]; cbn [app length Nat.ltb Nat.leb].
    + split; reflexivity.
    + split; [|discriminate].
      intros Hnone. exfalso.
      change (last (Addr.toString address :: x :: rest) = None) in Hnone.
      rewrite last_cons_cons in Hnone.
      destruct rest as [|y rest] using rev_ind; [discriminate|].
      rewrite app_comm_cons, last_snoc in Hnone. discriminate.
  - intros x. rewrite Hrest.
    destruct rest as [|y rest]; cbn [app length Nat.ltb Nat.leb]; [discriminate|].
    intros Hlast. split; [exact Hlast|lia].
  - intros ->. pose proof (walk_no_provider maxDepth evm address [Addr.toString address]) as Hl.
    cbn in Hl. exact Hl.
  - intros Hnp. apply walk_not_proxy. exact Hnp.
Qed.

Lemma resolution_final_witness :
  (length (ProxyDetector.chain
             (ProxyDetector.resolveImplementationChain Fixtures.cyclicEvm Fixtures.addrA None 5))
   <= 2)%nat.
Proof.
  refine (proj1 (proj2 (proj2 (resolution_final Fixtures.cyclicEvm Fixtures.addrA None 5))) _).
  reflexivity.
Defined.

(** ** Static bytecode analysis *)

Lemma toString_nonzero (a : Address) :
  length a = 20%nat -> Js.all_zero a = false -> Addr.toString a <> Addr.ZERO.
Proof.
  intros Hlen Hz Heq.
  pose proof (addr_roundtrip a Hlen) as Hparse. rewrite Heq in Hparse.
  change (Addr.fromString Addr.ZERO) with (Some (repeat x00 20)) in Hparse.
  injection Hparse as Hparse.
  assert (Hz' : Js.all_zero a = true) by (rewrite <- Hparse; reflexivity).
  congruence.
Qed.

Lemma interpretOwner_ok returnValue report :
  SecurityAnalyzer.ownershipStatus report = SecurityAnalyzer.Unknown ->
  SecurityAnalyzer.ownerAddress report = None ->
  ownershipOk (SecurityAnalyzer.interpretOwner returnValue report).
Proof.
  intros Hu Hn. unfold SecurityAnalyzer.interpretOwner.
  destruct (20 <=? length returnValue)%nat; [|unfold ownershipOk; rewrite Hu; exact Hn].
  set (ownerBytes := if (length returnValue =? 32)%nat then _ else _).
  unfold Addr.ofBytes.
  destruct (Nat.eqb_spec (length ownerBytes) 20) as [Hlen|_];
    [|unfold ownershipOk; rewrite Hu; exact Hn].
  destruct (Js.all_zero ownerBytes) eqn:Hz; unfold ownershipOk; cbn.
  - split; [exact Hn|]. apply in_or_app. right. left. reflexivity.
  - exists (Addr.toString ownerBytes). split; [reflexivity|]. split.
    + apply toString_nonzero; assumption.
    + split.
      * exists ownerBytes. apply addr_roundtrip. exact Hlen.
      * apply in_or_app. right. left. reflexivity.
Qed.

Lemma scanPattern_keeps codeHex report pattern :
  let r := SecurityAnalyzer.scanPattern codeHex report pattern in
  SecurityAnalyzer.ownershipStatus r = SecurityAnalyzer.ownershipStatus report
  /\ SecurityAnalyzer.ownerAddress r = SecurityAnalyzer.ownerAddress report
  /\ (forall f, In f (SecurityAnalyzer.flags report) -> In f (SecurityAnalyzer.flags r)).
Proof.
  cbn zeta. unfold SecurityAnalyzer.scanPattern.
  destruct (Js.includes _ _); cbn; repeat split; auto.
  intros f Hf. apply in_or_app. left. exact Hf.
Qed.

Lemma scanBytecode_ownership code report :
  ownershipOk report -> ownershipOk (SecurityAnalyzer.scanBytecode code report).
Proof.
  unfold SecurityAnalyzer.scanBytecode.
  generalize SecurityAnalyzer.suspiciousPatterns as ps.
  intros ps. revert report.
  induction ps as [|p ps IH]; intros report Hok; cbn [fold_left]; [exact Hok|].
  apply IH.
  destruct (scanPattern_keeps (Js.toLowerCase (Js.toHex code)) report p) as [Hs [Ha Hf]].
  unfold ownershipOk in *. rewrite Hs, Ha.
  destruct (SecurityAnalyzer.ownershipStatus report).
  - exact Hok.
  - destruct Hok as [H1 H2]. split; auto.
  - destruct Hok as [a [H1 [H2 [H3 H4]]]]. exists a. repeat split; auto.
Qed.

(** X5. Ownership in every report of [analyze] is consistent: Centralized
    comes with an owner address that parses, is not the zero address and is
    named in the flag "Contract has an Owner: ..."; Renounced comes with no
    owner address and with the flag "Ownership Renounced (Safe)"; Unknown
    comes with no owner address. *)
Theorem analyze_ownership {S} `{EvmApi S} (evm : S) (target : Address)
        (status : string) (provider : option Provider) :
  ownershipOk (fst (SecurityAnalyzer.analyze evm target status provider)).
Proof.
  unfold SecurityAnalyzer.analyze.
  set (r1 := SecurityAnalyzer.analyzeSimulation status SecurityAnalyzer.initialReport).
  assert (H1 : SecurityAnalyzer.ownershipStatus r1 = SecurityAnalyzer.Unknown
               /\ SecurityAnalyzer.ownerAddress r1 = None).
  { subst r1. unfold SecurityAnalyzer.analyzeSimulation.
    destruct (_ && _); split; reflexivity. }
  destruct H1 as [Hu Hn].
  destruct (SecurityAnalyzer.checkOwnership evm target provider r1) as [r2 evm'] eqn:Hown.
  assert (H2 : ownershipOk r2).
  { unfold SecurityAnalyzer.checkOwnership in Hown.
    destruct (runCall evm _) as [[res|] e] in Hown; injection Hown as <- _.
    - apply interpretOwner_ok; assumption.
    - unfold ownershipOk. rewrite Hu. exact Hn. }
  destruct (getCode evm' target) as [code|]; cbn [fst]; [|exact H2].
  apply scanBytecode_ownership. exact H2.
Qed.

Lemma scan_keeps_status codeHex (ps : list SecurityAnalyzer.Pattern) :
  forall r,
    SecurityAnalyzer.ownershipStatus (fold_left (SecurityAnalyzer.scanPattern codeHex) ps r)
    = SecurityAnalyzer.ownershipStatus r.
Proof.
  induction ps as [|p ps IH]; intros r; [reflexivity|].
  cbn [fold_left]. rewrite IH. apply (scanPattern_keeps codeHex r p).
Qed.

Lemma scan_fold codeHex (ps : list SecurityAnalyzer.Pattern) :
  forall report,
    let hits := List.filter (fun p => Js.includes codeHex (SecurityAnalyzer.selector p)) ps in
    let r := fold_left (SecurityAnalyzer.scanPattern codeHex) ps report in
    SecurityAnalyzer.riskScore r = SecurityAnalyzer.riskScore report + sumRisk hits
    /\ SecurityAnalyzer.flags r
       = (SecurityAnalyzer.flags report ++ map suspiciousFlag hits)%list
    /\ SecurityAnalyzer.isHoneypot r
       = SecurityAnalyzer.isHoneypot report || negb (forallb (fun _ => false) hits).
Proof.
  induction ps as [|p ps IH]; intros report; cbn zeta.
  - cbn. rewrite Z.add_0_r, app_nil_r, orb_false_r. auto.
  - cbn [fold_left List.filter].
    destruct (IH (SecurityAnalyzer.scanPattern codeHex report p)) as [Hs [Hf Hh]].
    rewrite Hs, Hf, Hh. unfold SecurityAnalyzer.scanPattern.
    destruct (Js.includes codeHex (SecurityAnalyzer.selector p)); cbn.
    + unfold sumRisk. cbn. rewrite <- app_assoc. cbn.
      rewrite orb_true_r. repeat split; try reflexivity. unfold sumRisk. lia.
    + repeat split; reflexivity.
Qed.

Lemma sumRisk_filter_le (f : SecurityAnalyzer.Pattern -> bool) ps :
  Forall (fun p => 0 <= SecurityAnalyzer.risk p) ps ->
  0 <= sumRisk (List.filter f ps) <= sumRisk ps.
Proof.
  induction 1 as [|p ps Hp _ IH]; cbn; [unfold sumRisk; cbn; lia|].
  unfold sumRisk in *. destruct (f p); cbn; lia.
Qed.

(** X6. The risk score of a report is the sum of its contributions: 20
    when the simulation status starts with "Reverted", 10 when the
    ownership is Centralized, and the weight of every catalogue selector
    that occurs in the hex text of the analyzed code.  The report is marked
    as a honeypot exactly when at least one selector occurs, each
    occurrence adds its "Suspicious Function" flag, and the score lies
    between 0 and 810. *)
Theorem analyze_score {S} `{EvmApi S} (evm : S) (target : Address)
        (status : string) (provider : option Provider) (code : list byte) :
  getCode (snd (SecurityAnalyzer.analyze evm target status provider)) target = Some code ->
  let r := fst (SecurityAnalyzer.analyze evm target status provider) in
  SecurityAnalyzer.riskScore r
  = (if Js.startsWith status "Reverted" then 20 else 0)
    + (match SecurityAnalyzer.ownershipStatus r with
       | SecurityAnalyzer.Centralized => 10
       | _ => 0
       end)
    + sumRisk (matching code)
  /\ (SecurityAnalyzer.isHoneypot r = true <-> matching code <> [])
  /\ (forall p, In p (matching code) -> In (suspiciousFlag p) (SecurityAnalyzer.flags r))
  /\ 0 <= SecurityAnalyzer.riskScore r <= 810.
Proof.
  unfold SecurityAnalyzer.analyze.
  set (r1 := SecurityAnalyzer.analyzeSimulation status SecurityAnalyzer.initialReport).
  assert (H1 : SecurityAnalyzer.riskScore r1 = (if Js.startsWith status "Reverted" then 20 else 0)
               /\ SecurityAnalyzer.isHoneypot r1 = false
               /\ SecurityAnalyzer.ownershipStatus r1 = SecurityAnalyzer.Unknown).
  { subst r1. unfold SecurityAnalyzer.analyzeSimulation.
    destruct (Js.startsWith status "Reverted") eqn:Hst.
    - assert (Ht : Js.truthy status = true).
      { destruct status; [discriminate Hst|reflexivity]. }
      rewrite Ht. cbn. auto.
    - rewrite andb_false_r. cbn. auto. }
  destruct H1 as [Hs1 [Hh1 Hu1]].
  destruct (SecurityAnalyzer.checkOwnership evm target provider r1) as [r2 evm'] eqn:Hown.
  assert (H2 : SecurityAnalyzer.riskScore r2
               = SecurityAnalyzer.riskScore r1
                 + (match SecurityAnalyzer.ownershipStatus r2 with
                    | SecurityAnalyzer.Centralized => 10
                    | _ => 0
                    end)
               /\ SecurityAnalyzer.isHoneypot r2 = false).
  { unfold SecurityAnalyzer.checkOwnership in Hown.
    destruct (runCall evm _) as [[res|] e] in Hown; injection Hown as <- _.
    - unfold SecurityAnalyzer.interpretOwner.
      destruct (20 <=? _)%nat; [|rewrite Hu1; split; [lia|exact Hh1]].
      destruct (Addr.ofBytes _); [|rewrite Hu1; split; [lia|exact Hh1]].
      destruct (Js.all_zero _); cbn; split; try lia; exact Hh1.
    - rewrite Hu1. split; [lia|exact Hh1]. }
  destruct H2 as [Hs2 Hh2].
  cbn [snd fst].
  destruct (getCode evm' target) as [c|] eqn:Hc; cbn [snd fst]; intros Hcode;
    rewrite Hc in Hcode; [|discriminate].
  injection Hcode as ->.
  unfold SecurityAnalyzer.scanBytecode.
  destruct (scan_fold (Js.toLowerCase (Js.toHex code)) SecurityAnalyzer.suspiciousPatterns r2)
    as [Hs [Hf Hh]].
  fold (matching code) in Hs, Hf, Hh.
  pose proof (scan_keeps_status (Js.toLowerCase (Js.toHex code))
                SecurityAnalyzer.suspiciousPatterns r2) as Hown3.
  rewrite Hown3, Hs, Hs2, Hs1, Hh, Hh2, Hf.
  assert (Hall : Forall (fun p => 0 <= SecurityAnalyzer.risk p) SecurityAnalyzer.suspiciousPatterns).
  { unfold SecurityAnalyzer.suspiciousPatterns. repeat constructor; cbn; lia. }
  pose proof (sumRisk_filter_le
                (fun p => Js.includes (Js.toLowerCase (Js.toHex code)) (SecurityAnalyzer.selector p))
                SecurityAnalyzer.suspiciousPatterns Hall) as Hsum.
  fold (matching code) in Hsum.
  change (sumRisk SecurityAnalyzer.suspiciousPatterns) with 780 in Hsum.
  split; [lia|]. split; [|split].
  - cbn [orb]. destruct (matching code) as [|p ps]; cbn; split; congruence.
  - intros p Hp. apply in_or_app. right. apply in_map. exact Hp.
  - destruct (Js.startsWith status "Reverted");
      destruct (SecurityAnalyzer.ownershipStatus r2); lia.
Qed.

Lemma analyze_score_witness :
  SecurityAnalyzer.riskScore
    (fst (SecurityAnalyzer.analyze Fixtures.drainEvm Fixtures.addrA "Success" None))
  = 0 + 0 + sumRisk (matching Fixtures.drainCode).
Proof.
  refine (proj1 (analyze_score Fixtures.drainEvm Fixtures.addrA "Success" None
                   Fixtures.drainCode _)).
  reflexivity.
Defined.

(** ** Scan history *)

Lemma lower_ascii_idem (c : ascii) : Js.lower_ascii (Js.lower_ascii c) = Js.lower_ascii c.
Proof.
  destruct c as [[] [] [] [] [] [] [] []]; reflexivity.
Qed.

Lemma toLowerCase_idem (s : string) : Js.toLowerCase (Js.toLowerCase s) = Js.toLowerCase s.
Proof.
  induction s as [|c s IH]; [reflexivity|].
  cbn [Js.toLowerCase]. rewrite lower_ascii_idem, IH. reflexivity.
Qed.

Lemma historyOf_storeScan db now a chain report proxy b :
  historyOf (snd (ScanHistory.storeScan db now a chain report proxy)) b
  = if decide (ScanHistory.historyKey a = ScanHistory.historyKey b)
    then take 100 (fst (ScanHistory.storeScan db now a chain report proxy) :: historyOf db a)
    else historyOf db b.
Proof.
  unfold historyOf, ScanHistory.storeScan, ScanHistory.lTrim, ScanHistory.lPush,
    ScanHistory.setEx.
  cbn [snd fst ScanHistory.history].
  destruct (decide (ScanHistory.historyKey a = ScanHistory.historyKey b)) as [Heq|Hne].
  - rewrite <- Heq, lookup_alter_eq, lookup_insert_eq. reflexivity.
  - rewrite lookup_alter_ne, lookup_insert_ne by exact Hne. reflexivity.
Qed.

Lemma historyKey_lower a b :
  Js.toLowerCase a = Js.toLowerCase b -> ScanHistory.historyKey a = ScanHistory.historyKey b.
Proof. intros Heq. unfold ScanHistory.historyKey. rewrite Heq. reflexivity. Qed.

(** X7. A stored scan is read back: after [storeScan], the latest scan of
    the address is the record just written, also when the address is
    looked up in another letter case; the record carries the risk score,
    the flags and the honeypot mark of the report, the capability hash of
    its flags and the lowercased address, and the same record is stored
    under its [scan:] key. *)
Theorem storeScan_roundtrip (db : ScanHistory.Store) (now : Z) (a b : string)
        (chain : option Z) (report : SecurityAnalyzer.SecurityReport)
        (proxy : option (bool * option string)) :
  Js.toLowerCase b = Js.toLowerCase a ->
  let record := fst (ScanHistory.storeScan db now a chain report proxy) in
  let db' := snd (ScanHistory.storeScan db now a chain report proxy) in
  ScanHistory.getLatestScan db' b = Some record
  /\ ScanHistory.riskScore record = SecurityAnalyzer.riskScore report
  /\ ScanHistory.flags record = SecurityAnalyzer.flags report
  /\ ScanHistory.isHoneypot record = SecurityAnalyzer.isHoneypot report
  /\ ScanHistory.capabilityHash record
     = ScanHistory.generateCapabilityHash (SecurityAnalyzer.flags report)
  /\ ScanHistory.contractAddress record = Js.toLowerCase a
  /\ ScanHistory.scans db'
       !! ("scan:" ++ Js.toLowerCase a ++ ":" ++ Js.toString now)%string
     = Some record.
Proof.
  intros Hcase record db'. subst record db'.
  split.
  - rewrite getLatestScan_head, historyOf_storeScan.
    rewrite decide_True by (apply historyKey_lower; symmetry; exact Hcase).
    reflexivity.
  - repeat split; try reflexivity.
    unfold ScanHistory.storeScan, ScanHistory.lTrim, ScanHistory.lPush, ScanHistory.setEx.
    cbn [snd fst ScanHistory.scans]. apply lookup_insert_eq.
Qed.

Lemma storeScan_roundtrip_witness :
  ScanHistory.getLatestScan
    (snd (ScanHistory.storeScan ScanHistory.emptyStore 1600000000000
            "0xAbCdEf0000000000000000000000000000000001" (Some 1)
            (Fixtures.reportOf 20 ["Simulation Reverted"]) None))
    "0xabcdef0000000000000000000000000000000001"
  = Some (fst (ScanHistory.storeScan ScanHistory.emptyStore 1600000000000
                 "0xAbCdEf0000000000000000000000000000000001" (Some 1)
                 (Fixtures.reportOf 20 ["Simulation Reverted"]) None)).
Proof.
  refine (proj1 (storeScan_roundtrip ScanHistory.emptyStore 1600000000000
                   "0xAbCdEf0000000000000000000000000000000001"
                   "0xabcdef0000000000000000000000000000000001" (Some 1)
                   (Fixtures.reportOf 20 ["Simulation Reverted"]) None _)).
  reflexivity.
Defined.

(** X8. The history of an address is a bounded list, newest first: after
    [storeScan] it is the new record followed by the earlier records, cut
    to 100 entries, so it never holds more than 100; the histories of all
    other addresses are untouched. *)
Theorem storeScan_history (db : ScanHistory.Store) (now : Z) (a : string)
        (chain : option Z) (report : SecurityAnalyzer.SecurityReport)
        (proxy : option (bool * option string)) :
  let record := fst (ScanHistory.storeScan db now a chain report proxy) in
  let db' := snd (ScanHistory.storeScan db now a chain report proxy) in
  historyOf db' a = take 100 (record :: historyOf db a)
  /\ length (historyOf db' a) = Nat.min 100 (Datatypes.S (length (historyOf db a)))
  /\ (length (historyOf db' a) <= 100)%nat
  /\ (forall b, ScanHistory.historyKey b <> ScanHistory.historyKey a ->
                historyOf db' b = historyOf db b).
Proof.
  cbn zeta.
  assert (Heq : historyOf (snd (ScanHistory.storeScan db now a chain report proxy)) a
                = take 100 (fst (ScanHistory.storeScan db now a chain report proxy)
                            :: historyOf db a)).
  { rewrite historyOf_storeScan, decide_True by reflexivity. reflexivity. }
  split; [exact Heq|]. rewrite Heq, length_take. cbn [length].
  split; [reflexivity|]. split; [lia|].
  intros b Hne. rewrite historyOf_storeScan, decide_False by congruence. reflexivity.
Qed.

Lemma storeScan_history_witness :
  historyOf (snd (ScanHistory.storeScan ScanHistory.emptyStore 1600000000000
                    (Addr.toString Fixtures.addrA) (Some 1)
                    (Fixtures.reportOf 20 ["Simulation Reverted"]) None))
            (Addr.toString Fixtures.addrB)
  = historyOf ScanHistory.emptyStore (Addr.toString Fixtures.addrB).
Proof.
  refine (proj2 (proj2 (proj2 (storeScan_history ScanHistory.emptyStore 1600000000000
                                 (Addr.toString Fixtures.addrA) (Some 1)
                                 (Fixtures.reportOf 20 ["Simulation Reverted"]) None)))
                (Addr.toString Fixtures.addrB) _).
  vm_compute. discriminate.
Defined.

Lemma capability_hash_perm (a b : list string) :
  a ≡ₚ b -> ScanHistory.generateCapabilityHash a = ScanHistory.generateCapabilityHash b.
Proof.
  intros Hp. unfold ScanHistory.generateCapabilityHash.
  rewrite (sortFlags_unique a (ScanHistory.sortFlags b)); [reflexivity| |].
  - apply sortFlags_sorted.
  - rewrite sortFlags_perm. symmetry. exact Hp.
Qed.

Lemma filter_absent (l l' : list string) :
  (forall f, In f l' -> In f l) ->
  filter (fun f => f ∉ (list_to_set l : gset string)) l' = [].
Proof.
  intros Hsub. induction l' as [|x l' IH]; [reflexivity|].
  rewrite filter_cons. rewrite decide_False.
  - apply IH. intros f Hf. apply Hsub. right. exact Hf.
  - intros Hnot. apply Hnot. apply elem_of_list_to_set, list_elem_of_In, Hsub. left. reflexivity.
Qed.

Lemma analyzeDrift_prior db a current prior :
  head (historyOf db a) = Some prior ->
  ScanHistory.analyzeDrift db a current
  = {| ScanHistory.hasDrift :=
         negb (String.eqb
                 (ScanHistory.generateCapabilityHash (SecurityAnalyzer.flags current))
                 (ScanHistory.capabilityHash prior));
       ScanHistory.riskDelta :=
         SecurityAnalyzer.riskScore current - ScanHistory.riskScore prior;
       ScanHistory.newFlags :=
         filter (fun f => f ∉ (list_to_set (ScanHistory.flags prior) : gset string))
                (SecurityAnalyzer.flags current);
       ScanHistory.removedFlags :=
         filter (fun f => f ∉ (list_to_set (SecurityAnalyzer.flags current) : gset string))
                (ScanHistory.flags prior);
       ScanHistory.previousScan := Some prior |}.
Proof.
  intros Hprior. unfold ScanHistory.analyzeDrift.
  rewrite getLatestScan_head, Hprior. reflexivity.
Qed.

(** X9. A second scan that finds the same flags reports no drift: when
    the report scanned right after [storeScan] has a permutation of the
    stored flags, the drift analysis has no drift, no new and no removed
    flags, a risk delta equal to the difference of the two scores, and the
    drift step adds no flag. *)
Theorem rescan_no_drift (db : ScanHistory.Store) (now : Z) (a : string)
        (chain : option Z) (stored current : SecurityAnalyzer.SecurityReport)
        (proxy : option (bool * option string)) :
  SecurityAnalyzer.flags current ≡ₚ SecurityAnalyzer.flags stored ->
  let db' := snd (ScanHistory.storeScan db now a chain stored proxy) in
  let d := ScanHistory.analyzeDrift db' a current in
  ScanHistory.hasDrift d = false
  /\ ScanHistory.newFlags d = []
  /\ ScanHistory.removedFlags d = []
  /\ ScanHistory.riskDelta d
     = SecurityAnalyzer.riskScore current - SecurityAnalyzer.riskScore stored
  /\ EvmExecutor.applyDrift d current = current.
Proof.
  intros Hperm db' d. subst db' d.
  set (record := fst (ScanHistory.storeScan db now a chain stored proxy)).
  rewrite (analyzeDrift_prior _ a current record)
    by (rewrite historyOf_storeScan, decide_True by reflexivity; reflexivity).
  assert (Hflags : ScanHistory.flags record = SecurityAnalyzer.flags stored) by reflexivity.
  assert (Hhash : ScanHistory.capabilityHash record
                  = ScanHistory.generateCapabilityHash (SecurityAnalyzer.flags stored))
    by reflexivity.
  assert (Hscore : ScanHistory.riskScore record = SecurityAnalyzer.riskScore stored)
    by reflexivity.
  assert (Hd : negb (String.eqb (ScanHistory.generateCapabilityHash (SecurityAnalyzer.flags current))
                                (ScanHistory.capabilityHash record)) = false).
  { rewrite Hhash.
    rewrite (capability_hash_perm _ _ Hperm). apply negb_false_iff, String.eqb_refl. }
  cbn [ScanHistory.hasDrift ScanHistory.newFlags ScanHistory.removedFlags ScanHistory.riskDelta].
  rewrite Hd, Hflags, Hscore.
  split; [reflexivity|]. split.
  { apply filter_absent. intros f Hf. apply (Permutation_in _ Hperm). exact Hf. }
  split.
  { apply filter_absent. intros f Hf. apply (Permutation_in _ (Permutation_sym Hperm)). exact Hf. }
  split; [reflexivity|].
  reflexivity.
Qed.

Lemma rescan_no_drift_witness :
  ScanHistory.hasDrift
    (ScanHistory.analyzeDrift
       (snd (ScanHistory.storeScan ScanHistory.emptyStore 1600000000000 (Addr.toString Fixtures.addrA) (Some 1)
               (Fixtures.reportOf 30 ["Simulation Reverted"; "Contract has an Owner: 0x01"])
               None))
       (Addr.toString Fixtures.addrA)
       (Fixtures.reportOf 45 ["Contract has an Owner: 0x01"; "Simulation Reverted"]))
  = false.
Proof.
  refine (proj1 (rescan_no_drift ScanHistory.emptyStore 1600000000000 (Addr.toString Fixtures.addrA) (Some 1)
                   (Fixtures.reportOf 30 ["Simulation Reverted"; "Contract has an Owner: 0x01"])
                   (Fixtures.reportOf 45 ["Contract has an Owner: 0x01"; "Simulation Reverted"])
                   None _)).
  apply perm_swap.
Defined.

Lemma in_filter_absent (l l' : list string) (f : string) :
  In f (filter (fun f => f ∉ (list_to_set l : gset string)) l') <-> In f l' /\ ~ In f l.
Proof.
  rewrite <- !list_elem_of_In, list_elem_of_filter, elem_of_list_to_set.
  rewrite !list_elem_of_In. tauto.
Qed.

(** X10. With a previous scan on record, the drift analysis compares with
    that scan: the new flags are exactly the flags of the current report
    the previous scan lacks, the removed flags exactly the flags of the
    previous scan the current report lacks, no flag is both new and
    removed, and the risk delta is the current score minus the previous
    one. *)
Theorem drift_flag_sets (db : ScanHistory.Store) (a : string)
        (current : SecurityAnalyzer.SecurityReport) (prior : ScanHistory.ScanRecord) :
  head (historyOf db a) = Some prior ->
  let d := ScanHistory.analyzeDrift db a current in
  ScanHistory.previousScan d = Some prior
  /\ (forall f, In f (ScanHistory.newFlags d)
                <-> In f (SecurityAnalyzer.flags current) /\ ~ In f (ScanHistory.flags prior))
  /\ (forall f, In f (ScanHistory.removedFlags d)
                <-> In f (ScanHistory.flags prior) /\ ~ In f (SecurityAnalyzer.flags current))
  /\ (forall f, In f (ScanHistory.newFlags d) -> ~ In f (ScanHistory.removedFlags d))
  /\ ScanHistory.riskDelta d
     = SecurityAnalyzer.riskScore current - ScanHistory.riskScore prior.
Proof.
  intros Hprior d. subst d. rewrite (analyzeDrift_prior _ _ _ _ Hprior).
  cbn [ScanHistory.previousScan ScanHistory.newFlags ScanHistory.removedFlags
       ScanHistory.riskDelta].
  split; [reflexivity|]. split; [intros f; apply in_filter_absent|].
  split; [intros f; apply in_filter_absent|]. split; [|reflexivity].
  intros f Hnew Hrem. apply in_filter_absent in Hnew, Hrem. tauto.
Qed.

Lemma drift_flag_sets_witness :
  ScanHistory.previousScan
    (ScanHistory.analyzeDrift
       (Fixtures.storeAfter (Fixtures.reportOf 20 ["Simulation Reverted"])) (Addr.toString Fixtures.addrA)
       (Fixtures.reportOf 50 ["Suspicious Function: mint()"]))
  = head (historyOf (Fixtures.storeAfter (Fixtures.reportOf 20 ["Simulation Reverted"])) (Addr.toString Fixtures.addrA)).
Proof.
  refine (proj1 (drift_flag_sets (Fixtures.storeAfter (Fixtures.reportOf 20 ["Simulation Reverted"])) (Addr.toString Fixtures.addrA)
                   (Fixtures.reportOf 50 ["Suspicious Function: mint()"]) _ _)).
  reflexivity.
Defined.

Lemma lRange_two db key cur prev rest :
  ScanHistory.history db !! key = Some (cur :: prev :: rest) ->
  ScanHistory.lRange db key 1 = [cur; prev].
Proof. intros H. unfold ScanHistory.lRange. rewrite H. reflexivity. Qed.

Lemma historyKeys_spec db key :
  In key (ScanHistory.historyKeys db)
  <-> Js.startsWith key "history:" = true
      /\ exists l, ScanHistory.history db !! key = Some l.
Proof.
  unfold ScanHistory.historyKeys. rewrite filter_In, in_map_iff. split.
  - intros [[[k l] [Hk Hin]] Hs]. cbn in Hk. subst k. split; [exact Hs|].
    exists l. apply elem_of_map_to_list, list_elem_of_In. exact Hin.
  - intros [Hs [l Hl]]. split; [|exact Hs].
    exists (key, l). split; [reflexivity|].
    apply list_elem_of_In, elem_of_map_to_list. exact Hl.
Qed.

Lemma driftOf_spec db m key addr :
  In addr (ScanHistory.driftOf db m key)
  <-> exists cur prev rest,
        ScanHistory.history db !! key = Some (cur :: prev :: rest)
        /\ m <= ScanHistory.riskScore cur - ScanHistory.riskScore prev
        /\ ScanHistory.contractAddress cur = addr.
Proof.
  unfold ScanHistory.driftOf, ScanHistory.lRange.
  destruct (ScanHistory.history db !! key) as [[|cur [|prev rest]]|] eqn:Hk; cbn.
  1,2,4: split; [intros []|intros (c & p & r & Hc & _); discriminate].
  destruct (Z.leb_spec m (ScanHistory.riskScore cur - ScanHistory.riskScore prev)) as [Hle|Hlt].
  - split.
    + intros [<-|[]]. exists cur, prev, rest. auto.
    + intros (c & p & r & Hc & _ & <-). injection Hc as <- _ _. left. reflexivity.
  - split; [intros []|].
    intros (c & p & r & Hc & Hle & _). injection Hc as <- <- _. lia.
Qed.

(** X11. [getContractsWithDrift] lists an address exactly when some list
    under a [history:] key holds at least two records, the newest one
    carries that address, and its risk score exceeds that of the record
    before it by at least the threshold.  Only the two newest records of a
    list count. *)
Theorem getContractsWithDrift_spec (db : ScanHistory.Store) (minRiskDelta : Z)
        (addr : string) :
  In addr (ScanHistory.getContractsWithDrift db minRiskDelta)
  <-> exists key cur prev rest,
        Js.startsWith key "history:" = true
        /\ ScanHistory.history db !! key = Some (cur :: prev :: rest)
        /\ minRiskDelta <= ScanHistory.riskScore cur - ScanHistory.riskScore prev
        /\ ScanHistory.contractAddress cur = addr.
Proof.
  unfold ScanHistory.getContractsWithDrift. rewrite in_concat. split.
  - intros [l [Hl Hin]]. apply in_map_iff in Hl as [key [<- Hkey]].
    apply historyKeys_spec in Hkey as [Hs _].
    apply driftOf_spec in Hin as (cur & prev & rest & Hk & Hle & Ha).
    exists key, cur, prev, rest. auto.
  - intros (key & cur & prev & rest & Hs & Hk & Hle & Ha).
    exists (ScanHistory.driftOf db minRiskDelta key). split.
    + apply in_map, historyKeys_spec. split; [exact Hs|]. eauto.
    + apply driftOf_spec. exists cur, prev, rest. auto.
Qed.

Lemma startsWith_app (p s : string) : Js.startsWith (p ++ s) p = true.
Proof.
  unfold Js.startsWith. apply prefix_app.
Qed.

(** X12. A scan whose risk score is at least [minRiskDelta] above the
    latest scan on record puts the contract on the drift list: after
    [storeScan], [getContractsWithDrift] lists the lowercased address. *)
Theorem storeScan_listed (db : ScanHistory.Store) (now : Z) (a : string)
        (chain : option Z) (report : SecurityAnalyzer.SecurityReport)
        (proxy : option (bool * option string)) (prior : ScanHistory.ScanRecord)
        (minRiskDelta : Z) :
  head (historyOf db a) = Some prior ->
  minRiskDelta <= SecurityAnalyzer.riskScore report - ScanHistory.riskScore prior ->
  In (Js.toLowerCase a)
     (ScanHistory.getContractsWithDrift
        (snd (ScanHistory.storeScan db now a chain report proxy)) minRiskDelta).
Proof.
  intros Hprior Hle. apply getContractsWithDrift_spec.
  pose proof (historyOf_storeScan db now a chain report proxy a) as Hh.
  rewrite decide_True in Hh by reflexivity.
  destruct (historyOf db a) as [|p rest] eqn:Hold; [discriminate|].
  injection Hprior as ->.
  exists (ScanHistory.historyKey a),
         (fst (ScanHistory.storeScan db now a chain report proxy)), prior, (take 98 rest).
  split; [exact (startsWith_app "history:" (Js.toLowerCase a))|].
  split; [|split; [exact Hle|reflexivity]].
  unfold historyOf in Hh.
  destruct (ScanHistory.history (snd (ScanHistory.storeScan db now a chain report proxy))
              !! ScanHistory.historyKey a) as [l|] eqn:Hl.
  - cbn in Hh. rewrite Hh. reflexivity.
  - cbn in Hh. discriminate.
Qed.

Lemma storeScan_listed_witness :
  In (Js.toLowerCase (Addr.toString Fixtures.addrA))
     (ScanHistory.getContractsWithDrift
        (snd (ScanHistory.storeScan (Fixtures.storeAfter (Fixtures.reportOf 20 ["Simulation Reverted"]))
                1600000000001 (Addr.toString Fixtures.addrA) (Some 1)
                (Fixtures.reportOf 45 ["Simulation Reverted"]) None))
        20).
Proof.
  refine (storeScan_listed (Fixtures.storeAfter (Fixtures.reportOf 20 ["Simulation Reverted"]))
            1600000000001 (Addr.toString Fixtures.addrA) (Some 1)
            (Fixtures.reportOf 45 ["Simulation Reverted"]) None
            (fst (ScanHistory.storeScan ScanHistory.emptyStore 1600000000000
                    (Addr.toString Fixtures.addrA) (Some 1) (Fixtures.reportOf 20 ["Simulation Reverted"]) None))
            20 _ _).
  - reflexivity.
  - vm_compute. discriminate.
Defined.

(** ** Simulations: results of whole runs *)

Lemma filter_none {A} (f : A -> bool) (l : list A) :
  (forall a, In a l -> f a = false) -> List.filter f l = [].
Proof.
  intros Hf. induction l as [|x l IH]; [reflexivity|].
  cbn. rewrite (Hf x) by (left; reflexivity).
  apply IH. intros a Ha. apply Hf. right. exact Ha.
Qed.

(** The result of the five rules on a run without whitelisted actors. *)
Lemma analyze_closed_form (actors : list CounterfactualAnalyzer.ActorSimulationResult) :
  CounterfactualAnalyzer.ofType CounterfactualAnalyzer.WhitelistedAddress actors = [] ->
  let r := CounterfactualAnalyzer.analyzeCounterfactualResults
             (CounterfactualAnalyzer.initialResult actors) in
  CounterfactualAnalyzer.isHoneypot r = honeypotMatrix actors
  /\ CounterfactualAnalyzer.hasOwnerPrivileges r = honeypotMatrix actors
  /\ CounterfactualAnalyzer.hasWhitelistMechanism r = false
  /\ CounterfactualAnalyzer.actorResults r = actors
  /\ CounterfactualAnalyzer.riskScore r
     = (if honeypotMatrix actors then 100 else 0) + (if gasAnomalyIn actors then 15 else 0).
Proof.
  intros Hwhite r. subst r.
  unfold CounterfactualAnalyzer.analyzeCounterfactualResults, gasAnomalyIn, honeypotMatrix.
  cbn [CounterfactualAnalyzer.initialResult CounterfactualAnalyzer.actorResults].
  rewrite Hwhite.
  set (users := CounterfactualAnalyzer.ofType CounterfactualAnalyzer.RandomUser actors).
  set (owners := CounterfactualAnalyzer.ofType CounterfactualAnalyzer.Owner actors).
  generalize (forallb CounterfactualAnalyzer.reverted users) as allUsersFail.
  generalize (existsb CounterfactualAnalyzer.succeeded owners) as ownerSucceeds.
  generalize (existsb CounterfactualAnalyzer.succeeded users) as anyUserSucceeds.
  generalize (forallb CounterfactualAnalyzer.reverted owners) as ownerFails.
  intros ownerFails anyUserSucceeds ownerSucceeds allUsersFail.
  unfold CounterfactualAnalyzer.honeypotRule, CounterfactualAnalyzer.unusualRule,
    CounterfactualAnalyzer.whitelistRule, CounterfactualAnalyzer.gasRule.
  cbn [length Nat.ltb Nat.leb].
  destruct allUsersFail, ownerSucceeds, anyUserSucceeds, ownerFails;
    cbn [andb]; destruct users as [|u us], owners as [|o os];
    try (cbn; repeat split; reflexivity);
    destruct (CounterfactualAnalyzer.gasAnomaly _ _); cbn; repeat split; reflexivity.
Qed.

Lemma actorsOf_In engine txParams ownerAddress deployerAddress t addr :
  In (t, addr) (CounterfactualAnalyzer.actorsOf engine txParams ownerAddress deployerAddress) ->
  t = CounterfactualAnalyzer.RandomUser
  \/ t = CounterfactualAnalyzer.Deployer
  \/ (t = CounterfactualAnalyzer.Owner /\ ownerAddress = Some addr
      /\ Js.truthy addr = true /\ addr <> Addr.ZERO).
Proof.
  unfold CounterfactualAnalyzer.actorsOf, CounterfactualAnalyzer.detectWhitelistedAddresses.
  cbn [map]. rewrite app_nil_r. rewrite !in_app_iff. intros [Hu|[Ho|Hd]].
  - destruct Hu as [Hu|[Hu|[]]]; injection Hu as <- _; left; reflexivity.
  - destruct ownerAddress as [o|]; [|destruct Ho].
    destruct (Js.truthy o) eqn:Ht; [|destruct Ho].
    destruct (String.eqb_spec o Addr.ZERO) as [|Hz]; [destruct Ho|].
    destruct Ho as [Ho|[]]. injection Ho as <- <-. right. right. auto.
  - destruct deployerAddress as [d|]; [|destruct Hd].
    destruct (Js.truthy d && _); [|destruct Hd].
    destruct Hd as [Hd|[]]. injection Hd as <- _. right. left. reflexivity.
Qed.

Lemma actorsOf_length engine txParams ownerAddress deployerAddress :
  (length (CounterfactualAnalyzer.actorsOf engine txParams ownerAddress deployerAddress) <= 4)%nat.
Proof.
  unfold CounterfactualAnalyzer.actorsOf, CounterfactualAnalyzer.detectWhitelistedAddresses.
  cbn [map]. rewrite app_nil_r.
  change (?a ++ ?b ++ ?c)%list with (a ++ (b ++ c))%list.
  rewrite !length_app.
  destruct ownerAddress as [o|], deployerAddress as [d|];
    repeat match goal with |- context [if ?b then _ else _] => destruct b end;
    cbn [length]; lia.
Qed.

Lemma runActors_length engine txParams ownerAddress actors :
  (length (concat (map (CounterfactualAnalyzer.runActor engine txParams ownerAddress) actors))
   <= length actors)%nat.
Proof.
  induction actors as [|[t addr] rest IH]; [reflexivity|].
  cbn [map concat length]. rewrite length_app.
  unfold CounterfactualAnalyzer.runActor at 1.
  destruct (runAs engine txParams addr _); cbn [length]; lia.
Qed.

Lemma runActors_In engine txParams ownerAddress actors a :
  In a (concat (map (CounterfactualAnalyzer.runActor engine txParams ownerAddress) actors)) ->
  In (CounterfactualAnalyzer.actorType a, CounterfactualAnalyzer.address a) actors
  /\ runAs engine txParams (CounterfactualAnalyzer.address a)
           (CounterfactualAnalyzer.isType (CounterfactualAnalyzer.actorType a)
                                          CounterfactualAnalyzer.Owner
            && match ownerAddress with Some o => Js.truthy o | None => false end)
     = Some (CounterfactualAnalyzer.outcome a).
Proof.
  intros Hin. apply in_concat in Hin as [l [Hl Hin]].
  apply in_map_iff in Hl as [[t addr] [<- Hact]].
  unfold CounterfactualAnalyzer.runActor in Hin.
  destruct (runAs engine txParams addr _) as [out|] eqn:Hrun; [|destruct Hin].
  destruct Hin as [<-|[]]. cbn. split; [exact Hact|exact Hrun].
Qed.

(** X13. What a counterfactual run can report.  At most four actors are
    run and none of them is a whitelisted address, so the whitelist
    mechanism is never reported; owner privileges are reported exactly with
    a honeypot; the risk score is 0, 15, 100 or 115 and is at least 100
    exactly for a honeypot.  A honeypot is only reported when an owner
    address was given that is neither empty nor the zero address and whose
    run, with the owner slots injected, succeeded. *)
Theorem counterfactual_run (engine : SimulationEngine) (txParams : TxParams)
        (ownerAddress deployerAddress : option string) :
  let r := CounterfactualAnalyzer.runCounterfactualSimulation
             engine txParams ownerAddress deployerAddress in
  CounterfactualAnalyzer.hasWhitelistMechanism r = false
  /\ CounterfactualAnalyzer.hasOwnerPrivileges r = CounterfactualAnalyzer.isHoneypot r
  /\ (length (CounterfactualAnalyzer.actorResults r) <= 4)%nat
  /\ In (CounterfactualAnalyzer.riskScore r) [0; 15; 100; 115]
  /\ (100 <= CounterfactualAnalyzer.riskScore r
      <-> CounterfactualAnalyzer.isHoneypot r = true)
  /\ (CounterfactualAnalyzer.isHoneypot r = true ->
      exists o out, ownerAddress = Some o /\ o <> EmptyString /\ o <> Addr.ZERO
                    /\ runAs engine txParams o true = Some out
                    /\ status out = "Success").
Proof.
  cbn zeta. unfold CounterfactualAnalyzer.runCounterfactualSimulation.
  set (actors := CounterfactualAnalyzer.actorsOf engine txParams ownerAddress deployerAddress).
  set (results := concat (map (CounterfactualAnalyzer.runActor engine txParams ownerAddress)
                              actors)).
  assert (Hwhite : CounterfactualAnalyzer.ofType CounterfactualAnalyzer.WhitelistedAddress
                     results = []).
  { apply filter_none. intros a Ha. apply runActors_In in Ha as [Ha _].
    apply actorsOf_In in Ha as [Ht|[Ht|[Ht _]]]; rewrite Ht; reflexivity. }
  destruct (analyze_closed_form results Hwhite) as (Hhp & Hpriv & Hw & Hact & Hscore).
  rewrite Hhp, Hpriv, Hw, Hact, Hscore.
  split; [reflexivity|]. split; [reflexivity|]. split.
  { etransitivity; [apply runActors_length|apply actorsOf_length]. }
  split.
  { destruct (honeypotMatrix results), (gasAnomalyIn results); cbn; auto. }
  split.
  { destruct (honeypotMatrix results), (gasAnomalyIn results); cbn; split;
      intros; try reflexivity; try discriminate; lia. }
  intros Hm. unfold honeypotMatrix in Hm. apply andb_true_iff in Hm as [_ Hown].
  apply existsb_exists in Hown as [a [Ha Hs]].
  apply ofType_In in Ha as [Ha Ht].
  apply runActors_In in Ha as [Hact' Hrun].
  apply actorsOf_In in Hact' as [Hu|[Hd|(_ & Hsome & Htruthy & Hnz)]];
    [congruence|congruence|].
  rewrite Ht, Hsome, Htruthy in Hrun. cbn in Hrun.
  exists (CounterfactualAnalyzer.address a), (CounterfactualAnalyzer.outcome a).
  split; [exact Hsome|]. split.
  { intros He. rewrite He in Htruthy. discriminate. }
  split; [exact Hnz|]. split; [exact Hrun|].
  unfold CounterfactualAnalyzer.succeeded in Hs. apply String.eqb_eq. exact Hs.
Qed.

Lemma counterfactual_run_witness :
  exists o out, Some (Addr.toString Fixtures.addrOwner) = Some o
                /\ o <> EmptyString /\ o <> Addr.ZERO
                /\ runAs Fixtures.honeypotEngine Fixtures.tx o true = Some out
                /\ status out = "Success".
Proof.
  refine (proj2 (proj2 (proj2 (proj2 (proj2
            (counterfactual_run Fixtures.honeypotEngine Fixtures.tx
               (Some (Addr.toString Fixtures.addrOwner)) None))))) _).
  vm_compute. reflexivity.
Defined.

(** ** Time travel *)

Lemma run_time_travel engine txParams cur :
  runAt engine txParams 0 = Some cur ->
  let added := concat (map (futureOf engine txParams (status cur))
                           TimeTravelAnalyzer.timeOffsets) in
  let r := TimeTravelAnalyzer.runTimeTravelSimulation engine txParams in
  TimeTravelAnalyzer.isTimeSensitive r
  = existsb TimeTravelAnalyzer.divergesFromCurrent added
  /\ TimeTravelAnalyzer.cur_status (TimeTravelAnalyzer.currentBlockResult r) = status cur
  /\ TimeTravelAnalyzer.futureResults r = added
  /\ TimeTravelAnalyzer.riskFlags r
     = concat (map (TimeTravelAnalyzer.flagsOf (String.eqb (status cur) "Success")) added).
Proof.
  intros Hcur added r. subst added r.
  unfold TimeTravelAnalyzer.runTimeTravelSimulation. rewrite Hcur, fold_step.
  unfold TimeTravelAnalyzer.analyzeTimeTravelResults.
  cbn [TimeTravelAnalyzer.isTimeSensitive TimeTravelAnalyzer.currentBlockResult
       TimeTravelAnalyzer.cur_status TimeTravelAnalyzer.futureResults
       TimeTravelAnalyzer.riskFlags orb app].
  repeat split; reflexivity.
Qed.

Lemma futureOf_In engine txParams cur offset f :
  In f (futureOf engine txParams cur offset) ->
  (TimeTravelAnalyzer.offsetSeconds f, TimeTravelAnalyzer.offsetDescription f) = offset
  /\ TimeTravelAnalyzer.offsetSeconds f <> 0
  /\ runAt engine txParams (TimeTravelAnalyzer.offsetSeconds f)
     = Some (TimeTravelAnalyzer.outcome f)
  /\ TimeTravelAnalyzer.divergesFromCurrent f
     = negb (String.eqb (status (TimeTravelAnalyzer.outcome f)) cur).
Proof.
  destruct offset as [seconds description]. unfold futureOf. cbn [fst snd].
  destruct (Z.eqb_spec seconds 0) as [|Hnz]; [intros []|].
  destruct (runAt engine txParams seconds) as [out|] eqn:Hrun; [|intros []].
  intros [<-|[]]. cbn. auto.
Qed.

Lemma futures_sublist engine txParams cur offsets :
  sublist (map TimeTravelAnalyzer.offsetSeconds
               (concat (map (futureOf engine txParams cur) offsets)))
          (map fst offsets).
Proof.
  induction offsets as [|[seconds description] rest IH]; [constructor|].
  cbn [map concat fst]. unfold futureOf at 1. cbn [fst snd].
  destruct (seconds =? 0); [apply sublist_cons; exact IH|].
  destruct (runAt engine txParams seconds).
  - cbn. apply sublist_skip. exact IH.
  - apply sublist_cons. exact IH.
Qed.

(** X14. The entries of [futureResults]: they follow the order of the
    canonical offsets, never include the baseline offset and are at most
    five; each records the run made at its offset and is marked as
    diverging exactly when its status differs from the baseline status.
    When the fork of the baseline run fails nothing else is run: the
    result is not time-sensitive and has no entries and no flags. *)
Theorem time_travel_results (engine : SimulationEngine) (txParams : TxParams) :
  let r := TimeTravelAnalyzer.runTimeTravelSimulation engine txParams in
  sublist (map TimeTravelAnalyzer.offsetSeconds (TimeTravelAnalyzer.futureResults r))
          [3600; 86400; 604800; 2592000; -86400]
  /\ (length (TimeTravelAnalyzer.futureResults r) <= 5)%nat
  /\ (forall f, In f (TimeTravelAnalyzer.futureResults r) ->
        In (TimeTravelAnalyzer.offsetSeconds f, TimeTravelAnalyzer.offsetDescription f)
           TimeTravelAnalyzer.timeOffsets
        /\ TimeTravelAnalyzer.offsetSeconds f <> 0
        /\ runAt engine txParams (TimeTravelAnalyzer.offsetSeconds f)
           = Some (TimeTravelAnalyzer.outcome f)
        /\ (TimeTravelAnalyzer.divergesFromCurrent f = true
            <-> status (TimeTravelAnalyzer.outcome f)
                <> TimeTravelAnalyzer.cur_status (TimeTravelAnalyzer.currentBlockResult r)))
  /\ (runAt engine txParams 0 = None ->
      TimeTravelAnalyzer.isTimeSensitive r = false
      /\ TimeTravelAnalyzer.futureResults r = []
      /\ TimeTravelAnalyzer.riskFlags r = []).
Proof.
  cbn zeta.
  destruct (runAt engine txParams 0) as [cur|] eqn:Hcur.
  - destruct (run_time_travel engine txParams cur Hcur) as (_ & Hst & Hfut & _).
    rewrite Hfut, Hst.
    assert (Hsub : sublist
                     (map TimeTravelAnalyzer.offsetSeconds
                          (concat (map (futureOf engine txParams (status cur))
                                       TimeTravelAnalyzer.timeOffsets)))
                     [3600; 86400; 604800; 2592000; -86400]).
    { pose proof (futures_sublist engine txParams (status cur)
                    TimeTravelAnalyzer.timeOffsets) as Hs.
      apply sublist_cons_r in Hs as [Hs|(l' & Hl' & _)]; [exact Hs|].
      exfalso.
      assert (Hin : In 0 (map TimeTravelAnalyzer.offsetSeconds
                            (concat (map (futureOf engine txParams (status cur))
                                         TimeTravelAnalyzer.timeOffsets)))).
      { rewrite Hl'. left. reflexivity. }
      apply in_map_iff in Hin as [f [Hz Hf]].
      apply in_concat in Hf as [l [Hl Hf]].
      apply in_map_iff in Hl as [offset [<- _]].
      apply futureOf_In in Hf as (_ & Hnz & _). contradiction. }
    split; [exact Hsub|]. split.
    { apply sublist_length in Hsub. rewrite length_map in Hsub. exact Hsub. }
    split; [|discriminate].
    intros f Hf. apply in_concat in Hf as [l [Hl Hf]].
    apply in_map_iff in Hl as [offset [<- Hoff]].
    apply futureOf_In in Hf as (Heq & Hnz & Hrun & Hdiv).
    split; [rewrite Heq; exact Hoff|]. split; [exact Hnz|]. split; [exact Hrun|].
    rewrite Hdiv, negb_true_iff. apply String.eqb_neq.
  - unfold TimeTravelAnalyzer.runTimeTravelSimulation. rewrite Hcur.
    cbn [TimeTravelAnalyzer.futureResults TimeTravelAnalyzer.isTimeSensitive
         TimeTravelAnalyzer.riskFlags map length].
    split; [apply sublist_nil_l|]. split; [lia|]. split; [intros f []|].
    intros _. repeat split; reflexivity.
Qed.

Lemma time_travel_results_witness :
  TimeTravelAnalyzer.isTimeSensitive
    (TimeTravelAnalyzer.runTimeTravelSimulation
       {| runAt := fun _ _ => None; runAs := fun _ _ _ => None;
          generateRandomAddress := Fixtures.randomAddress |} Fixtures.tx) = false.
Proof.
  refine (proj1 (proj2 (proj2 (proj2
            (time_travel_results
               {| runAt := fun _ _ => None; runAs := fun _ _ _ => None;
                  generateRandomAddress := Fixtures.randomAddress |} Fixtures.tx))) _)).
  reflexivity.
Defined.

Lemma includes_prefix (s p : string) : String.prefix p s = true -> Js.includes s p = true.
Proof. intros H. destruct s; cbn [Js.includes]; rewrite H; reflexivity. Qed.

(** A flag that mentions TIME-BOMB or CRITICAL comes from a run at a later
    time that did not succeed while the baseline did. *)
Lemma flagsOf_alarm (currentSuccess : bool) (f : TimeTravelAnalyzer.FutureResult)
      (flag : string) :
  In (TimeTravelAnalyzer.offsetSeconds f, TimeTravelAnalyzer.offsetDescription f)
     TimeTravelAnalyzer.timeOffsets ->
  In flag (TimeTravelAnalyzer.flagsOf currentSuccess f) ->
  Js.includes flag "TIME-BOMB" || Js.includes flag "CRITICAL" = true ->
  currentSuccess = true
  /\ 0 < TimeTravelAnalyzer.offsetSeconds f
  /\ status (TimeTravelAnalyzer.outcome f) <> "Success".
Proof.
  destruct f as [description seconds out diverges]. cbn [TimeTravelAnalyzer.offsetSeconds
    TimeTravelAnalyzer.offsetDescription TimeTravelAnalyzer.outcome].
  unfold TimeTravelAnalyzer.flagsOf.
  cbn [TimeTravelAnalyzer.offsetSeconds TimeTravelAnalyzer.offsetDescription
       TimeTravelAnalyzer.outcome TimeTravelAnalyzer.divergesFromCurrent].
  intros Hoff Hin Hinc.
  destruct diverges; [|destruct Hin]. cbn [negb] in Hin.
  destruct (String.eqb_spec (status out) "Success") as [Hs|Hs];
    destruct currentSuccess; cbn [andb negb] in Hin; try (destruct Hin; fail).
  - exfalso.
    repeat (destruct Hoff as [Hoff|Hoff];
            [injection Hoff as <- <-; cbn in Hin;
             repeat (destruct Hin as [<-|Hin]; [vm_compute in Hinc; discriminate|]);
             exact Hin|]).
    exact Hoff.
  - destruct (Z.ltb_spec 0 seconds) as [Hpos|Hneg]; [|destruct Hin].
    auto.
Qed.

Lemma flagsOf_time_bomb (f : TimeTravelAnalyzer.FutureResult) :
  TimeTravelAnalyzer.divergesFromCurrent f = true ->
  0 < TimeTravelAnalyzer.offsetSeconds f ->
  status (TimeTravelAnalyzer.outcome f) <> "Success" ->
  In ("TIME-BOMB: Transaction fails at " ++ TimeTravelAnalyzer.offsetDescription f)%string
     (TimeTravelAnalyzer.flagsOf true f).
Proof.
  intros Hdiv Hpos Hs. unfold TimeTravelAnalyzer.flagsOf. rewrite Hdiv.
  apply String.eqb_neq in Hs. rewrite Hs. cbn [negb andb].
  apply Z.ltb_lt in Hpos. rewrite Hpos. left. reflexivity.
Qed.

Lemma alarm_time_bomb engine txParams cur :
  runAt engine txParams 0 = Some cur ->
  existsb (fun f => Js.includes f "TIME-BOMB" || Js.includes f "CRITICAL")
          (TimeTravelAnalyzer.riskFlags
             (TimeTravelAnalyzer.runTimeTravelSimulation engine txParams)) = true ->
  timeBomb engine txParams.
Proof.
  intros Hcur Hex.
  destruct (run_time_travel engine txParams cur Hcur) as (_ & _ & _ & Hflags).
  rewrite Hflags in Hex. apply existsb_exists in Hex as [flag [Hin Hinc]].
  apply in_concat in Hin as [l [Hl Hin]].
  apply in_map_iff in Hl as [f [<- Hf]].
  apply in_concat in Hf as [l [Hl Hf]].
  apply in_map_iff in Hl as [offset [<- Hoff]].
  apply futureOf_In in Hf as (Heq & Hnz & Hrun & Hdiv).
  rewrite <- Heq in Hoff.
  destruct (flagsOf_alarm _ f flag Hoff Hin Hinc) as (Hcs & Hpos & Hs).
  exists cur, (TimeTravelAnalyzer.offsetSeconds f), (TimeTravelAnalyzer.offsetDescription f),
         (TimeTravelAnalyzer.outcome f).
  apply String.eqb_eq in Hcs. auto 10.
Qed.

Lemma time_bomb_flag engine txParams :
  timeBomb engine txParams ->
  mentions "TIME-BOMB"
    (TimeTravelAnalyzer.riskFlags
       (TimeTravelAnalyzer.runTimeTravelSimulation engine txParams)) = true
  /\ TimeTravelAnalyzer.isTimeSensitive
       (TimeTravelAnalyzer.runTimeTravelSimulation engine txParams) = true.
Proof.
  intros (cur & seconds & description & out & Hcur & Hs & Hoff & Hpos & Hrun & Hout).
  destruct (run_time_travel engine txParams cur Hcur) as (Hts & _ & _ & Hflags).
  rewrite Hts, Hflags, Hs. cbn [String.eqb Ascii.eqb Bool.eqb andb].
  set (f := {| TimeTravelAnalyzer.offsetDescription := description;
               TimeTravelAnalyzer.offsetSeconds := seconds;
               TimeTravelAnalyzer.outcome := out;
               TimeTravelAnalyzer.divergesFromCurrent :=
                 negb (String.eqb (status out) "Success") |}).
  assert (Hf : In f (concat (map (futureOf engine txParams "Success")
                                 TimeTravelAnalyzer.timeOffsets))).
  { apply in_concat. eexists. split; [apply in_map; exact Hoff|].
    unfold futureOf. cbn [fst snd].
    destruct (Z.eqb_spec seconds 0) as [|_]; [lia|].
    rewrite Hrun. left. reflexivity. }
  assert (Hdiv : TimeTravelAnalyzer.divergesFromCurrent f = true).
  { cbn. apply negb_true_iff, String.eqb_neq. exact Hout. }
  split.
  - unfold mentions. apply existsb_exists.
    exists ("TIME-BOMB: Transaction fails at " ++ description)%string. split.
    + apply in_concat. eexists. split; [apply in_map; exact Hf|].
      apply (flagsOf_time_bomb f Hdiv Hpos Hout).
    + apply includes_prefix.
      exact (prefix_app "TIME-BOMB" (": Transaction fails at " ++ description)).
  - apply existsb_exists. exists f. auto.
Qed.

(** X15. The TIME-BOMB flag: the flags of a time-travel run mention
    TIME-BOMB exactly when the call succeeds now and a run at a later
    offset does not succeed.  A result that is not time-sensitive has no
    flags at all. *)
Theorem time_bomb_iff (engine : SimulationEngine) (txParams : TxParams) :
  let r := TimeTravelAnalyzer.runTimeTravelSimulation engine txParams in
  (mentions "TIME-BOMB" (TimeTravelAnalyzer.riskFlags r) = true <-> timeBomb engine txParams)
  /\ (TimeTravelAnalyzer.isTimeSensitive r = false -> TimeTravelAnalyzer.riskFlags r = []).
Proof.
  cbn zeta. split; [split|].
  - intros Hm. destruct (runAt engine txParams 0) as [cur|] eqn:Hcur.
    + apply (alarm_time_bomb engine txParams cur Hcur).
      unfold mentions in Hm. apply existsb_exists in Hm as [flag [Hin Hinc]].
      apply existsb_exists. exists flag. rewrite Hinc. auto.
    + unfold TimeTravelAnalyzer.runTimeTravelSimulation in Hm. rewrite Hcur in Hm.
      discriminate.
  - intros Hb. apply (time_bomb_flag engine txParams Hb).
  - destruct (runAt engine txParams 0) as [cur|] eqn:Hcur.
    + destruct (run_time_travel engine txParams cur Hcur) as (Hts & _ & _ & Hflags).
      rewrite Hts, Hflags. intros Hnone.
      apply concat_nil_Forall, List.Forall_forall. intros l Hl.
      apply in_map_iff in Hl as [f [<- Hf]].
      unfold TimeTravelAnalyzer.flagsOf.
      assert (Hdiv : TimeTravelAnalyzer.divergesFromCurrent f = false).
      { apply not_true_is_false. intros Hd.
        assert (Hex : existsb TimeTravelAnalyzer.divergesFromCurrent
                        (concat (map (futureOf engine txParams (status cur))
                                     TimeTravelAnalyzer.timeOffsets)) = true)
          by (apply existsb_exists; exists f; auto).
        congruence. }
      rewrite Hdiv. reflexivity.
    + unfold TimeTravelAnalyzer.runTimeTravelSimulation. rewrite Hcur. reflexivity.
Qed.

Lemma time_bomb_iff_witness :
  TimeTravelAnalyzer.riskFlags
    (TimeTravelAnalyzer.runTimeTravelSimulation Fixtures.benignEngine Fixtures.tx) = [].
Proof.
  refine (proj2 (time_bomb_iff Fixtures.benignEngine Fixtures.tx) _).
  reflexivity.
Defined.

(** X16. The combined verdict of the two simulations.  The overall score
    lies between 0 and 100.  The analysis reports a scam exactly when the
    counterfactual run found a honeypot or the time-travel run found a
    time bomb; a honeypot gives the score 100, a time bomb a score of at
    least 50, and a scam always gets the summary that tells the user not
    to interact. *)
Theorem comprehensive_analysis (engine : SimulationEngine) (txParams : TxParams)
        (ownerAddress deployerAddress : option string) :
  let a := AdvancedSimulator.runComprehensiveAnalysis
             engine txParams ownerAddress deployerAddress in
  0 <= AdvancedSimulator.overallRiskScore a <= 100
  /\ (AdvancedSimulator.isScam a = true
      <-> CounterfactualAnalyzer.isHoneypot (AdvancedSimulator.counterfactual a) = true
          \/ timeBomb engine txParams)
  /\ (CounterfactualAnalyzer.isHoneypot (AdvancedSimulator.counterfactual a) = true ->
      AdvancedSimulator.overallRiskScore a = 100)
  /\ (timeBomb engine txParams -> 50 <= AdvancedSimulator.overallRiskScore a)
  /\ (AdvancedSimulator.isScam a = true ->
      AdvancedSimulator.overallSummary a = "SCAM DETECTED: DO NOT INTERACT.").
Proof.
  cbn zeta. unfold AdvancedSimulator.runComprehensiveAnalysis.
  set (tt := TimeTravelAnalyzer.runTimeTravelSimulation engine txParams).
  set (cf := CounterfactualAnalyzer.runCounterfactualSimulation
               engine txParams ownerAddress deployerAddress).
  destruct (counterfactual_run engine txParams ownerAddress deployerAddress)
    as (Hw & _ & _ & Hscore & Hhp & _).
  fold cf in Hw, Hscore, Hhp.
  assert (Hrange : 0 <= CounterfactualAnalyzer.riskScore cf)
    by (destruct Hscore as [<-|[<-|[<-|[<-|[]]]]]; lia).
  unfold AdvancedSimulator.combine.
  cbn [AdvancedSimulator.overallRiskScore AdvancedSimulator.isScam
       AdvancedSimulator.counterfactual AdvancedSimulator.overallSummary].
  rewrite Hw, orb_false_r.
  change (existsb (fun f => Js.includes f "TIME-BOMB") (TimeTravelAnalyzer.riskFlags tt))
    with (mentions "TIME-BOMB" (TimeTravelAnalyzer.riskFlags tt)).
  pose proof (time_bomb_iff engine txParams) as [Hbomb _]. fold tt in Hbomb.
  split.
  { destruct (TimeTravelAnalyzer.isTimeSensitive tt);
      [destruct (mentions _ _)|]; lia. }
  split.
  { rewrite orb_true_iff. split.
    - intros [Hh|Hex]; [left; exact Hh|right].
      destruct (runAt engine txParams 0) as [cur|] eqn:Hcur.
      + exact (alarm_time_bomb engine txParams cur Hcur Hex).
      + unfold tt, TimeTravelAnalyzer.runTimeTravelSimulation in Hex.
        rewrite Hcur in Hex. discriminate.
    - intros [Hh|Hb]; [left; exact Hh|right].
      apply Hbomb in Hb. unfold mentions in Hb.
      apply existsb_exists in Hb as [flag [Hin Hinc]].
      apply existsb_exists. exists flag. rewrite Hinc. auto. }
  split.
  { intros Hh. apply Hhp in Hh.
    destruct (TimeTravelAnalyzer.isTimeSensitive tt);
      [destruct (mentions _ _)|]; lia. }
  split.
  { intros Hb. destruct (time_bomb_flag engine txParams Hb) as [Hm Hts].
    fold tt in Hm, Hts. rewrite Hts, Hm. lia. }
  intros Hscam. rewrite Hscam. reflexivity.
Qed.

Lemma comprehensive_analysis_witness :
  AdvancedSimulator.overallRiskScore
    (AdvancedSimulator.runComprehensiveAnalysis Fixtures.honeypotEngine Fixtures.tx
       (Some (Addr.toString Fixtures.addrOwner)) None) = 100.
Proof.
  refine (proj1 (proj2 (proj2
            (comprehensive_analysis Fixtures.honeypotEngine Fixtures.tx
               (Some (Addr.toString Fixtures.addrOwner)) None))) _).
  vm_compute. reflexivity.
Defined.

(** ** The feature vector *)

Section FeatureRange.
Local Open Scope Q_scope.

Lemma ofNat_nonneg (n : nat) : 0 <= MLService.ofNat n.
Proof. unfold MLService.ofNat. change 0 with (inject_Z 0). rewrite <- Zle_Qle. lia. Qed.

Lemma ofNat_le (a b : nat) : (a <= b)%nat -> MLService.ofNat a <= MLService.ofNat b.
Proof. intros H. unfold MLService.ofNat. rewrite <- Zle_Qle. lia. Qed.

Lemma ofNat_pos (n : nat) : (0 < n)%nat -> 0 < MLService.ofNat n.
Proof. intros H. unfold MLService.ofNat. change 0 with (inject_Z 0). rewrite <- Zlt_Qlt. lia. Qed.

Lemma qmin_le_l (a b : Q) : MLService.qmin a b <= a.
Proof.
  unfold MLService.qmin. destruct (Qle_bool a b) eqn:E.
  - apply Qle_refl.
  - apply Qlt_le_weak, Qnot_le_lt. intros H. apply Qle_bool_iff in H. congruence.
Qed.

Lemma qmin_nonneg (a b : Q) : 0 <= a -> 0 <= b -> 0 <= MLService.qmin a b.
Proof. intros Ha Hb. unfold MLService.qmin. destruct (Qle_bool a b); assumption. Qed.

Lemma qmin_unit (x : Q) : 0 <= x -> inUnit (MLService.qmin 1 x).
Proof.
  intros Hx. split; [apply qmin_nonneg; [discriminate|exact Hx]|apply qmin_le_l].
Qed.

Lemma qmax_unit (x q : Q) : inUnit x -> inUnit q -> inUnit (MLService.qmax x q).
Proof. intros Hx Hq. unfold MLService.qmax. destruct (Qle_bool x q); assumption. Qed.

Lemma b2q_nonneg (b : bool) (q : Q) : 0 <= q -> 0 <= MLService.b2q b q.
Proof. intros Hq. destruct b; [exact Hq|apply Qle_refl]. Qed.

Lemma ratio_nonneg (a b : Q) : 0 <= a -> 0 < b -> 0 <= a / b.
Proof.
  intros Ha Hb. apply Qle_shift_div_l; [exact Hb|]. rewrite Qmult_0_l. exact Ha.
Qed.

Lemma ratio_unit (a b : nat) :
  (a <= b)%nat -> (0 < b)%nat -> inUnit (MLService.ofNat a / MLService.ofNat b).
Proof.
  intros Hab Hb. split.
  - apply ratio_nonneg; [apply ofNat_nonneg|apply ofNat_pos; exact Hb].
  - apply Qle_shift_div_r; [apply ofNat_pos; exact Hb|].
    rewrite Qmult_1_l. apply ofNat_le. exact Hab.
Qed.

Lemma countIf_le {A} (p : A -> bool) (xs : list A) :
  (MLService.countIf p xs <= length xs)%nat.
Proof.
  unfold MLService.countIf. induction xs as [|x xs IH]; [reflexivity|].
  cbn. destruct (p x); cbn; lia.
Qed.

Lemma prod_nonneg (a b : Q) : 0 <= a -> 0 <= b -> 0 <= a * b.
Proof. apply Qmult_le_0_compat. Qed.

Lemma sum_nonneg (a b : Q) : 0 <= a -> 0 <= b -> 0 <= a + b.
Proof. intros Ha Hb. rewrite <- (Qplus_0_l 0). apply Qplus_le_compat; assumption. Qed.

Lemma qmax_ten_pos (x : Q) : 0 < MLService.qmax 10 x.
Proof.
  unfold MLService.qmax. destruct (Qle_bool 10 x) eqn:E; [|reflexivity].
  apply Qle_bool_iff in E. eapply Qlt_le_trans; [|exact E]. reflexivity.
Qed.

End FeatureRange.

Lemma fold_min_le (h : Z) (gs : list Z) : fold_right Z.min h gs <= h.
Proof. induction gs as [|g gs IH]; cbn; lia. Qed.

Lemma fold_max_ge (h : Z) (gs : list Z) : h <= fold_right Z.max h gs.
Proof. induction gs as [|g gs IH]; cbn; lia. Qed.

Lemma fold_min_pos (h : Z) (gs : list Z) :
  0 < h -> (forall g, In g gs -> 0 < g) -> 0 < fold_right Z.min h gs.
Proof.
  intros Hh. induction gs as [|g gs IH]; intros Hall; cbn; [exact Hh|].
  assert (0 < g) by (apply Hall; left; reflexivity).
  assert (0 < fold_right Z.min h gs) by (apply IH; intros x Hx; apply Hall; right; exact Hx).
  lia.
Qed.

Lemma gas_spread (gs : list Z) :
  (forall g, In g gs -> 0 < g) -> gs <> [] ->
  0 < MLService.minOf gs /\ MLService.minOf gs <= MLService.maxOf gs.
Proof.
  intros Hall Hne. destruct gs as [|h gs]; [contradiction|].
  unfold MLService.minOf, MLService.maxOf. cbn [hd].
  assert (0 < h) by (apply Hall; left; reflexivity).
  split.
  - apply fold_min_pos; assumption.
  - pose proof (fold_min_le h (h :: gs)). pose proof (fold_max_ge h (h :: gs)). lia.
Qed.

Lemma gas_ratio_unit (gs : list Z) :
  (forall g, In g gs -> 0 < g) -> gs <> [] ->
  inUnit (inject_Z (MLService.maxOf gs - MLService.minOf gs) / inject_Z (MLService.maxOf gs)).
Proof.
  intros Hall Hne. destruct (gas_spread gs Hall Hne) as [Hpos Hle].
  assert (Hmax : (0 < inject_Z (MLService.maxOf gs))%Q).
  { change 0%Q with (inject_Z 0). rewrite <- Zlt_Qlt. lia. }
  split.
  - apply ratio_nonneg; [|exact Hmax].
    change 0%Q with (inject_Z 0). rewrite <- Zle_Qle. lia.
  - apply Qle_shift_div_r; [exact Hmax|]. rewrite Qmult_1_l. rewrite <- Zle_Qle. lia.
Qed.

(** X17. Every entry of the feature vector lies between 0 and 1, whatever
    the analyses returned, provided the risk score of the security report
    is not negative. *)
Theorem feature_vector_range (simulationStatus : string)
        (advancedAnalysis : option AdvancedSimulator.AdvancedAnalysis)
        (securityReport : option SecurityAnalyzer.SecurityReport)
        (traceEvents : option (list string))
        (proxyInfo : option ProxyDetector.ProxyInfo) :
  (forall r, securityReport = Some r -> 0 <= SecurityAnalyzer.riskScore r) ->
  let v := MLService.buildFeatureVector simulationStatus advancedAnalysis securityReport
             traceEvents proxyInfo in
  inUnit (MLService.sim_success_rate v)
  /\ inUnit (MLService.owner_privilege_ratio v)
  /\ inUnit (MLService.time_variance_score v)
  /\ inUnit (MLService.gated_branch_ratio v)
  /\ inUnit (MLService.mint_transfer_ratio v)
  /\ inUnit (MLService.suspicious_opcode_density v)
  /\ inUnit (MLService.proxy_depth_normalized v)
  /\ inUnit (MLService.sload_density v)
  /\ inUnit (MLService.bytecode_entropy v)
  /\ inUnit (MLService.counterfactual_risk v)
  /\ inUnit (MLService.time_bomb_risk v)
  /\ inUnit (MLService.gas_anomaly_score v)
  /\ inUnit (MLService.security_report_risk v)
  /\ inUnit (MLService.flag_density v)
  /\ inUnit (MLService.revert_rate v).
Proof.
  intros Hscore v. subst v. unfold MLService.buildFeatureVector.
  cbn [MLService.sim_success_rate MLService.owner_privilege_ratio
       MLService.time_variance_score MLService.gated_branch_ratio
       MLService.mint_transfer_ratio MLService.suspicious_opcode_density
       MLService.proxy_depth_normalized MLService.sload_density
       MLService.bytecode_entropy MLService.counterfactual_risk
       MLService.time_bomb_risk MLService.gas_anomaly_score
       MLService.security_report_risk MLService.flag_density MLService.revert_rate].
  set (actors := default [] (CounterfactualAnalyzer.actorResults
                               <$> (AdvancedSimulator.counterfactual <$> advancedAnalysis))).
  assert (Hq2 : (0 <= 2 # 10)%Q) by discriminate.
  assert (Hq3 : (0 <= 3 # 10)%Q) by discriminate.
  assert (Hq4 : (0 <= 4 # 10)%Q) by discriminate.
  assert (Hq5 : (0 <= 5 # 10)%Q) by discriminate.
  assert (Hq1 : (0 <= 1 # 10)%Q) by discriminate.
  assert (Hq25 : (0 <= 25 # 100)%Q) by discriminate.
  repeat match goal with |- _ /\ _ => split end.
  - destruct (Nat.ltb_spec 0 (length actors)).
    + apply ratio_unit; [apply countIf_le|assumption].
    + destruct (Js.startsWith _ _); split; discriminate.
  - apply qmin_unit. destruct (AdvancedSimulator.counterfactual <$> advancedAnalysis) as [c|];
      [|apply Qle_refl].
    destruct (0 <? _)%nat; repeat apply sum_nonneg; try apply b2q_nonneg;
      try apply qmin_nonneg; try apply prod_nonneg; try apply ofNat_nonneg; assumption.
  - apply qmin_unit. destruct (AdvancedSimulator.timeTravel <$> advancedAnalysis) as [t|];
      [|apply Qle_refl].
    destruct (0 <? _)%nat; repeat apply sum_nonneg; try apply b2q_nonneg;
      try apply qmin_nonneg; try apply prod_nonneg; try apply ofNat_nonneg; assumption.
  - apply qmin_unit, prod_nonneg; [apply ofNat_nonneg|assumption].
  - apply qmin_unit, prod_nonneg; [apply ofNat_nonneg|assumption].
  - destruct traceEvents as [events|]; [|split; discriminate].
    destruct (0 <? length events)%nat; [|split; discriminate].
    apply qmin_unit, ratio_nonneg; [apply ofNat_nonneg|apply qmax_ten_pos].
  - apply qmin_unit. destruct proxyInfo as [p|]; [destruct (ProxyDetector.isProxy p)|];
      discriminate.
  - destruct traceEvents as [events|]; apply qmin_unit; [|discriminate].
    apply prod_nonneg; [|discriminate].
    apply ratio_nonneg; [apply ofNat_nonneg|apply ofNat_pos; lia].
  - split; discriminate.
  - apply qmin_unit. destruct (AdvancedSimulator.counterfactual <$> advancedAnalysis) as [c|];
      [|apply Qle_refl].
    repeat apply sum_nonneg; apply b2q_nonneg; assumption.
  - destruct (AdvancedSimulator.timeTravel <$> advancedAnalysis) as [t|]; [|split; discriminate].
    apply qmin_unit, prod_nonneg; [apply ofNat_nonneg|assumption].
  - set (gasValues := List.filter _ _).
    assert (Hg : inUnit (if (2 <=? length gasValues)%nat
                         then if 0 <? MLService.maxOf gasValues
                              then MLService.qmin 1
                                     (inject_Z (MLService.maxOf gasValues
                                                - MLService.minOf gasValues)
                                      / inject_Z (MLService.maxOf gasValues))
                              else 0%Q
                         else 0%Q)).
    { destruct (Nat.leb_spec 2 (length gasValues)) as [Hlen|]; [|split; discriminate].
      destruct (0 <? MLService.maxOf gasValues); [|split; discriminate].
      apply qmin_unit.
      assert (Hall : forall g, In g gasValues -> 0 < g).
      { intros g Hin. apply filter_In in Hin as [_ Hpos]. apply Z.ltb_lt. exact Hpos. }
      assert (Hne : gasValues <> []) by (intros He; rewrite He in Hlen; cbn in Hlen; lia).
      apply (gas_ratio_unit gasValues Hall Hne). }
    destruct (existsb _ _); [|exact Hg].
    apply qmax_unit; [exact Hg|split; discriminate].
  - apply qmin_unit. destruct securityReport as [r|]; [|discriminate].
    cbn [fmap option_fmap option_map default].
    apply ratio_nonneg; [|reflexivity].
    change 0%Q with (inject_Z 0). rewrite <- Zle_Qle. apply Hscore. reflexivity.
  - apply qmin_unit, ratio_nonneg; [apply ofNat_nonneg|reflexivity].
  - destruct (Nat.ltb_spec 0 (length actors)).
    + apply ratio_unit; [apply countIf_le|assumption].
    + destruct (Js.startsWith _ _); split; discriminate.
Qed.

Lemma feature_vector_range_witness :
  inUnit (MLService.security_report_risk
            (MLService.buildFeatureVector "Success" None
               (Some (Fixtures.reportOf 780 ["Simulation Reverted"])) None None)).
Proof.
  refine (proj1 (proj2 (proj2 (proj2 (proj2 (proj2 (proj2 (proj2 (proj2 (proj2 (proj2
            (proj2 (proj2
               (feature_vector_range "Success" None
                  (Some (Fixtures.reportOf 780 ["Simulation Reverted"])) None None _)))))))))))))).
  intros r Hr. injection Hr as <-. vm_compute. discriminate.
Defined.

(** ** The pipeline of [simulateTransaction] *)

Lemma pushUnique_spec (r : SecurityAnalyzer.SecurityReport) (f : string) :
  sameButFlags r (EvmExecutor.pushUnique r f)
  /\ SecurityAnalyzer.flags (EvmExecutor.pushUnique r f)
     = (SecurityAnalyzer.flags r ++ if existsb (String.eqb f) (SecurityAnalyzer.flags r)
                                    then [] else [f])%list.
Proof.
  unfold EvmExecutor.pushUnique.
  destruct (existsb (String.eqb f) (SecurityAnalyzer.flags r)).
  - rewrite app_nil_r. split; reflexivity.
  - split; reflexivity.
Qed.

Lemma existsb_eqb_In (f : string) (l : list string) :
  existsb (String.eqb f) l = true <-> In f l.
Proof.
  rewrite existsb_exists. split.
  - intros [x [Hx He]]. apply String.eqb_eq in He. subst x. exact Hx.
  - intros Hin. exists f. split; [exact Hin|apply String.eqb_refl].
Qed.

Lemma fold_pushUnique (fs : list string) :
  forall r : SecurityAnalyzer.SecurityReport,
    let r' := fold_left EvmExecutor.pushUnique fs r in
    sameButFlags r r'
    /\ (exists added, SecurityAnalyzer.flags r' = (SecurityAnalyzer.flags r ++ added)%list
                      /\ (forall f, In f added -> In f fs))
    /\ (forall f, In f fs -> In f (SecurityAnalyzer.flags r'))
    /\ (NoDup (SecurityAnalyzer.flags r) -> NoDup (SecurityAnalyzer.flags r')).
Proof.
  induction fs as [|f fs IH]; intros r; cbn [fold_left].
  - split; [reflexivity|]. split; [exists []; rewrite app_nil_r; split; [reflexivity|intros f []]|].
    split; [intros f []|auto].
  - destruct (pushUnique_spec r f) as [Hsame Hflags].
    destruct (IH (EvmExecutor.pushUnique r f)) as (Hsame' & [added [Hadd Hfrom]] & Hall & Hnd).
    split; [unfold sameButFlags in *; congruence|].
    split.
    { rewrite Hadd, Hflags, <- app_assoc. eexists. split; [reflexivity|].
      intros x Hx. apply in_app_iff in Hx as [Hx|Hx].
      - destruct (existsb _ _); [destruct Hx|]. destruct Hx as [<-|[]]. left. reflexivity.
      - right. apply Hfrom. exact Hx. }
    split.
    { intros x [<-|Hx]; [|apply Hall; exact Hx].
      rewrite Hadd, Hflags. apply in_app_iff. left.
      destruct (existsb (String.eqb f) (SecurityAnalyzer.flags r)) eqn:He.
      - rewrite app_nil_r. apply existsb_eqb_In. exact He.
      - apply in_app_iff. right. left. reflexivity. }
    intros Hnodup. apply Hnd. rewrite Hflags.
    destruct (existsb (String.eqb f) (SecurityAnalyzer.flags r)) eqn:He.
    + rewrite app_nil_r. exact Hnodup.
    + apply NoDup_app. split; [exact Hnodup|]. split.
      * intros x Hx Hx'. apply list_elem_of_In in Hx, Hx'. destruct Hx' as [<-|[]].
        apply existsb_eqb_In in Hx. congruence.
      * apply NoDup_singleton.
Qed.

Lemma mergeAdvanced_parts (adv : AdvancedSimulator.AdvancedAnalysis)
      (report : SecurityAnalyzer.SecurityReport) :
  SecurityAnalyzer.riskScore (EvmExecutor.mergeAdvanced adv report)
  = Z.max (SecurityAnalyzer.riskScore report) (AdvancedSimulator.overallRiskScore adv)
  /\ SecurityAnalyzer.isHoneypot (EvmExecutor.mergeAdvanced adv report)
     = SecurityAnalyzer.isHoneypot report || AdvancedSimulator.isScam adv
  /\ SecurityAnalyzer.ownerAddress (EvmExecutor.mergeAdvanced adv report)
     = SecurityAnalyzer.ownerAddress report
  /\ exists added,
       SecurityAnalyzer.flags (EvmExecutor.mergeAdvanced adv report)
       = (SecurityAnalyzer.flags report ++ added)%list.
Proof.
  unfold EvmExecutor.mergeAdvanced.
  set (r1 := if AdvancedSimulator.isScam adv then _ else report).
  assert (H1 : SecurityAnalyzer.flags r1 = SecurityAnalyzer.flags report
               /\ SecurityAnalyzer.riskScore r1
                  = (if AdvancedSimulator.isScam adv
                     then Z.max (SecurityAnalyzer.riskScore report)
                                (AdvancedSimulator.overallRiskScore adv)
                     else SecurityAnalyzer.riskScore report)
               /\ SecurityAnalyzer.isHoneypot r1
                  = SecurityAnalyzer.isHoneypot report || AdvancedSimulator.isScam adv
               /\ SecurityAnalyzer.ownerAddress r1 = SecurityAnalyzer.ownerAddress report).
  { subst r1. destruct (AdvancedSimulator.isScam adv); cbn;
      rewrite ?orb_true_r, ?orb_false_r; auto. }
  destruct H1 as (Hf1 & Hs1 & Hh1 & Ho1).
  set (tf := TimeTravelAnalyzer.riskFlags (AdvancedSimulator.timeTravel adv)).
  set (cf := CounterfactualAnalyzer.riskFlags (AdvancedSimulator.counterfactual adv)).
  set (df := map EvmExecutor.diffFlag
                 (CounterfactualAnalyzer.privilegeDiff (AdvancedSimulator.counterfactual adv))).
  destruct (fold_pushUnique tf r1) as (Hsame2 & [a2 [Hadd2 _]] & _).
  set (r2 := fold_left EvmExecutor.pushUnique tf r1) in *.
  destruct (fold_pushUnique cf r2) as (Hsame3 & [a3 [Hadd3 _]] & _).
  set (r3 := fold_left EvmExecutor.pushUnique cf r2) in *.
  destruct (fold_pushUnique df r3) as (Hsame4 & [a4 [Hadd4 _]] & _).
  set (r4 := fold_left EvmExecutor.pushUnique df r3) in *.
  assert (Hsame : sameButFlags r1 r4) by (unfold sameButFlags in *; congruence).
  assert (Hscore : SecurityAnalyzer.riskScore r4 = SecurityAnalyzer.riskScore r1)
    by (apply (f_equal SecurityAnalyzer.riskScore) in Hsame; symmetry; exact Hsame).
  assert (Hhp : SecurityAnalyzer.isHoneypot r4 = SecurityAnalyzer.isHoneypot r1)
    by (apply (f_equal SecurityAnalyzer.isHoneypot) in Hsame; symmetry; exact Hsame).
  assert (Hown : SecurityAnalyzer.ownerAddress r4 = SecurityAnalyzer.ownerAddress r1)
    by (apply (f_equal SecurityAnalyzer.ownerAddress) in Hsame; symmetry; exact Hsame).
  cbn [SecurityAnalyzer.set_riskScore SecurityAnalyzer.riskScore SecurityAnalyzer.isHoneypot
       SecurityAnalyzer.ownerAddress SecurityAnalyzer.flags].
  split; [rewrite Hscore, Hs1; destruct (AdvancedSimulator.isScam adv); lia|].
  split; [congruence|]. split; [congruence|].
  exists (a2 ++ a3 ++ a4)%list.
  rewrite Hadd4, Hadd3, Hadd2, Hf1, <- !app_assoc. reflexivity.
Qed.

(** X18. Merging the advanced analysis into the security report never
    loses anything: the risk score becomes the larger of the report's and
    the overall score; the report is marked a honeypot when it already was
    or the analysis calls a scam; the flags of the report stay in place as
    a prefix and every flag that follows comes from the analysis; every
    flag and every privilege difference of the analysis ends up among the
    flags; and no flag is duplicated by the merge. *)
Theorem mergeAdvanced_spec (adv : AdvancedSimulator.AdvancedAnalysis)
        (report : SecurityAnalyzer.SecurityReport) :
  let merged := EvmExecutor.mergeAdvanced adv report in
  SecurityAnalyzer.riskScore merged
  = Z.max (SecurityAnalyzer.riskScore report) (AdvancedSimulator.overallRiskScore adv)
  /\ SecurityAnalyzer.isHoneypot merged
     = SecurityAnalyzer.isHoneypot report || AdvancedSimulator.isScam adv
  /\ SecurityAnalyzer.ownerAddress merged = SecurityAnalyzer.ownerAddress report
  /\ (exists added,
        SecurityAnalyzer.flags merged = (SecurityAnalyzer.flags report ++ added)%list
        /\ forall f, In f added -> In f (advancedFlags adv))
  /\ (forall f, In f (advancedFlags adv) -> In f (SecurityAnalyzer.flags merged))
  /\ (NoDup (SecurityAnalyzer.flags report) -> NoDup (SecurityAnalyzer.flags merged)).
Proof.
  cbn zeta. unfold EvmExecutor.mergeAdvanced, advancedFlags.
  set (r1 := if AdvancedSimulator.isScam adv then _ else report).
  assert (H1 : SecurityAnalyzer.flags r1 = SecurityAnalyzer.flags report
               /\ SecurityAnalyzer.riskScore r1
                  = (if AdvancedSimulator.isScam adv
                     then Z.max (SecurityAnalyzer.riskScore report)
                                (AdvancedSimulator.overallRiskScore adv)
                     else SecurityAnalyzer.riskScore report)
               /\ SecurityAnalyzer.isHoneypot r1
                  = SecurityAnalyzer.isHoneypot report || AdvancedSimulator.isScam adv
               /\ SecurityAnalyzer.ownerAddress r1 = SecurityAnalyzer.ownerAddress report).
  { subst r1. destruct (AdvancedSimulator.isScam adv); cbn;
      rewrite ?orb_true_r, ?orb_false_r; auto. }
  destruct H1 as (Hf1 & Hs1 & Hh1 & Ho1).
  set (tf := TimeTravelAnalyzer.riskFlags (AdvancedSimulator.timeTravel adv)).
  set (cf := CounterfactualAnalyzer.riskFlags (AdvancedSimulator.counterfactual adv)).
  set (df := map EvmExecutor.diffFlag
                 (CounterfactualAnalyzer.privilegeDiff (AdvancedSimulator.counterfactual adv))).
  destruct (fold_pushUnique tf r1) as (Hsame2 & [a2 [Hadd2 Hfrom2]] & Hall2 & Hnd2).
  set (r2 := fold_left EvmExecutor.pushUnique tf r1) in *.
  destruct (fold_pushUnique cf r2) as (Hsame3 & [a3 [Hadd3 Hfrom3]] & Hall3 & Hnd3).
  set (r3 := fold_left EvmExecutor.pushUnique cf r2) in *.
  destruct (fold_pushUnique df r3) as (Hsame4 & [a4 [Hadd4 Hfrom4]] & Hall4 & Hnd4).
  set (r4 := fold_left EvmExecutor.pushUnique df r3) in *.
  assert (Hsame : sameButFlags r1 r4) by (unfold sameButFlags in *; congruence).
  assert (Hscore : SecurityAnalyzer.riskScore r4 = SecurityAnalyzer.riskScore r1)
    by (apply (f_equal SecurityAnalyzer.riskScore) in Hsame; symmetry; exact Hsame).
  assert (Hhp : SecurityAnalyzer.isHoneypot r4 = SecurityAnalyzer.isHoneypot r1)
    by (apply (f_equal SecurityAnalyzer.isHoneypot) in Hsame; symmetry; exact Hsame).
  assert (Hown : SecurityAnalyzer.ownerAddress r4 = SecurityAnalyzer.ownerAddress r1)
    by (apply (f_equal SecurityAnalyzer.ownerAddress) in Hsame; symmetry; exact Hsame).
  cbn [SecurityAnalyzer.set_riskScore SecurityAnalyzer.riskScore SecurityAnalyzer.isHoneypot
       SecurityAnalyzer.ownerAddress SecurityAnalyzer.flags].
  split.
  { rewrite Hscore, Hs1. destruct (AdvancedSimulator.isScam adv); lia. }
  split; [congruence|]. split; [congruence|].
  split.
  { exists (a2 ++ a3 ++ a4)%list. split.
    - rewrite Hadd4, Hadd3, Hadd2, Hf1, <- !app_assoc. reflexivity.
    - intros f Hf. rewrite !in_app_iff in *. destruct Hf as [Hf|[Hf|Hf]]; auto. }
  split.
  { intros f Hf. rewrite !in_app_iff in Hf. destruct Hf as [Hf|[Hf|Hf]].
    - rewrite Hadd4, Hadd3. rewrite !in_app_iff. left. left. apply Hall2. exact Hf.
    - rewrite Hadd4. rewrite in_app_iff. left. apply Hall3. exact Hf.
    - apply Hall4. exact Hf. }
  intros Hnd. apply Hnd4, Hnd3, Hnd2. rewrite Hf1. exact Hnd.
Qed.

Lemma mergeAdvanced_spec_witness :
  NoDup (SecurityAnalyzer.flags
           (EvmExecutor.mergeAdvanced
              (AdvancedSimulator.runComprehensiveAnalysis Fixtures.honeypotEngine Fixtures.tx
                 (Some (Addr.toString Fixtures.addrOwner)) None)
              (Fixtures.reportOf 10 ["Contract has an Owner: 0x01"]))).
Proof.
  refine (proj2 (proj2 (proj2 (proj2 (proj2
            (mergeAdvanced_spec
               (AdvancedSimulator.runComprehensiveAnalysis Fixtures.honeypotEngine Fixtures.tx
                  (Some (Addr.toString Fixtures.addrOwner)) None)
               (Fixtures.reportOf 10 ["Contract has an Owner: 0x01"])))))) _).
  apply NoDup_singleton.
Defined.

Section Verdict.
Local Open Scope Q_scope.

(** X19. What the final verdict guarantees.  SAFE is only given when
    neither the report nor the advanced analysis marks a scam, the risk
    score is below 50 and the classifier, if it answered, gave a scam
    probability of at most 0.4.  Without a rule-based scam mark a risk
    score of 50 or more gives WARN with confidence 80 whatever the
    classifier says.  The confidence lies between 0 and 100 when the
    classifier's probability lies between 0 and 1, and a verdict from the
    classifier needs an answer of the classifier. *)
Theorem assembleVerdict_sound (sr : option SecurityAnalyzer.SecurityReport)
        (adv : option AdvancedSimulator.AdvancedAnalysis)
        (ml : option MLService.CalibratedResponse) :
  let v := EvmExecutor.assembleVerdict sr adv ml in
  (EvmExecutor.verdict v = MLService.SAFE ->
     (forall r, sr = Some r ->
        SecurityAnalyzer.isHoneypot r = false /\ (SecurityAnalyzer.riskScore r < 50)%Z)
     /\ (forall a, adv = Some a ->
           AdvancedSimulator.isScam a = false
           /\ CounterfactualAnalyzer.isHoneypot (AdvancedSimulator.counterfactual a) = false
           /\ CounterfactualAnalyzer.hasOwnerPrivileges (AdvancedSimulator.counterfactual a)
              = false)
     /\ (forall m, ml = Some m -> MLService.scam_probability m <= 4 # 10))
  /\ (forall r, sr = Some r -> SecurityAnalyzer.isHoneypot r = false ->
        (50 <= SecurityAnalyzer.riskScore r)%Z -> adv = None ->
        EvmExecutor.verdict v = MLService.WARN /\ EvmExecutor.confidence v = 80)
  /\ ((forall m, ml = Some m ->
         0 <= MLService.scam_probability m /\ MLService.scam_probability m <= 1) ->
      0 <= EvmExecutor.confidence v /\ EvmExecutor.confidence v <= 100)
  /\ (EvmExecutor.source v = "ML_CALIBRATED" -> ml <> None).
Proof.
  cbn zeta. unfold EvmExecutor.assembleVerdict.
  split; [|split; [|split]].
  - destruct sr as [r|], adv as [a|]; cbn [fmap option_fmap option_map default];
      repeat match goal with
             | |- context [SecurityAnalyzer.isHoneypot ?r] =>
                 destruct (SecurityAnalyzer.isHoneypot r) eqn:?
             | |- context [AdvancedSimulator.isScam ?a] =>
                 destruct (AdvancedSimulator.isScam a) eqn:?
             | |- context [CounterfactualAnalyzer.isHoneypot ?c] =>
                 destruct (CounterfactualAnalyzer.isHoneypot c) eqn:?
             | |- context [CounterfactualAnalyzer.hasOwnerPrivileges ?c] =>
                 destruct (CounterfactualAnalyzer.hasOwnerPrivileges c) eqn:?
             end; cbn [orb]; try (cbn; discriminate);
      match goal with
      | |- context [(50 <=? ?x)%Z] => destruct (Z.leb_spec 50 x)
      end; try (cbn; discriminate);
      (destruct ml as [m|];
       [destruct (Qle_bool (MLService.scam_probability m) (7 # 10)) eqn:H7;
        [destruct (Qle_bool (MLService.scam_probability m) (4 # 10)) eqn:H4|]|];
       cbn; try discriminate; intros _;
       (split; [|split]); intros ? Heq; try discriminate;
       inversion Heq; subst; repeat split; try assumption;
       try (apply Qle_bool_iff; assumption)).
  - intros r -> Hhp Hscore ->. cbn [fmap option_fmap option_map default].
    rewrite Hhp. cbn [orb].
    match goal with
    | |- context [(50 <=? ?x)%Z] => destruct (Z.leb_spec 50 x) as [_|Hlt]
    end; [cbn; split; reflexivity|cbn in Hlt; lia].
  - intros Hml.
    destruct (_ || _); [cbn; split; discriminate|].
    destruct (50 <=? _)%Z; [cbn; split; discriminate|].
    destruct ml as [m|]; [|cbn; split; discriminate].
    destruct (Hml m eq_refl) as [H0 H1].
    destruct (negb _); [|destruct (negb _)]; cbn [EvmExecutor.confidence]; split; Lqa.lra.
  - destruct (_ || _); [cbn; discriminate|].
    destruct (50 <=? _)%Z; [cbn; discriminate|].
    destruct ml as [m|]; [discriminate|cbn; discriminate].
Qed.

End Verdict.

Lemma assembleVerdict_sound_witness :
  EvmExecutor.verdict
    (EvmExecutor.assembleVerdict (Some (Fixtures.reportOf 60 [])) None None) = MLService.WARN
  /\ EvmExecutor.confidence
       (EvmExecutor.assembleVerdict (Some (Fixtures.reportOf 60 [])) None None) = 80%Q.
Proof.
  refine (proj1 (proj2 (assembleVerdict_sound (Some (Fixtures.reportOf 60 [])) None None))
                (Fixtures.reportOf 60 []) _ _ _ _).
  - reflexivity.
  - reflexivity.
  - vm_compute. discriminate.
  - reflexivity.
Defined.

Lemma reconcile_keeps (advanced : option AdvancedSimulator.AdvancedAnalysis)
      (r : SecurityAnalyzer.SecurityReport) :
  SecurityAnalyzer.isHoneypot (EvmExecutor.reconcile advanced r) = SecurityAnalyzer.isHoneypot r
  /\ SecurityAnalyzer.riskScore (EvmExecutor.reconcile advanced r) = SecurityAnalyzer.riskScore r
  /\ SecurityAnalyzer.flags (EvmExecutor.reconcile advanced r) = SecurityAnalyzer.flags r
  /\ SecurityAnalyzer.ownerAddress (EvmExecutor.reconcile advanced r)
     = SecurityAnalyzer.ownerAddress r.
Proof.
  unfold EvmExecutor.reconcile.
  destruct advanced as [adv|]; [|auto].
  destruct (SecurityAnalyzer.mechanismStory r) as [m|]; [|auto].
  destruct (_ && _); auto.
Qed.

Lemma applyDrift_keeps (d : ScanHistory.DriftAnalysis) (r : SecurityAnalyzer.SecurityReport) :
  SecurityAnalyzer.isHoneypot (EvmExecutor.applyDrift d r) = SecurityAnalyzer.isHoneypot r
  /\ SecurityAnalyzer.riskScore (EvmExecutor.applyDrift d r) = SecurityAnalyzer.riskScore r
  /\ SecurityAnalyzer.ownerAddress (EvmExecutor.applyDrift d r) = SecurityAnalyzer.ownerAddress r
  /\ exists added,
       SecurityAnalyzer.flags (EvmExecutor.applyDrift d r)
       = (SecurityAnalyzer.flags r ++ added)%list
       /\ (added = [] \/ added = [EvmExecutor.riskIncreasedFlag (ScanHistory.riskDelta d)]).
Proof.
  unfold EvmExecutor.applyDrift.
  destruct (ScanHistory.hasDrift d); [destruct (0 <? ScanHistory.riskDelta d)|];
    repeat split; try reflexivity;
    try (exists []; rewrite app_nil_r; auto; fail).
  eexists. split; [reflexivity|]. right. reflexivity.
Qed.

Lemma driftPhase_spec run now to chainId proxyInfo report :
  EvmExecutor.driftPhase run now to chainId proxyInfo report
  = let proxy :=
      (fun p => (ProxyDetector.isProxy p, ProxyDetector.implementationAddress p))
        <$> proxyInfo in
    match run with
    | EvmExecutor.AnalyzeThrows => (None, report, None)
    | EvmExecutor.Returns store =>
        let drift := ScanHistory.analyzeDrift store to report in
        let report' := EvmExecutor.applyDrift drift report in
        (Some drift, report',
         Some (snd (ScanHistory.storeScan store now to chainId report' proxy)))
    | EvmExecutor.StoreThrows store step =>
        let drift := ScanHistory.analyzeDrift store to report in
        let report' := EvmExecutor.applyDrift drift report in
        (Some drift, report',
         Some (ScanHistory.storeScanUntil step store now to chainId report' proxy))
    end.
Proof.
  unfold EvmExecutor.driftPhase. destruct run as [store| |store step]; reflexivity.
Qed.

(** What the history of an address is when a command of [storeScan]
    throws: the record is on the list only when the trim was reached. *)
Lemma historyOf_storeScanUntil step db now a chain report proxy :
  historyOf (ScanHistory.storeScanUntil step db now a chain report proxy) a
  = match step with
    | ScanHistory.AtSetEx | ScanHistory.AtLPush => historyOf db a
    | ScanHistory.AtLTrim =>
        fst (ScanHistory.storeScan db now a chain report proxy) :: historyOf db a
    end.
Proof.
  unfold historyOf, ScanHistory.storeScanUntil, ScanHistory.lPush, ScanHistory.setEx.
  destruct step; cbn [ScanHistory.history]; try reflexivity.
  rewrite lookup_insert_eq. reflexivity.
Qed.

(** The response of [simulateTransaction] for a transaction with a
    destination, in terms of the static report. *)
Lemma simulateTransaction_unfold {S} `{EvmApi S}
      (env : EvmExecutor.Environment S) txParams (to : Address) chainId :
  exists proxyInfo,
    let report0 := staticReport env to chainId in
    let advanced :=
      (fun engine =>
         AdvancedSimulator.runComprehensiveAnalysis
           engine txParams (SecurityAnalyzer.ownerAddress report0) None)
        <$> EvmExecutor.env_engine env in
    let report2 :=
      EvmExecutor.reconcile advanced
        match advanced with
        | Some adv => EvmExecutor.mergeAdvanced adv report0
        | None => report0
        end in
    let phase :=
      EvmExecutor.driftPhase (EvmExecutor.env_redis env) (EvmExecutor.env_now env)
        (Addr.toString to) chainId proxyInfo report2 in
    let resp := fst (EvmExecutor.simulateTransaction env txParams (Some to) chainId) in
    EvmExecutor.securityReport resp = Some (snd (fst phase))
    /\ EvmExecutor.advancedAnalysis resp = advanced
    /\ EvmExecutor.driftAnalysis resp
       = (fun d =>
            {| EvmExecutor.hasDrift := ScanHistory.hasDrift d;
               EvmExecutor.riskDelta := ScanHistory.riskDelta d;
               EvmExecutor.newFlags := ScanHistory.newFlags d;
               EvmExecutor.removedFlags := ScanHistory.removedFlags d;
               EvmExecutor.previousScanTimestamp :=
                 ScanHistory.timestamp <$> ScanHistory.previousScan d |})
           <$> fst (fst phase)
    /\ snd (EvmExecutor.simulateTransaction env txParams (Some to) chainId)
       = snd phase.
Proof.
  unfold EvmExecutor.simulateTransaction, staticReport.
  destruct chainId as [c|].
  - destruct (EvmExecutor.proxyPhase _ _ _) as [[p a] e]. exists (Some p). cbn zeta.
    destruct (EvmExecutor.driftPhase _ _ _ _ _ _) as [[d r] s].
    cbn. repeat split; reflexivity.
  - exists None. cbn zeta.
    destruct (EvmExecutor.driftPhase _ _ _ _ _ _) as [[d r] s].
    cbn. repeat split; reflexivity.
Qed.

(** X20. The report of the response against the static report.  The
    advanced simulation is run for the owner the static analysis found;
    the response's report keeps that owner and every static flag, in
    place; it is marked a honeypot exactly when the static report was or
    the advanced analysis calls a scam, and its risk score is the larger of
    the static score and the overall score of the advanced analysis.  A
    static honeypot mark therefore always ends in BLOCK. *)
Theorem pipeline_report {S} `{EvmApi S}
        (env : EvmExecutor.Environment S) (txParams : TxParams) (to : Address)
        (chainId : option Z) :
  let static := staticReport env to chainId in
  let resp := fst (EvmExecutor.simulateTransaction env txParams (Some to) chainId) in
  EvmExecutor.advancedAnalysis resp
  = (fun engine =>
       AdvancedSimulator.runComprehensiveAnalysis
         engine txParams (SecurityAnalyzer.ownerAddress static) None)
      <$> EvmExecutor.env_engine env
  /\ exists report,
       EvmExecutor.securityReport resp = Some report
       /\ SecurityAnalyzer.ownerAddress report = SecurityAnalyzer.ownerAddress static
       /\ SecurityAnalyzer.isHoneypot report
          = SecurityAnalyzer.isHoneypot static
            || default false (AdvancedSimulator.isScam <$> EvmExecutor.advancedAnalysis resp)
       /\ SecurityAnalyzer.riskScore report
          = Z.max (SecurityAnalyzer.riskScore static)
                  (default (SecurityAnalyzer.riskScore static)
                     (AdvancedSimulator.overallRiskScore <$> EvmExecutor.advancedAnalysis resp))
       /\ (exists added,
             SecurityAnalyzer.flags report = (SecurityAnalyzer.flags static ++ added)%list)
       /\ (SecurityAnalyzer.isHoneypot static = true ->
           EvmExecutor.verdict (EvmExecutor.finalVerdict resp) = MLService.BLOCK).
Proof.
  cbn zeta.
  destruct (simulateTransaction_unfold env txParams to chainId)
    as [proxyInfo (Hrep & Hadv & _ & _)].
  pose proof (simulateTransaction_verdict env txParams (Some to) chainId) as Hverdict.
  cbn zeta in Hverdict.
  set (resp := fst (EvmExecutor.simulateTransaction env txParams (Some to) chainId)) in *.
  set (static := staticReport env to chainId) in *.
  rewrite Hadv. split; [reflexivity|].
  set (advanced := (fun engine => _) <$> EvmExecutor.env_engine env) in *.
  set (report1 := match advanced with
                  | Some adv => EvmExecutor.mergeAdvanced adv static
                  | None => static
                  end) in *.
  destruct (reconcile_keeps advanced report1) as (Hh2 & Hs2 & Hf2 & Ho2).
  set (report2 := EvmExecutor.reconcile advanced report1) in *.
  rewrite driftPhase_spec in Hrep.
  assert (H1 : SecurityAnalyzer.ownerAddress report1 = SecurityAnalyzer.ownerAddress static
               /\ SecurityAnalyzer.isHoneypot report1
                  = SecurityAnalyzer.isHoneypot static
                    || default false (AdvancedSimulator.isScam <$> advanced)
               /\ SecurityAnalyzer.riskScore report1
                  = Z.max (SecurityAnalyzer.riskScore static)
                          (default (SecurityAnalyzer.riskScore static)
                             (AdvancedSimulator.overallRiskScore <$> advanced))
               /\ exists added,
                    SecurityAnalyzer.flags report1
                    = (SecurityAnalyzer.flags static ++ added)%list).
  { subst report1. destruct advanced as [adv|]; cbn [fmap option_fmap option_map default].
    - destruct (mergeAdvanced_parts adv static) as (Hs & Hh & Ho & [added Hadd]).
      repeat split; try assumption. exists added. exact Hadd.
    - rewrite orb_false_r, Z.max_id. repeat split. exists []. rewrite app_nil_r. reflexivity. }
  destruct H1 as (Ho1 & Hh1 & Hs1 & [added1 Hadd1]).
  assert (H3 : exists report,
             EvmExecutor.securityReport resp = Some report
             /\ SecurityAnalyzer.isHoneypot report = SecurityAnalyzer.isHoneypot report2
             /\ SecurityAnalyzer.riskScore report = SecurityAnalyzer.riskScore report2
             /\ SecurityAnalyzer.ownerAddress report = SecurityAnalyzer.ownerAddress report2
             /\ exists added, SecurityAnalyzer.flags report
                              = (SecurityAnalyzer.flags report2 ++ added)%list).
  { destruct (EvmExecutor.env_redis env) as [store| |store step].
    - cbn [fst snd] in Hrep. eexists. split; [exact Hrep|].
      destruct (applyDrift_keeps (ScanHistory.analyzeDrift store (Addr.toString to) report2)
                                 report2) as (Hh & Hs & Ho & [added [Hadd _]]).
      repeat split; try assumption. exists added. exact Hadd.
    - cbn [fst snd] in Hrep. eexists. split; [exact Hrep|].
      repeat split. exists []. rewrite app_nil_r. reflexivity.
    - cbn [fst snd] in Hrep. eexists. split; [exact Hrep|].
      destruct (applyDrift_keeps (ScanHistory.analyzeDrift store (Addr.toString to) report2)
                                 report2) as (Hh & Hs & Ho & [added [Hadd _]]).
      repeat split; try assumption. exists added. exact Hadd. }
  destruct H3 as (report & Hsome & Hh3 & Hs3 & Ho3 & [added3 Hadd3]).
  exists report. split; [exact Hsome|].
  split; [congruence|]. split; [congruence|]. split; [congruence|].
  split.
  { exists (added1 ++ added3)%list. rewrite Hadd3, Hf2, Hadd1, <- app_assoc. reflexivity. }
  intros Hst. rewrite Hverdict, Hsome. unfold EvmExecutor.assembleVerdict.
  cbn [fmap option_fmap option_map default].
  replace (SecurityAnalyzer.isHoneypot report) with true
    by (rewrite Hh3, Hh2, Hh1, Hst; reflexivity).
  reflexivity.
Qed.

Lemma pipeline_report_witness :
  EvmExecutor.verdict
    (EvmExecutor.finalVerdict
       (fst (EvmExecutor.simulateTransaction
               (Fixtures.envOf Fixtures.drainEvm None None) Fixtures.tx
               (Some Fixtures.addrA) None)))
  = MLService.BLOCK.
Proof.
  destruct (pipeline_report (Fixtures.envOf Fixtures.drainEvm None None) Fixtures.tx
              Fixtures.addrA None) as [_ [report (_ & _ & _ & _ & _ & Hblock)]].
  apply Hblock. vm_compute. reflexivity.
Defined.

Lemma analyzeDrift_previous db a report :
  ScanHistory.previousScan (ScanHistory.analyzeDrift db a report) = head (historyOf db a).
Proof.
  unfold ScanHistory.analyzeDrift. rewrite getLatestScan_head.
  destruct (head (historyOf db a)); reflexivity.
Qed.

(** X21. A scan of a destination is recorded when its Redis block
    returns.  The database then holds, as latest scan of the destination,
    a record with the flags, the risk score and the honeypot mark of the
    report in the response, stamped with the clock and the chain id; the
    history is that record before the earlier ones, cut to 100; and the
    drift analysis of the response names the time of the scan that was the
    latest before.  When [analyzeDrift] throws, the response carries no
    drift analysis.  When a command of [storeScan] throws, the response
    still carries the report and the drift analysis, and the history of
    the destination is as it was unless the throwing command is the trim:
    then the record is on it, before the earlier ones, and the list is not
    cut. *)
Theorem scan_is_recorded {S} `{EvmApi S}
        (env : EvmExecutor.Environment S) (txParams : TxParams) (to : Address)
        (chainId : option Z) :
  let resp := fst (EvmExecutor.simulateTransaction env txParams (Some to) chainId) in
  let out := snd (EvmExecutor.simulateTransaction env txParams (Some to) chainId) in
  match EvmExecutor.env_redis env with
  | EvmExecutor.Returns db =>
      exists report record db' drift,
        EvmExecutor.securityReport resp = Some report
        /\ out = Some db'
        /\ ScanHistory.getLatestScan db' (Addr.toString to) = Some record
        /\ historyOf db' (Addr.toString to)
           = take 100 (record :: historyOf db (Addr.toString to))
        /\ ScanHistory.flags record = SecurityAnalyzer.flags report
        /\ ScanHistory.riskScore record = SecurityAnalyzer.riskScore report
        /\ ScanHistory.isHoneypot record = SecurityAnalyzer.isHoneypot report
        /\ ScanHistory.timestamp record = EvmExecutor.env_now env
        /\ ScanHistory.chainId record = chainId
        /\ EvmExecutor.driftAnalysis resp = Some drift
        /\ EvmExecutor.previousScanTimestamp drift
           = ScanHistory.timestamp <$> head (historyOf db (Addr.toString to))
  | EvmExecutor.AnalyzeThrows =>
      EvmExecutor.driftAnalysis resp = None /\ out = None
  | EvmExecutor.StoreThrows db step =>
      exists report db' drift,
        EvmExecutor.securityReport resp = Some report
        /\ out = Some db'
        /\ EvmExecutor.driftAnalysis resp = Some drift
        /\ EvmExecutor.previousScanTimestamp drift
           = ScanHistory.timestamp <$> head (historyOf db (Addr.toString to))
        /\ match step with
           | ScanHistory.AtSetEx | ScanHistory.AtLPush =>
               historyOf db' (Addr.toString to) = historyOf db (Addr.toString to)
           | ScanHistory.AtLTrim =>
               exists record,
                 historyOf db' (Addr.toString to)
                 = record :: historyOf db (Addr.toString to)
                 /\ ScanHistory.flags record = SecurityAnalyzer.flags report
                 /\ ScanHistory.riskScore record = SecurityAnalyzer.riskScore report
                 /\ ScanHistory.isHoneypot record = SecurityAnalyzer.isHoneypot report
                 /\ ScanHistory.timestamp record = EvmExecutor.env_now env
           end
  end.
Proof.
  cbn zeta.
  destruct (simulateTransaction_unfold env txParams to chainId)
    as [proxyInfo (Hrep & _ & Hdrift & Hout)].
  rewrite driftPhase_spec in Hrep, Hdrift, Hout. cbn zeta in Hrep, Hdrift, Hout.
  destruct (EvmExecutor.env_redis env) as [db| |db step].
  - cbn [fst snd fmap option_fmap option_map] in Hrep, Hdrift, Hout.
    eexists _, _, _, _.
    split; [exact Hrep|]. split; [exact Hout|].
    split.
    { rewrite getLatestScan_head, historyOf_storeScan, decide_True by reflexivity.
      reflexivity. }
    split.
    { rewrite historyOf_storeScan, decide_True by reflexivity. reflexivity. }
    repeat (split; [reflexivity|]).
    split; [exact Hdrift|].
    cbn [EvmExecutor.previousScanTimestamp]. rewrite analyzeDrift_previous. reflexivity.
  - cbn [fst snd fmap option_fmap option_map] in Hdrift, Hout. auto.
  - cbn [fst snd fmap option_fmap option_map] in Hrep, Hdrift, Hout.
    eexists _, _, _.
    split; [exact Hrep|]. split; [exact Hout|]. split; [exact Hdrift|].
    split.
    { cbn [EvmExecutor.previousScanTimestamp]. rewrite analyzeDrift_previous. reflexivity. }
    rewrite historyOf_storeScanUntil. destruct step; try reflexivity.
    eexists. split; [reflexivity|]. repeat split; reflexivity.
Qed.

(** ** The opcode tracer and the explanation of a trace *)

Lemma trackSender_eq (op : string) (pc : Z) (t : OpcodeTracer.Tracer) :
  OpcodeTracer.trackSender op pc t
  = {| OpcodeTracer.t_steps := OpcodeTracer.t_steps t;
       OpcodeTracer.t_events :=
         (OpcodeTracer.t_events t
          ++ (if String.eqb op "CALLER" then [OpcodeTracer.senderLoaded pc]
              else if String.eqb op "ORIGIN" then [OpcodeTracer.originLoaded pc]
              else []))%list;
       OpcodeTracer.t_touchedStorage := OpcodeTracer.t_touchedStorage t;
       OpcodeTracer.t_usesMsgSender :=
         OpcodeTracer.t_usesMsgSender t || String.eqb op "CALLER";
       OpcodeTracer.t_usesTxOrigin :=
         OpcodeTracer.t_usesTxOrigin t
         || (negb (String.eqb op "CALLER") && String.eqb op "ORIGIN");
       OpcodeTracer.t_usesTimestamp := OpcodeTracer.t_usesTimestamp t;
       OpcodeTracer.t_suspiciousJumps := OpcodeTracer.t_suspiciousJumps t;
       OpcodeTracer.t_lastOpcode := OpcodeTracer.t_lastOpcode t;
       OpcodeTracer.t_pushedSender :=
         OpcodeTracer.t_pushedSender t || String.eqb op "CALLER" |}.
Proof.
  unfold OpcodeTracer.trackSender, OpcodeTracer.pushEvent. destruct t.
  destruct (String.eqb op "CALLER"); [|destruct (String.eqb op "ORIGIN")];
    cbn; rewrite ?app_nil_r, ?orb_false_r, ?orb_true_r; reflexivity.
Qed.

Lemma trackStorage_eq (op : string) (stack : list string) (t : OpcodeTracer.Tracer) :
  OpcodeTracer.trackStorage op stack t
  = {| OpcodeTracer.t_steps := OpcodeTracer.t_steps t;
       OpcodeTracer.t_events :=
         (OpcodeTracer.t_events t
          ++ (if String.eqb op "SLOAD" && OpcodeTracer.t_pushedSender t
              then [OpcodeTracer.STORAGE_CHECK] else []))%list;
       OpcodeTracer.t_touchedStorage :=
         if String.eqb op "SLOAD"
         then {[ last stack ]} ∪ OpcodeTracer.t_touchedStorage t
         else OpcodeTracer.t_touchedStorage t;
       OpcodeTracer.t_usesMsgSender := OpcodeTracer.t_usesMsgSender t;
       OpcodeTracer.t_usesTxOrigin := OpcodeTracer.t_usesTxOrigin t;
       OpcodeTracer.t_usesTimestamp := OpcodeTracer.t_usesTimestamp t;
       OpcodeTracer.t_suspiciousJumps := OpcodeTracer.t_suspiciousJumps t;
       OpcodeTracer.t_lastOpcode := OpcodeTracer.t_lastOpcode t;
       OpcodeTracer.t_pushedSender := OpcodeTracer.t_pushedSender t |}.
Proof.
  unfold OpcodeTracer.trackStorage, OpcodeTracer.pushEvent. destruct t as [? ? ? ? ? ? ? ? p].
  destruct (String.eqb op "SLOAD"); [destruct p|];
    cbn; rewrite ?app_nil_r; reflexivity.
Qed.

Lemma trackTime_eq (op : string) (pc : Z) (t : OpcodeTracer.Tracer) :
  OpcodeTracer.trackTime op pc t
  = {| OpcodeTracer.t_steps := OpcodeTracer.t_steps t;
       OpcodeTracer.t_events :=
         (OpcodeTracer.t_events t
          ++ (if String.eqb op "TIMESTAMP" then [OpcodeTracer.timestampLoaded pc]
              else []))%list;
       OpcodeTracer.t_touchedStorage := OpcodeTracer.t_touchedStorage t;
       OpcodeTracer.t_usesMsgSender := OpcodeTracer.t_usesMsgSender t;
       OpcodeTracer.t_usesTxOrigin := OpcodeTracer.t_usesTxOrigin t;
       OpcodeTracer.t_usesTimestamp :=
         OpcodeTracer.t_usesTimestamp t || String.eqb op "TIMESTAMP";
       OpcodeTracer.t_suspiciousJumps := OpcodeTracer.t_suspiciousJumps t;
       OpcodeTracer.t_lastOpcode := OpcodeTracer.t_lastOpcode t;
       OpcodeTracer.t_pushedSender := OpcodeTracer.t_pushedSender t |}.
Proof.
  unfold OpcodeTracer.trackTime, OpcodeTracer.pushEvent. destruct t.
  destruct (String.eqb op "TIMESTAMP");
    cbn; rewrite ?app_nil_r, ?orb_false_r, ?orb_true_r; reflexivity.
Qed.

Lemma trackComparison_eq (op : string) (t : OpcodeTracer.Tracer) :
  OpcodeTracer.trackComparison op t
  = {| OpcodeTracer.t_steps := OpcodeTracer.t_steps t;
       OpcodeTracer.t_events :=
         (OpcodeTracer.t_events t
          ++ (if OpcodeTracer.oneOf op ["EQ"; "LT"; "GT"; "SGT"; "SLT"] then
                (if wasOp (OpcodeTracer.t_lastOpcode t) "CALLER"
                    || wasOp (OpcodeTracer.t_lastOpcode t) "ORIGIN"
                 then [OpcodeTracer.SENDER_COMPARE] else [])
                ++ (if wasOp (OpcodeTracer.t_lastOpcode t) "TIMESTAMP"
                    then [OpcodeTracer.TIME_COMPARE] else [])
              else []))%list;
       OpcodeTracer.t_touchedStorage := OpcodeTracer.t_touchedStorage t;
       OpcodeTracer.t_usesMsgSender := OpcodeTracer.t_usesMsgSender t;
       OpcodeTracer.t_usesTxOrigin := OpcodeTracer.t_usesTxOrigin t;
       OpcodeTracer.t_usesTimestamp := OpcodeTracer.t_usesTimestamp t;
       OpcodeTracer.t_suspiciousJumps := OpcodeTracer.t_suspiciousJumps t;
       OpcodeTracer.t_lastOpcode := OpcodeTracer.t_lastOpcode t;
       OpcodeTracer.t_pushedSender := OpcodeTracer.t_pushedSender t |}.
Proof.
  unfold OpcodeTracer.trackComparison, OpcodeTracer.lastIs, OpcodeTracer.pushEvent, wasOp.
  destruct t as [? ? ? ? ? ? ? l ?].
  destruct (OpcodeTracer.oneOf op _); cbn [OpcodeTracer.t_lastOpcode];
    [|cbn; rewrite app_nil_r; reflexivity].
  destruct l as [l|]; cbn.
  - repeat match goal with
           | |- context [String.eqb l ?x] => destruct (String.eqb l x); cbn
           end;
      rewrite ?app_nil_r, <- ?app_assoc; reflexivity.
  - rewrite app_nil_r. reflexivity.
Qed.

Lemma push_not_caller (op : string) :
  OpcodeTracer.oneOf op ["PUSH1"; "PUSH2"; "PUSH20"; "PUSH32"; "DUP1"; "DUP2"] = true ->
  String.eqb op "CALLER" = false.
Proof.
  intros Hp. destruct (String.eqb_spec op "CALLER") as [->|_]; [discriminate|reflexivity].
Qed.

Lemma handleStep_spec (t : OpcodeTracer.Tracer) (data : OpcodeTracer.StepData) :
  OpcodeTracer.t_pushedSender t = false ->
  let t' := OpcodeTracer.handleStep t data in
  let op := OpcodeTracer.opcodeName data in
  (exists stack,
     OpcodeTracer.t_steps t'
     = (OpcodeTracer.t_steps t
        ++ [ {| OpcodeTracer.opcode := op; OpcodeTracer.pc := OpcodeTracer.stepPc data;
                OpcodeTracer.stack := stack;
                OpcodeTracer.depth := OpcodeTracer.stepDepth data |} ])%list
     /\ (length stack <= 5)%nat)
  /\ OpcodeTracer.t_events t'
     = (OpcodeTracer.t_events t ++ stepEvents (OpcodeTracer.t_lastOpcode t) data)%list
  /\ OpcodeTracer.t_usesMsgSender t'
     = OpcodeTracer.t_usesMsgSender t || String.eqb op "CALLER"
  /\ OpcodeTracer.t_usesTxOrigin t'
     = OpcodeTracer.t_usesTxOrigin t || String.eqb op "ORIGIN"
  /\ OpcodeTracer.t_usesTimestamp t'
     = OpcodeTracer.t_usesTimestamp t || String.eqb op "TIMESTAMP"
  /\ OpcodeTracer.t_suspiciousJumps t' = OpcodeTracer.t_suspiciousJumps t
  /\ OpcodeTracer.t_lastOpcode t' = Some op
  /\ OpcodeTracer.t_pushedSender t' = false.
Proof.
  intros Hp. cbn zeta. unfold OpcodeTracer.handleStep.
  set (op := OpcodeTracer.opcodeName data).
  set (pc := OpcodeTracer.stepPc data).
  set (stack := match OpcodeTracer.stepStack data with
                | Some st' => map OpcodeTracer.toString16 (Js.last_n 5 st')
                | None => []
                end).
  assert (Hlen : (length stack <= 5)%nat).
  { subst stack. destruct (OpcodeTracer.stepStack data) as [st'|]; [|cbn; lia].
    rewrite length_map. unfold Js.last_n. rewrite length_skipn. lia. }
  clearbody stack.
  rewrite trackSender_eq.
  cbn [OpcodeTracer.recordStep OpcodeTracer.t_steps OpcodeTracer.t_events
       OpcodeTracer.t_touchedStorage OpcodeTracer.t_usesMsgSender
       OpcodeTracer.t_usesTxOrigin OpcodeTracer.t_usesTimestamp
       OpcodeTracer.t_suspiciousJumps OpcodeTracer.t_lastOpcode
       OpcodeTracer.t_pushedSender].
  rewrite trackStorage_eq.
  cbn [OpcodeTracer.t_steps OpcodeTracer.t_events
       OpcodeTracer.t_touchedStorage OpcodeTracer.t_usesMsgSender
       OpcodeTracer.t_usesTxOrigin OpcodeTracer.t_usesTimestamp
       OpcodeTracer.t_suspiciousJumps OpcodeTracer.t_lastOpcode
       OpcodeTracer.t_pushedSender].
  rewrite trackTime_eq.
  cbn [OpcodeTracer.t_steps OpcodeTracer.t_events
       OpcodeTracer.t_touchedStorage OpcodeTracer.t_usesMsgSender
       OpcodeTracer.t_usesTxOrigin OpcodeTracer.t_usesTimestamp
       OpcodeTracer.t_suspiciousJumps OpcodeTracer.t_lastOpcode
       OpcodeTracer.t_pushedSender].
  rewrite trackComparison_eq.
  cbn [OpcodeTracer.finishStep OpcodeTracer.t_steps OpcodeTracer.t_events
       OpcodeTracer.t_touchedStorage OpcodeTracer.t_usesMsgSender
       OpcodeTracer.t_usesTxOrigin OpcodeTracer.t_usesTimestamp
       OpcodeTracer.t_suspiciousJumps OpcodeTracer.t_lastOpcode
       OpcodeTracer.t_pushedSender].
  rewrite Hp. cbn [orb].
  assert (Hsload : String.eqb op "SLOAD" && String.eqb op "CALLER" = false).
  { destruct (String.eqb_spec op "SLOAD") as [->|_]; reflexivity. }
  assert (Horigin : negb (String.eqb op "CALLER") && String.eqb op "ORIGIN"
                    = String.eqb op "ORIGIN").
  { destruct (String.eqb_spec op "ORIGIN") as [->|_]; [reflexivity|apply andb_false_r]. }
  rewrite Hsload, Horigin, app_nil_r.
  split; [exists stack; split; [reflexivity|exact Hlen]|].
  split; [unfold stepEvents; fold op pc; rewrite <- !app_assoc; reflexivity|].
  repeat (split; [reflexivity|]).
  destruct (OpcodeTracer.oneOf op _) eqn:Hpush; [|reflexivity].
  apply push_not_caller. exact Hpush.
Qed.

Lemma fold_handleStep (run : list OpcodeTracer.StepData) :
  forall t : OpcodeTracer.Tracer,
    OpcodeTracer.t_pushedSender t = false ->
    let t' := fold_left OpcodeTracer.handleStep run t in
    map OpcodeTracer.opcode (OpcodeTracer.t_steps t')
    = (map OpcodeTracer.opcode (OpcodeTracer.t_steps t)
       ++ map OpcodeTracer.opcodeName run)%list
    /\ map OpcodeTracer.pc (OpcodeTracer.t_steps t')
       = (map OpcodeTracer.pc (OpcodeTracer.t_steps t) ++ map OpcodeTracer.stepPc run)%list
    /\ (Forall (fun s => (length (OpcodeTracer.stack s) <= 5)%nat) (OpcodeTracer.t_steps t) ->
        Forall (fun s => (length (OpcodeTracer.stack s) <= 5)%nat) (OpcodeTracer.t_steps t'))
    /\ OpcodeTracer.t_events t'
       = (OpcodeTracer.t_events t ++ eventsFrom (OpcodeTracer.t_lastOpcode t) run)%list
    /\ OpcodeTracer.t_usesMsgSender t' = OpcodeTracer.t_usesMsgSender t || ran "CALLER" run
    /\ OpcodeTracer.t_usesTxOrigin t' = OpcodeTracer.t_usesTxOrigin t || ran "ORIGIN" run
    /\ OpcodeTracer.t_usesTimestamp t' = OpcodeTracer.t_usesTimestamp t || ran "TIMESTAMP" run
    /\ OpcodeTracer.t_suspiciousJumps t' = OpcodeTracer.t_suspiciousJumps t.
Proof.
  induction run as [|data rest IH]; intros t Hp; cbn [fold_left].
  - cbn. rewrite !app_nil_r, !orb_false_r. repeat split; auto.
  - destruct (handleStep_spec t data Hp)
      as ([stack [Hsteps Hlen]] & Hev & Hs & Ho & Ht & Hj & Hl & Hp').
    destruct (IH _ Hp') as (IHop & IHpc & IHst & IHev & IHs & IHo & IHt & IHj).
    cbn zeta in *. cbn [map eventsFrom ran existsb].
    rewrite IHop, IHpc, IHev, IHs, IHo, IHt, IHj, Hsteps, Hev, Hs, Ho, Ht, Hj, Hl.
    rewrite !map_app, <- !app_assoc, !orb_assoc. cbn [map app].
    repeat split; try reflexivity.
    intros Hall. apply IHst. rewrite Hsteps. apply Forall_app. split; [exact Hall|].
    constructor; [exact Hlen|constructor].
Qed.

(** X22. The trace of a run.  The tracer records one step per executed
    instruction, in order, with its opcode and program counter and at most
    five stack entries; it reports the use of msg.sender, tx.origin and
    block.timestamp exactly when CALLER, ORIGIN and TIMESTAMP are executed;
    and the count of suspicious jumps is always zero. *)
Theorem trace_of_run (run : list OpcodeTracer.StepData) :
  let tr := OpcodeTracer.traceOf run in
  map OpcodeTracer.opcode (OpcodeTracer.steps tr) = map OpcodeTracer.opcodeName run
  /\ map OpcodeTracer.pc (OpcodeTracer.steps tr) = map OpcodeTracer.stepPc run
  /\ length (OpcodeTracer.steps tr) = length run
  /\ Forall (fun s => (length (OpcodeTracer.stack s) <= 5)%nat) (OpcodeTracer.steps tr)
  /\ OpcodeTracer.usesMsgSender tr = ran "CALLER" run
  /\ OpcodeTracer.usesTxOrigin tr = ran "ORIGIN" run
  /\ OpcodeTracer.usesTimestamp tr = ran "TIMESTAMP" run
  /\ OpcodeTracer.suspiciousJumps tr = 0.
Proof.
  cbn zeta. unfold OpcodeTracer.traceOf, OpcodeTracer.getTrace.
  cbn [OpcodeTracer.steps OpcodeTracer.usesMsgSender OpcodeTracer.usesTxOrigin
       OpcodeTracer.usesTimestamp OpcodeTracer.suspiciousJumps].
  destruct (fold_handleStep run OpcodeTracer.create eq_refl)
    as (Hop & Hpc & Hst & _ & Hs & Ho & Ht & Hj).
  cbn zeta in *. cbn [OpcodeTracer.create OpcodeTracer.t_steps map app orb
                      OpcodeTracer.t_usesMsgSender OpcodeTracer.t_usesTxOrigin
                      OpcodeTracer.t_usesTimestamp OpcodeTracer.t_suspiciousJumps] in *.
  split; [exact Hop|]. split; [exact Hpc|]. split.
  { apply (f_equal (@length string)) in Hop. rewrite !length_map in Hop. exact Hop. }
  split; [apply Hst; constructor|].
  auto.
Qed.

Lemma includes_no_C (s p : string) :
  Forall (fun c => c <> "C"%char) (list_ascii_of_string s) ->
  Js.includes s (String "C" p) = false.
Proof.
  induction s as [|c s IH]; intros Hall; [reflexivity|].
  cbn [list_ascii_of_string] in Hall. inversion Hall as [|? ? Hc Hrest]; subst.
  cbn [Js.includes String.prefix].
  destruct (ascii_dec "C" c) as [He|_]; [symmetry in He; contradiction|].
  cbn [orb]. apply IH. exact Hrest.
Qed.

Lemma digit_char_not_C (k : Z) : 0 <= k < 10 -> Js.digit_char k <> "C"%char.
Proof.
  intros Hk He. unfold Js.digit_char in He.
  apply (f_equal N_of_ascii) in He. rewrite N_ascii_embedding in He by lia.
  cbn in He. lia.
Qed.

Lemma decimal_pos_chars (fuel : nat) :
  forall (n : Z) (acc : string),
    Forall (fun c => c <> "C"%char) (list_ascii_of_string acc) ->
    Forall (fun c => c <> "C"%char) (list_ascii_of_string (Js.decimal_pos fuel n acc)).
Proof.
  induction fuel as [|fuel IH]; intros n acc Hacc; [exact Hacc|].
  cbn [Js.decimal_pos].
  assert (Hnew : Forall (fun c => c <> "C"%char)
                        (list_ascii_of_string (String (Js.digit_char (n mod 10)) acc))).
  { cbn [list_ascii_of_string]. constructor; [|exact Hacc].
    apply digit_char_not_C. apply Z.mod_pos_bound. lia. }
  destruct (n / 10 =? 0); [exact Hnew|apply IH; exact Hnew].
Qed.

Lemma toString_chars (n : Z) :
  Forall (fun c => c <> "C"%char) (list_ascii_of_string (Js.toString n)).
Proof.
  unfold Js.toString. destruct (n <? 0).
  - rewrite append_cons, append_nil. cbn [list_ascii_of_string].
    constructor; [discriminate|]. apply decimal_pos_chars. constructor.
  - apply decimal_pos_chars. constructor.
Qed.

Lemma stepEvents_no_check last data e :
  In e (stepEvents last data) -> Js.includes e "CHECK: Storage read" = false.
Proof.
  unfold stepEvents. intros Hin.
  assert (Hpc : Js.includes (Js.toString (OpcodeTracer.stepPc data)) "CHECK: Storage read"
                = false) by (apply includes_no_C, toString_chars).
  repeat match type of Hin with
         | context [if ?b then _ else _] => destruct b
         end;
    cbn in Hin;
    repeat match type of Hin with
           | _ \/ _ => destruct Hin as [<-|Hin]
           | False => destruct Hin
           end;
    try reflexivity;
    (unfold OpcodeTracer.senderLoaded, OpcodeTracer.originLoaded,
       OpcodeTracer.timestampLoaded;
     generalize dependent (Js.toString (OpcodeTracer.stepPc data)); intros s Hs;
     transitivity (Js.includes s "CHECK: Storage read"); [reflexivity|exact Hs]).
Qed.

Lemma eventsFrom_no_check run :
  forall last e, In e (eventsFrom last run) -> Js.includes e "CHECK: Storage read" = false.
Proof.
  induction run as [|data rest IH]; intros last e Hin; [destruct Hin|].
  cbn [eventsFrom] in Hin. apply in_app_iff in Hin as [Hin|Hin].
  - exact (stepEvents_no_check _ _ _ Hin).
  - exact (IH _ _ Hin).
Qed.

(** X23. The events of a trace depend on each step and the opcode before
    it only: a load of msg.sender, tx.origin or block.timestamp, and a
    comparison that directly follows such a load.  The sender mark that the
    tracer sets on CALLER is cleared at the end of the same step, so the
    event for a storage read after a sender load is never emitted. *)
Theorem trace_events (run : list OpcodeTracer.StepData) :
  OpcodeTracer.events (OpcodeTracer.traceOf run) = eventsFrom None run
  /\ ~ In OpcodeTracer.STORAGE_CHECK (OpcodeTracer.events (OpcodeTracer.traceOf run))
  /\ forall e, In e (OpcodeTracer.events (OpcodeTracer.traceOf run)) ->
               Js.includes e "CHECK: Storage read" = false.
Proof.
  assert (Hev : OpcodeTracer.events (OpcodeTracer.traceOf run) = eventsFrom None run).
  { unfold OpcodeTracer.traceOf, OpcodeTracer.getTrace. cbn [OpcodeTracer.events].
    destruct (fold_handleStep run OpcodeTracer.create eq_refl) as (_ & _ & _ & Hev & _).
    exact Hev. }
  rewrite Hev. split; [reflexivity|]. split.
  - intros Hin. apply eventsFrom_no_check in Hin. vm_compute in Hin. discriminate.
  - intros e. apply eventsFrom_no_check.
Qed.

Lemma existsb_skipn_false {A} (f : A -> bool) (k : nat) (l : list A) :
  (forall x, In x l -> f x = false) -> existsb f (skipn k l) = false.
Proof.
  intros Hall. apply not_true_is_false. intros He.
  apply existsb_exists in He as [x [Hx Hf]].
  rewrite (Hall x) in Hf; [discriminate|].
  rewrite <- (firstn_skipn k l). apply in_app_iff. right. exact Hx.
Qed.

(** X24. The explanation of a traced execution.  It is never the
    access-denied story: a reverted call that read msg.sender or tx.origin
    always gets the sender-restriction story of severity Medium, whatever
    it read from storage.  The explanation is Safe exactly when the status
    does not start with Reverted and TIMESTAMP was not executed. *)
Theorem explanation_of_trace (run : list OpcodeTracer.StepData) (simulationStatus : string) :
  let e := ExplanationEngine.generateExplanation (OpcodeTracer.traceOf run)
                                                 simulationStatus in
  title e <> "Access Denied (Whitelist/Owner)"
  /\ (Js.startsWith simulationStatus "Reverted" = true ->
      ran "CALLER" run || ran "ORIGIN" run = true ->
      title e = "Sender Restriction" /\ severity e = "Medium")
  /\ (severity e = "Safe"
      <-> Js.startsWith simulationStatus "Reverted" = false /\ ran "TIMESTAMP" run = false).
Proof.
  cbn zeta.
  destruct (fold_handleStep run OpcodeTracer.create eq_refl)
    as (_ & _ & _ & Hev & Hs & Ho & Ht & _).
  cbn zeta in *.
  unfold ExplanationEngine.generateExplanation, ExplanationEngine.explainRevert,
    OpcodeTracer.traceOf, OpcodeTracer.getTrace.
  cbn [OpcodeTracer.events OpcodeTracer.usesMsgSender OpcodeTracer.usesTxOrigin
       OpcodeTracer.usesTimestamp].
  rewrite Hs, Ho, Ht, Hev. cbn [OpcodeTracer.create OpcodeTracer.t_events app orb
    OpcodeTracer.t_usesMsgSender OpcodeTracer.t_usesTxOrigin OpcodeTracer.t_usesTimestamp
    OpcodeTracer.t_lastOpcode].
  unfold Js.last_n.
  rewrite (existsb_skipn_false _ _ (eventsFrom None run))
    by (intros x Hx; exact (eventsFrom_no_check run None x Hx)).
  destruct (Js.startsWith simulationStatus "Reverted");
    destruct (ran "CALLER" run), (ran "ORIGIN" run), (ran "TIMESTAMP" run); cbn;
    (split; [discriminate|split; [intros; try discriminate; auto|]]);
    split; try discriminate; try (intros [? ?]; discriminate); auto.
Qed.

Lemma explanation_of_trace_witness :
  title (ExplanationEngine.generateExplanation
           (OpcodeTracer.traceOf
              [ {| OpcodeTracer.opcodeName := "CALLER"; OpcodeTracer.stepPc := 10;
                   OpcodeTracer.stepDepth := 0; OpcodeTracer.stepStack := Some [] |};
                {| OpcodeTracer.opcodeName := "SLOAD"; OpcodeTracer.stepPc := 11;
                   OpcodeTracer.stepDepth := 0; OpcodeTracer.stepStack := Some [1] |} ])
           "Reverted: revert")
  = "Sender Restriction".
Proof.
  refine (proj1 (proj1 (proj2 (explanation_of_trace _ "Reverted: revert")) _ _)).
  - reflexivity.
  - reflexivity.
Defined.

(** ** The baseline call *)

Lemma fold_countStep (run : list OpcodeTracer.StepData) :
  forall c : BaselineCall.Counters,
    let c' := fold_left BaselineCall.countStep run c in
    BaselineCall.instructionCount c'
    = BaselineCall.instructionCount c + Z.of_nat (length run)
    /\ BaselineCall.sstoreCount c'
       = BaselineCall.sstoreCount c
         + Z.of_nat (MLService.countIf
                       (fun d => String.eqb (OpcodeTracer.opcodeName d) "SSTORE") run)
    /\ BaselineCall.callCount c'
       = BaselineCall.callCount c
         + Z.of_nat (MLService.countIf
                       (fun d => OpcodeTracer.oneOf (OpcodeTracer.opcodeName d)
                                   ["CALL"; "DELEGATECALL"; "STATICCALL"; "CALLCODE"]) run).
Proof.
  induction run as [|d rest IH]; intros c; cbn [fold_left].
  - cbn. repeat split; lia.
  - destruct (IH (BaselineCall.countStep c d)) as (Hi & Hs & Hc). cbn zeta in *.
    rewrite Hi, Hs, Hc. unfold BaselineCall.countStep, MLService.countIf.
    cbn [BaselineCall.instructionCount BaselineCall.sstoreCount BaselineCall.callCount
         List.filter length].
    destruct (String.eqb _ "SSTORE"), (OpcodeTracer.oneOf _ _); cbn [length];
      repeat split; lia.
Qed.

Lemma disjoint_counts {A} (p q : A -> bool) (l : list A) :
  (forall x, p x = true -> q x = false) ->
  (MLService.countIf p l + MLService.countIf q l <= length l)%nat.
Proof.
  intros Hd. unfold MLService.countIf. induction l as [|x l IH]; [reflexivity|].
  cbn [List.filter]. destruct (p x) eqn:Hp.
  - rewrite (Hd x Hp). cbn [length]. lia.
  - destruct (q x); cbn [length]; lia.
Qed.

(** X25. The counters of the step listener: the instruction count is the
    number of executed instructions, which is also the number of steps the
    tracer records; the SSTORE and call counts are the numbers of such
    instructions, so together they never exceed the instruction count. *)
Theorem baseline_counters (run : list OpcodeTracer.StepData) :
  let c := BaselineCall.countersOf run in
  BaselineCall.instructionCount c = Z.of_nat (length run)
  /\ BaselineCall.instructionCount c
     = Z.of_nat (length (OpcodeTracer.steps (OpcodeTracer.traceOf run)))
  /\ BaselineCall.sstoreCount c
     = Z.of_nat (MLService.countIf
                   (fun d => String.eqb (OpcodeTracer.opcodeName d) "SSTORE") run)
  /\ BaselineCall.callCount c
     = Z.of_nat (MLService.countIf
                   (fun d => OpcodeTracer.oneOf (OpcodeTracer.opcodeName d)
                               ["CALL"; "DELEGATECALL"; "STATICCALL"; "CALLCODE"]) run)
  /\ 0 <= BaselineCall.sstoreCount c
  /\ 0 <= BaselineCall.callCount c
  /\ BaselineCall.sstoreCount c + BaselineCall.callCount c <= BaselineCall.instructionCount c.
Proof.
  cbn zeta. unfold BaselineCall.countersOf.
  destruct (fold_countStep run {| BaselineCall.instructionCount := 0;
                                  BaselineCall.sstoreCount := 0;
                                  BaselineCall.callCount := 0 |}) as (Hi & Hs & Hc).
  cbn zeta in *. rewrite Hi, Hs, Hc.
  cbn [BaselineCall.instructionCount BaselineCall.sstoreCount BaselineCall.callCount].
  assert (Hlen : length (OpcodeTracer.steps (OpcodeTracer.traceOf run)) = length run).
  { unfold OpcodeTracer.traceOf, OpcodeTracer.getTrace. cbn [OpcodeTracer.steps].
    destruct (fold_handleStep run OpcodeTracer.create eq_refl) as (Hop & _).
    cbn zeta in Hop. apply (f_equal (@length string)) in Hop.
    rewrite length_app, !length_map in Hop. exact Hop. }
  rewrite Hlen.
  pose proof (disjoint_counts
                (fun d => String.eqb (OpcodeTracer.opcodeName d) "SSTORE")
                (fun d => OpcodeTracer.oneOf (OpcodeTracer.opcodeName d)
                            ["CALL"; "DELEGATECALL"; "STATICCALL"; "CALLCODE"]) run) as Hd.
  assert (Hdis : forall d : OpcodeTracer.StepData,
             String.eqb (OpcodeTracer.opcodeName d) "SSTORE" = true ->
             OpcodeTracer.oneOf (OpcodeTracer.opcodeName d)
               ["CALL"; "DELEGATECALL"; "STATICCALL"; "CALLCODE"] = false).
  { intros d He. apply String.eqb_eq in He. rewrite He. reflexivity. }
  specialize (Hd Hdis).
  repeat split; lia.
Qed.

(** X26. The status of the baseline call and what follows from it.  The
    status is Success when the call raised no exception and starts with
    Reverted otherwise; a call that raised an exception never gets the
    Safe explanation, and the security analysis then adds the flag
    Simulation Reverted and 20 to the risk score, which it does for no
    successful call. *)
Theorem baseline_status (result : ExecResult) (trace : OpcodeTracer.TraceResult)
        (report : SecurityAnalyzer.SecurityReport) :
  let status := BaselineCall.statusOf result in
  (exceptionError result = None ->
     status = "Success"
     /\ SecurityAnalyzer.analyzeSimulation status report = report)
  /\ (exceptionError result <> None ->
        Js.startsWith status "Reverted" = true
        /\ severity (ExplanationEngine.generateExplanation trace status) <> "Safe"
        /\ SecurityAnalyzer.riskScore (SecurityAnalyzer.analyzeSimulation status report)
           = SecurityAnalyzer.riskScore report + 20
        /\ SecurityAnalyzer.flags (SecurityAnalyzer.analyzeSimulation status report)
           = (SecurityAnalyzer.flags report ++ ["Simulation Reverted"])%list).
Proof.
  cbn zeta. unfold BaselineCall.statusOf. split.
  - intros ->. split; reflexivity.
  - destruct (exceptionError result) as [error|]; [intros _|contradiction].
    assert (Hs : Js.startsWith ("Reverted: " ++ error) "Reverted" = true).
    { exact (prefix_app "Reverted" (": " ++ error)). }
    assert (Ht : Js.truthy ("Reverted: " ++ error) = true).
    { rewrite append_cons. reflexivity. }
    split; [exact Hs|]. split.
    + unfold ExplanationEngine.generateExplanation, ExplanationEngine.explainRevert.
      rewrite Hs.
      repeat match goal with |- context [if ?b then _ else _] => destruct b end;
        cbn; discriminate.
    + unfold SecurityAnalyzer.analyzeSimulation. rewrite Ht, Hs. cbn. split; reflexivity.
Qed.

Lemma baseline_status_witness :
  BaselineCall.statusOf
    {| exceptionError := None; returnValue := []; executionGasUsed := 21000 |} = "Success".
Proof.
  refine (proj1 (proj1 (baseline_status
                          {| exceptionError := None; returnValue := [];
                             executionGasUsed := 21000 |}
                          (OpcodeTracer.traceOf []) SecurityAnalyzer.initialReport) _)).
  reflexivity.
Defined.

(** ** Training data *)

Lemma findIndex_spec (a : string) (t : Z) (samples : list TrainingDataCollector.TrainingSample) :
  match TrainingDataCollector.findIndex a t samples with
  | Some i =>
      exists s, samples !! i = Some s
                /\ TrainingDataCollector.contractAddress s = a
                /\ t < TrainingDataCollector.timestamp s
  | None =>
      forall s, In s samples ->
                TrainingDataCollector.contractAddress s <> a
                \/ TrainingDataCollector.timestamp s <= t
  end.
Proof.
  induction samples as [|x rest IH]; cbn [TrainingDataCollector.findIndex].
  - intros s [].
  - destruct (String.eqb_spec (TrainingDataCollector.contractAddress x) a) as [Ha|Ha];
      destruct (Z.ltb_spec t (TrainingDataCollector.timestamp x)) as [Ht|Ht]; cbn [andb].
    + exists x. auto.
    + destruct (TrainingDataCollector.findIndex a t rest) as [i|]; cbn.
      * exact IH.
      * intros s [<-|Hs]; [right; exact Ht|apply IH; exact Hs].
    + destruct (TrainingDataCollector.findIndex a t rest) as [i|]; cbn.
      * exact IH.
      * intros s [<-|Hs]; [left; exact Ha|apply IH; exact Hs].
    + destruct (TrainingDataCollector.findIndex a t rest) as [i|]; cbn.
      * exact IH.
      * intros s [<-|Hs]; [left; exact Ha|apply IH; exact Hs].
Qed.

Section Label.
Local Open Scope Q_scope.

Lemma softLabel_unit sr adv : inUnit (TrainingDataCollector.softLabel sr adv).
Proof.
  unfold TrainingDataCollector.softLabel. cbn zeta.
  apply qmin_unit. unfold MLService.qmax.
  destruct (Qle_bool 0 _) eqn:E; [apply Qle_bool_iff; exact E|apply Qle_refl].
Qed.

Lemma softLabel_scam (r : SecurityAnalyzer.SecurityReport)
      (a : AdvancedSimulator.AdvancedAnalysis) :
  SecurityAnalyzer.isHoneypot r = true -> AdvancedSimulator.isScam a = true ->
  (0 <= SecurityAnalyzer.riskScore r)%Z ->
  6 # 10 <= TrainingDataCollector.softLabel (Some r) (Some a).
Proof.
  intros Hh Hs Hscore. unfold TrainingDataCollector.softLabel.
  cbn [fmap option_fmap option_map default from_option]. unfold Datatypes.id.
  rewrite Hh, Hs. cbn [MLService.b2q].
  assert (H0 : 0 <= inject_Z (SecurityAnalyzer.riskScore r) / 100).
  { apply ratio_nonneg; [|reflexivity]. change 0 with (inject_Z 0).
    rewrite <- Zle_Qle. exact Hscore. }
  set (x := inject_Z (SecurityAnalyzer.riskScore r) / 100) in *.
  assert (Hb1 : 0 <= MLService.b2q
                       (CounterfactualAnalyzer.isHoneypot (AdvancedSimulator.counterfactual a))
                       (2 # 10)) by (apply b2q_nonneg; discriminate).
  assert (Hb2 : 0 <= MLService.b2q
                       (CounterfactualAnalyzer.hasOwnerPrivileges
                          (AdvancedSimulator.counterfactual a))
                       (15 # 100)) by (apply b2q_nonneg; discriminate).
  set (b1 := MLService.b2q _ (2 # 10)) in *.
  set (b2 := MLService.b2q _ (15 # 100)) in *.
  clearbody x b1 b2.
  unfold MLService.qmin, MLService.qmax.
  destruct (Qle_bool 0 _) eqn:E0.
  - destruct (Qle_bool 1 _) eqn:E1; [discriminate|]. Lqa.lra.
  - exfalso. assert (Hn : ~ 0 <= (35 # 100) + (25 # 100) + b1 + b2 + x * (2 # 10)).
    { intros H. apply Qle_bool_iff in H. congruence. }
    apply Hn. Lqa.lra.
Qed.

End Label.

(** X27. Collecting a training sample.  The soft label always lies
    between 0 and 1, and exceeds 0.5, the mark above which a sample counts
    as a scam, for a report marked as honeypot together with an analysis
    that calls a scam.  The new sample is always
    in the collection afterwards; it replaces the first sample of the same
    lowercased address that is less than an hour old and is appended when
    there is none, so the collection grows by at most one; and a sample
    that disappears had that address and was less than an hour old. *)
Theorem collect_spec (samples : list TrainingDataCollector.TrainingSample) (now : Z)
        (contractAddress : string) (chainId : option Z)
        (features : MLService.ContinuousFeatures)
        (securityReport : option SecurityAnalyzer.SecurityReport)
        (advancedAnalysis : option AdvancedSimulator.AdvancedAnalysis) :
  let result := TrainingDataCollector.collect samples now contractAddress chainId features
                  securityReport advancedAnalysis in
  exists sample,
    In sample result
    /\ TrainingDataCollector.contractAddress sample = Js.toLowerCase contractAddress
    /\ TrainingDataCollector.timestamp sample = now
    /\ TrainingDataCollector.features sample = features
    /\ inUnit (TrainingDataCollector.label sample)
    /\ (forall r a, securityReport = Some r -> advancedAnalysis = Some a ->
          SecurityAnalyzer.isHoneypot r = true -> AdvancedSimulator.isScam a = true ->
          0 <= SecurityAnalyzer.riskScore r ->
          (1 # 2 < TrainingDataCollector.label sample)%Q)
    /\ (length samples <= length result <= length samples + 1)%nat
    /\ (forall s, In s samples -> ~ In s result ->
          TrainingDataCollector.contractAddress s = Js.toLowerCase contractAddress
          /\ now - 3600000 < TrainingDataCollector.timestamp s)
    /\ (forall s, In s result -> s = sample \/ In s samples).
Proof.
  cbn zeta. unfold TrainingDataCollector.collect.
  set (sample := {| TrainingDataCollector.timestamp := now;
                    TrainingDataCollector.contractAddress := Js.toLowerCase contractAddress |}).
  exists sample.
  assert (Hlabel : inUnit (TrainingDataCollector.label sample)) by apply softLabel_unit.
  assert (Hscam : forall r a, securityReport = Some r -> advancedAnalysis = Some a ->
            SecurityAnalyzer.isHoneypot r = true -> AdvancedSimulator.isScam a = true ->
            0 <= SecurityAnalyzer.riskScore r ->
            (1 # 2 < TrainingDataCollector.label sample)%Q).
  { intros r a -> -> Hh Hs Hr.
    apply (Qlt_le_trans _ (6 # 10)); [reflexivity|exact (softLabel_scam r a Hh Hs Hr)]. }
  pose proof (findIndex_spec (Js.toLowerCase contractAddress) (now - 3600000) samples) as Hfind.
  destruct (TrainingDataCollector.findIndex _ _ samples) as [i|].
  - destruct Hfind as (old & Hi & Ha & Ht).
    assert (Hlt : (i < length samples)%nat) by (apply lookup_lt_is_Some; eauto).
    split.
    { apply list_elem_of_In, list_elem_of_lookup. exists i.
      apply list_lookup_insert_eq. exact Hlt. }
    repeat (split; [reflexivity || assumption|]).
    split; [rewrite length_insert; lia|].
    split.
    + intros s Hs Hnot. apply list_elem_of_In, list_elem_of_lookup in Hs as [j Hj].
      destruct (decide (i = j)) as [<-|Hne].
      * rewrite Hi in Hj. injection Hj as <-. auto.
      * exfalso. apply Hnot. apply list_elem_of_In, list_elem_of_lookup. exists j.
        rewrite list_lookup_insert_ne by exact Hne. exact Hj.
    + intros s Hs. apply list_elem_of_In, list_elem_of_lookup in Hs as [j Hj].
      destruct (decide (i = j)) as [<-|Hne].
      * rewrite list_lookup_insert_eq in Hj by exact Hlt. injection Hj as <-. left. reflexivity.
      * rewrite list_lookup_insert_ne in Hj by exact Hne. right.
        apply list_elem_of_In, list_elem_of_lookup. eauto.
  - split; [apply in_app_iff; right; left; reflexivity|].
    repeat (split; [reflexivity || assumption|]).
    split; [rewrite length_app; cbn; lia|].
    split.
    + intros s Hs Hnot. exfalso. apply Hnot. apply in_app_iff. left. exact Hs.
    + intros s Hs. apply in_app_iff in Hs as [Hs|[<-|[]]]; auto.
Qed.

Lemma collect_spec_witness :
  exists sample,
    In sample (TrainingDataCollector.collect [] 1700000000000 "0xAB" (Some 1)
                 (MLService.buildFeatureVector "Success" None None None None)
                 (Some (SecurityAnalyzer.set_isHoneypot true (Fixtures.reportOf 50 [])))
                 (Some (AdvancedSimulator.runComprehensiveAnalysis
                          Fixtures.honeypotEngine Fixtures.tx
                          (Some (Addr.toString Fixtures.addrOwner)) None)))
    /\ (1 # 2 < TrainingDataCollector.label sample)%Q.
Proof.
  destruct (collect_spec [] 1700000000000 "0xAB" (Some 1)
              (MLService.buildFeatureVector "Success" None None None None)
              (Some (SecurityAnalyzer.set_isHoneypot true (Fixtures.reportOf 50 [])))
              (Some (AdvancedSimulator.runComprehensiveAnalysis
                       Fixtures.honeypotEngine Fixtures.tx
                       (Some (Addr.toString Fixtures.addrOwner)) None)))
    as [sample (Hin & _ & _ & _ & _ & Hscam & _)].
  exists sample. split; [exact Hin|].
  apply (Hscam _ _ eq_refl eq_refl).
  - reflexivity.
  - vm_compute. reflexivity.
  - vm_compute. discriminate.
Defined.

(** ** Re-homing the analysis on the implementation *)

Lemma injectImplementation_some {S} `{EvmApi S} (evm : S) (provider : option Provider)
      (impl : string) (a : Address) (evm' : S) :
  EvmExecutor.injectImplementation evm provider impl = (Some a, evm') ->
  exists p code,
    provider = Some p /\ p_getCode p impl = Some code /\ code <> []
    /\ Addr.fromString impl = Some a.
Proof.
  unfold EvmExecutor.injectImplementation.
  destruct provider as [p|]; [|discriminate].
  destruct (p_getCode p impl) as [[|b code]|] eqn:Hcode; try discriminate.
  destruct (Addr.fromString impl) as [implAddress|]; [|discriminate].
  destruct (getAccount evm implAddress) as [account|]; [|discriminate].
  destruct (putAccount evm implAddress _) as [evm1|]; [|discriminate].
  destruct (putCode evm1 implAddress _) as [evm2|]; [|discriminate].
  intros Heq. injection Heq as <- _.
  exists p, (b :: code). repeat split; auto; discriminate.
Qed.

(** X28. Which address the pipeline analyses.  The proxy report is the
    one [detectProxy] gives for the destination.  The analysed address is
    the destination itself unless the destination is a proxy with an
    implementation address, a provider is connected and serves non-empty
    code for that address: only then it is that implementation.  Without
    a provider, and for a destination that is no proxy, the destination is
    analysed. *)
Theorem proxyPhase_target {S} `{EvmApi S} (evm : S) (to : Address)
        (provider : option Provider) :
  let info := fst (fst (EvmExecutor.proxyPhase evm to provider)) in
  let target := snd (fst (EvmExecutor.proxyPhase evm to provider)) in
  info = fst (ProxyDetector.detectProxy evm to provider)
  /\ (target = to
      \/ exists p impl code,
           provider = Some p
           /\ ProxyDetector.isProxy info = true
           /\ ProxyDetector.implementationAddress info = Some impl
           /\ Addr.fromString impl = Some target
           /\ p_getCode p impl = Some code
           /\ code <> [])
  /\ (provider = None -> target = to)
  /\ (ProxyDetector.isProxy info = false -> target = to).
Proof.
  cbn zeta. unfold EvmExecutor.proxyPhase.
  destruct (ProxyDetector.detectProxy evm to provider) as [info evm1].
  cbn [fst].
  destruct (ProxyDetector.nextImplementation info) as [impl|] eqn:Hnext.
  - unfold ProxyDetector.nextImplementation in Hnext.
    destruct (ProxyDetector.isProxy info) eqn:Hproxy; [|discriminate].
    destruct (ProxyDetector.implementationAddress info) as [a|] eqn:Himpl; [|discriminate].
    destruct (Js.truthy a); [|discriminate]. injection Hnext as ->.
    destruct (EvmExecutor.injectImplementation evm1 provider impl) as [[target|] evm2] eqn:Hinj;
      cbn [fst snd].
    + apply injectImplementation_some in Hinj as (p & code & Hp & Hcode & Hne & Hparse).
      split; [reflexivity|]. split.
      { right. exists p, impl, code. repeat split; auto. }
      split; [intros Hnone; congruence|intros Hf; cbn in Hf; congruence].
    + split; [reflexivity|]. split; [left; reflexivity|]. split; reflexivity.
  - cbn [fst snd]. split; [reflexivity|]. split; [left; reflexivity|]. split; reflexivity.
Qed.

Lemma proxyPhase_target_witness :
  snd (fst (EvmExecutor.proxyPhase Fixtures.cyclicEvm Fixtures.addrA None)) = Fixtures.addrA.
Proof.
  refine (proj1 (proj2 (proj2 (proxyPhase_target Fixtures.cyclicEvm Fixtures.addrA None))) _).
  reflexivity.
Defined.
